(** * AMeDAS downloader (notebooks/amedas/download.py): model and properties

    A shallow embedding of [download.py]: the station record [AmedasNode],
    URL construction, the fetch-and-cache method [save], the directory
    helper [create_dir] and the registry loader [get_amedas_nodes].

    Conventions of the model.
    - A Python [str] is a [string]; its characters are read as code points
      below 256.  A value that may be [None] is an [option string].
    - Python integers are [Z]; the fields of a [date], never negative, are [N].
    - The file system and the network are explicit: a [World] holds the
      directories, the files and the chronological trace of every effect
      the program performed; the remote service is an oracle [Network].
      Making a directory and writing a file always succeed: a run in which
      the operating system refuses them (no permission, a name too long, a
      file in the way) is outside the model.
    - A path is the list of the strings joined with [/], each taken as one
      component.  This is the path [pathlib] builds when every joined
      string is a plain segment ([plain_segment]); the properties that say
      which directories exist or that a call returns after its write are
      stated for plain segments.
    - Exceptions are values: a computation returns [Ok a] or [Raise e].
    The driver [main] is modelled from the values it reads; reading
    [target.yaml] and the reference table is not. *)

From Stdlib Require Import ZArith Ascii String List Bool Lia.
From Stdlib Require Import Decimal DecimalString DecimalPos DecimalN.
From stdpp Require Import base option list strings gmap.

(** ** Exceptions and results *)

Inductive exn : Type :=
| ValueError (msg : string)
| TypeError (msg : string)
| AttributeError (msg : string)
| RequestException (msg : string)
| UnicodeError (msg : string).

(** [str(e)] *)
Definition exn_str (e : exn) : string :=
  match e with
  | ValueError m | TypeError m | AttributeError m
  | RequestException m | UnicodeError m => m
  end.

Inductive Result (A : Type) : Type :=
| Ok (a : A)
| Raise (e : exn).
Arguments Ok {A} a.
Arguments Raise {A} e.

#[global] Instance Result_ret : MRet Result := fun _ a => Ok a.
#[global] Instance Result_bind : MBind Result := fun _ _ f r =>
  match r with
  | Ok a => f a
  | Raise e => Raise e
  end.

(** ** Python built-ins used by the program *)

Module Py.

Definition code (c : ascii) : N := N_of_ascii c.

(** [str.isspace] on the code points below 256. *)
Definition isspace (c : ascii) : bool :=
  let n := code c in
  ((9 <=? n) && (n <=? 13) || (28 <=? n) && (n <=? 32)
   || (n =? 133) || (n =? 160))%N.

(** The blanks skipped by [int()] and [float()]: the ASCII blanks and the
    non-ASCII spaces; the separators 28..31 are not among them. *)
Definition isblank_num (c : ascii) : bool :=
  let n := code c in
  ((9 <=? n) && (n <=? 13) || (n =? 32) || (n =? 133) || (n =? 160))%N.

Fixpoint lstrip_by (f : ascii -> bool) (s : string) : string :=
  match s with
  | EmptyString => EmptyString
  | String c r => if f c then lstrip_by f r else s
  end.

(** Drops the trailing characters satisfying [f]. *)
Fixpoint rstrip_by (f : ascii -> bool) (s : string) : string :=
  match s with
  | EmptyString => EmptyString
  | String c r =>
      match rstrip_by f r with
      | EmptyString => if f c then EmptyString else String c EmptyString
      | r' => String c r'
      end
  end.

(** [s.strip()] *)
Definition strip (s : string) : string := rstrip_by isspace (lstrip_by isspace s).

(** [s.split(sep)] for a one-character separator: never the empty list. *)
Fixpoint split (sep : ascii) (s : string) : list string :=
  match s with
  | EmptyString => [EmptyString]
  | String c r =>
      if Ascii.eqb c sep then EmptyString :: split sep r
      else match split sep r with
           | f :: fs => String c f :: fs
           | [] => [String c EmptyString]
           end
  end.

Definition tab : ascii := ascii_of_nat 9.

Definition is_digit (c : ascii) : bool := ((48 <=? code c) && (code c <=? 57))%N.
Definition digit_val (c : ascii) : Z := (Z.of_N (code c) - 48)%Z.

(** [digit (["_"] digit)*] up to the end of the string, with its value. *)
Fixpoint digitpart (acc : Z) (after_digit : bool) (s : string) : option Z :=
  match s with
  | EmptyString => if after_digit then Some acc else None
  | String c r =>
      if is_digit c then digitpart (10 * acc + digit_val c)%Z true r
      else if Ascii.eqb c "_" && after_digit then digitpart acc false r
      else None
  end.

Definition int_literal (s : string) : option Z :=
  match rstrip_by isblank_num (lstrip_by isblank_num s) with
  | String "+" r => digitpart 0%Z false r
  | String "-" r => Z.opp <$> digitpart 0%Z false r
  | r => digitpart 0%Z false r
  end.

(** [int(x)] for [x] a [str] or [None], base 10. *)
Definition int (x : option string) : Result Z :=
  match x with
  | None => Raise (TypeError "int() argument must be a string, not 'NoneType'")
  | Some s =>
      match int_literal s with
      | Some n => Ok n
      | None => Raise (ValueError ("invalid literal for int() with base 10: " +:+ s))
      end
  end.

Definition lower (c : ascii) : ascii :=
  if ((65 <=? code c) && (code c <=? 90))%N then ascii_of_N (code c + 32) else c.

Fixpoint lower_str (s : string) : string :=
  match s with
  | EmptyString => EmptyString
  | String c r => String (lower c) (lower_str r)
  end.

(** After a digit: what follows the longest run [(["_"] digit)*]. *)
Fixpoint skip_digits (s : string) : string :=
  match s with
  | EmptyString => EmptyString
  | String c r =>
      if is_digit c then skip_digits r
      else if Ascii.eqb c "_" then
        match r with
        | String d r' => if is_digit d then skip_digits r' else s
        | EmptyString => s
        end
      else s
  end.

(** What follows a leading [digit (["_"] digit)*], if there is one. *)
Definition take_digitpart (s : string) : option string :=
  match s with
  | String c r => if is_digit c then Some (skip_digits r) else None
  | EmptyString => None
  end.

Definition drop_sign (s : string) : string :=
  match s with
  | String "+" r | String "-" r => r
  | _ => s
  end.

(** Nothing, or an exponent [("e" | "E") [sign] digitpart], up to the end. *)
Definition exponent_ok (s : string) : bool :=
  match s with
  | EmptyString => true
  | String c r =>
      if Ascii.eqb (lower c) "e" then
        match take_digitpart (drop_sign r) with
        | Some EmptyString => true
        | _ => false
        end
      else false
  end.

(** The strings [float()] accepts. *)
Definition float_literal (s : string) : bool :=
  let s := drop_sign (rstrip_by isblank_num (lstrip_by isblank_num s)) in
  let l := lower_str s in
  if String.eqb l "inf" || String.eqb l "infinity" || String.eqb l "nan" then true
  else
    match take_digitpart s with
    | Some (String "." r) =>
        match take_digitpart r with
        | Some r' => exponent_ok r'
        | None => exponent_ok r
        end
    | Some rest => exponent_ok rest
    | None =>
        match s with
        | String "." r =>
            match take_digitpart r with
            | Some r' => exponent_ok r'
            | None => false
            end
        | _ => false
        end
    end.

(** A Python [float], kept as the literal it was read from: the value is
    the binary64 number nearest to that literal. *)
Inductive pyfloat : Type := FloatOf (literal : string).

(** [float(x)] for [x] a [str] or [None]. *)
Definition float (x : option string) : Result pyfloat :=
  match x with
  | None => Raise (TypeError "float() argument must be a string or a real number, not 'NoneType'")
  | Some s =>
      if float_literal s then Ok (FloatOf (rstrip_by isblank_num (lstrip_by isblank_num s)))
      else Raise (ValueError ("could not convert string to float: " +:+ s))
  end.

(** [str(n)] for a natural number. *)
Definition str_N (n : N) : string := NilEmpty.string_of_uint (N.to_uint n).

Fixpoint zeros (k : nat) : string :=
  match k with
  | O => EmptyString
  | S k' => String "0" (zeros k')
  end.

(** [format(n, "0w")]: decimal, padded with zeros on the left to width [w]. *)
Definition zfill (w : nat) (n : N) : string :=
  let s := str_N n in
  zeros (w - String.length s) +:+ s.

(** An f-string field [{x}] for [x] a [str] or [None]. *)
Definition fstr (x : option string) : string :=
  match x with
  | None => "None"
  | Some s => s
  end.

(** Truth value of a [str | None]. *)
Definition truthy (x : option string) : bool :=
  match x with
  | None | Some EmptyString => false
  | Some _ => true
  end.

End Py.


(** ** [datetime.date] *)

Definition is_leap (y : N) : bool :=
  ((y mod 4 =? 0) && negb (y mod 100 =? 0) || (y mod 400 =? 0))%N.

Definition days_in_month (y m : N) : N :=
  match m with
  | 2 => if is_leap y then 29 else 28
  | 4 | 6 | 9 | 11 => 30
  | _ => 31
  end%N.

Definition valid_ymd (y m d : N) : bool :=
  ((1 <=? y) && (y <=? 9999) && (1 <=? m) && (m <=? 12)
   && (1 <=? d) && (d <=? days_in_month y m))%N.

(** A [date] object always holds a day of the proleptic Gregorian calendar. *)
Record date : Type := mkdate {
  year : N;
  month : N;
  day : N;
  date_valid : Is_true (valid_ymd year month day)
}.

(** The constructor [date(year=y, month=m, day=d)]. *)
Definition date_new (y m d : N) : Result date :=
  match decide (Is_true (valid_ymd y m d)) with
  | left H => Ok (mkdate y m d H)
  | right _ => Raise (ValueError "date value out of range")
  end.

(** [f"{d:%Y_%m_%d}"]: the year on four digits, month and day on two, as
    documented for [strftime] (a C library that leaves a year below 1000
    unpadded gives the same text from the year 1000 on). *)
Definition strftime_Y_m_d (d : date) : string :=
  Py.zfill 4 (year d) +:+ "_" +:+ Py.zfill 2 (month d) +:+ "_" +:+ Py.zfill 2 (day d).

(** ** The world: file system, network and log *)

(** A [pathlib.Path] relative to the working directory, as its components.
    Each string joined with [/] is taken as one component. *)
Definition Path : Type := list string.

Definition path_join (p : Path) (s : string) : Path := p ++ [s].
Infix "</>" := path_join (at level 40, left associativity).

(** [str(p)] *)
Definition path_str (p : Path) : string :=
  match p with
  | [] => "."
  | s :: r => fold_left (fun acc x => acc +:+ "/" +:+ x) r s
  end.

(** What the remote service does with one GET request. *)
Inductive Response : Type :=
| Decodes (text : string)          (* [response.text] is [text] *)
| Undecodable (msg : string).      (* reading [response.text] raises *)

Inductive Outcome : Type :=
| Responds (r : Response)
| Fails (msg : string).            (* [requests.get] raises *)

(** The remote service: its answer to a URL, given the URLs requested so
    far (oldest first). *)
Definition Network : Type := list string -> string -> Outcome.

Inductive Level : Type := INFO | WARNING | ERROR.

(** The effects the program performs, in the order it performs them. *)
Inductive Event : Type :=
| EvMkdir (p : Path)
| EvExists (p : Path) (b : bool)
| EvGet (url : string) (o : Outcome)
| EvWrite (p : Path) (content : string)
| EvLog (lvl : Level) (msg : string).

Record World : Type := mkWorld {
  dirs : gset (list string);
  files : gmap (list string) string;
  trace : list Event
}.

Definition record (e : Event) (w : World) : World :=
  mkWorld (dirs w) (files w) (trace w ++ [e]).

(** The URLs requested so far. *)
Definition requested (t : list Event) : list string :=
  omap (fun e => match e with EvGet u _ => Some u | _ => None end) t.

(** The files written so far, with their content. *)
Definition written (t : list Event) : list (Path * string) :=
  omap (fun e => match e with EvWrite p c => Some (p, c) | _ => None end) t.


(** A computation: it runs in a world, returns or raises, and leaves a world. *)
Definition M (A : Type) : Type := World -> Result A * World.

#[global] Instance M_ret : MRet M := fun _ a w => (Ok a, w).
#[global] Instance M_bind : MBind M := fun _ _ f m w =>
  match m w with
  | (Ok a, w') => f a w'
  | (Raise e, w') => (Raise e, w')
  end.

Definition raise {A : Type} (e : exn) : M A := fun w => (Raise e, w).

Definition lift {A : Type} (r : Result A) : M A := fun w => (r, w).

(** [try: body / except Exception as e: handler e] *)
Definition try_except {A : Type} (body : M A) (handler : exn -> M A) : M A :=
  fun w =>
    match body w with
    | (Ok a, w') => (Ok a, w')
    | (Raise e, w') => handler e w'
    end.

Definition logger (lvl : Level) (msg : string) : M unit :=
  fun w => (Ok tt, record (EvLog lvl msg) w).

(** The non-empty prefixes of a path: its ancestors, then the path. *)
Fixpoint ancestors_and_self (p : Path) : list Path :=
  match p with
  | [] => []
  | s :: r => [s] :: map (cons s) (ancestors_and_self r)
  end.

(** [p.mkdir(parents=True, exist_ok=True)]: the directory and its missing
    ancestors are made; nothing happens to those already there. *)
Definition mkdir (p : Path) : M unit :=
  fun w => (Ok tt, mkWorld (dirs w ∪ list_to_set (ancestors_and_self p)) (files w)
                           (trace w ++ [EvMkdir p])).

Definition exists_in (w : World) (p : Path) : bool :=
  bool_decide (p = []) || bool_decide (p ∈ dirs w) || bool_decide (is_Some (files w !! p)).

(** [p.exists()]: true for a file and for a directory. *)
Definition path_exists (p : Path) : M bool :=
  fun w => let b := exists_in w p in (Ok b, record (EvExists p b) w).

(** [with p.open("w", encoding="utf-8-sig") as fw: fw.write(text)]: the
    file holds [text] afterwards, whatever it held before. *)
Definition write_text (p : Path) (text : string) : M unit :=
  fun w => (Ok tt, mkWorld (dirs w) (<[p := text]> (files w)) (trace w ++ [EvWrite p text])).

(** ** [create_dir] *)

(** The loop of [create_dir], started from [current_dir]. *)
Fixpoint create_dir_from (current_dir : Path) (path_list : list string) : M Path :=
  match path_list with
  | [] => mret current_dir
  | directory :: rest =>
      let current_dir := current_dir </> directory in
      mkdir current_dir;;
      create_dir_from current_dir rest
  end.

Definition create_dir (path_list : list string) : M Path :=
  create_dir_from [] path_list.

(** ** The [requests] library *)

Section Requests.
Variable net : Network.

(** [requests.get(url)].  Given [None], the library raises [MissingSchema]
    while it prepares the request, before any network access. *)
Definition requests_get (url : option string) : M Response :=
  match url with
  | None => raise (RequestException "Invalid URL 'None': No scheme supplied.")
  | Some u =>
      fun w =>
        let o := net (requested (trace w)) u in
        let w' := record (EvGet u o) w in
        match o with
        | Responds r => (Ok r, w')
        | Fails msg => (Raise (RequestException msg), w')
        end
  end.

(** [response.encoding = "utf-8"; response.text] *)
Definition response_text (r : Response) : M string :=
  match r with
  | Decodes text => mret text
  | Undecodable msg => raise (UnicodeError msg)
  end.
End Requests.

(** ** class [AmedasNode] *)

Module AmedasNode.

Record t : Type := mk {
  block_no : option string;
  prec_no : option string;
  name : option string;
  id : option string;
  area_code : option string;
  group_code : option string;
  height : Py.pyfloat;
  url_part : string
}.

Definition __init__ (prec_no block_no name _id area_code group_code height : option string)
  : Result t :=
  h ← Py.float height;
  n ← Py.int block_no;
  mret (mk block_no prec_no name _id area_code group_code h
           (if (n <? 10000)%Z then "a" else "s")).

Section Methods.
Variable net : Network.

Definition _construct_url (self : t) (data_type : string) (target_date : option date)
  : M (option string) :=
  if decide (data_type ∈ ["10min"; "hourly"; "daily"]) then
    match target_date with
    | None => raise (AttributeError "'NoneType' object has no attribute 'year'")
    | Some d =>
        mret (Some
          ("http://www.data.jma.go.jp/obd/stats/etrn/view/" +:+ data_type +:+ "_"
           +:+ url_part self +:+ "1.php?"
           +:+ "prec_no=" +:+ Py.fstr (prec_no self)
           +:+ "&block_no=" +:+ Py.fstr (block_no self)
           +:+ "&year=" +:+ Py.str_N (year d) +:+ "&"
           +:+ "month=" +:+ Py.zfill 2 (month d)
           +:+ "&day=" +:+ Py.zfill 2 (day d) +:+ "&view="))
    end
  else if decide (data_type = "real-time") then
    mret (Some ("http://www.jma.go.jp/jp/amedas_h/today-" +:+ Py.fstr (id self) +:+ ".html"))
  else
    logger WARNING ("Unknown data type: " +:+ data_type);;
    mret None.

Definition _download_html (self : t) (url : option string) : M (option string) :=
  try_except
    (response ← requests_get net url;
     text ← response_text response;
     mret (Some text))
    (fun e =>
       logger ERROR ("--download error-- " +:+ exn_str e);;
       mret None).

Definition get_data (self : t) (data_type : string) (target_date : option date)
  : M (option string) :=
  url ← _construct_url self data_type target_date;
  logger INFO ("--target url-- " +:+ Py.fstr url);;
  _download_html self url.

Definition save (self : t) (data_type : string) (target_date : date) (force : bool)
  : M bool :=
  date_to_use ← (if decide (data_type = "daily")
                 then lift (date_new (year target_date) (month target_date) 1)
                 else mret target_date);
  dir_path ← create_dir
    [ "raw_html";
      data_type;
      Py.fstr (block_no self) +:+ "_" +:+ Py.fstr (name self);
      Py.str_N (year date_to_use) ];
  let file_name :=
    Py.fstr (block_no self) +:+ "_" +:+ Py.fstr (name self) +:+ "_"
    +:+ strftime_Y_m_d date_to_use +:+ ".html" in
  let file_path := dir_path </> file_name in
  file_exists ← path_exists file_path;
  if negb file_exists || force then
    html ← get_data self data_type (Some date_to_use);
    (if Py.truthy html then
       write_text file_path (default EmptyString html);;
       logger INFO ("Data saved to " +:+ path_str file_path)
     else mret tt);;
    mret true
  else
    logger INFO (path_str file_path +:+ " already exists.");;
    mret false.
End Methods.

End AmedasNode.

(** ** [get_amedas_nodes] *)

(** [prec_no, block_no, name, *_, height, _id, area_code, group_code = fields] *)
Definition unpack_fields {A : Type} (fields : list A) : option (A * A * A * A * A * A * A) :=
  match fields with
  | prec_no :: block_no :: name :: rest =>
      match rev rest with
      | group_code :: area_code :: _id :: height :: _ =>
          Some (prec_no, block_no, name, height, _id, area_code, group_code)
      | _ => None
      end
  | _ => None
  end.

(** The body of the loop over the lines of [AMeDAS_list.csv]. *)
Definition load_line (amedas_nodes : gmap (option string) AmedasNode.t) (line : string)
  : Result (gmap (option string) AmedasNode.t) :=
  let fields := Py.split Py.tab (Py.strip line) in
  let fields := map (fun x => if decide (x = "None") then None else Some x) fields in
  if (length fields <? 10)%nat then mret amedas_nodes
  else
    match unpack_fields fields with
    | None => Raise (ValueError "not enough values to unpack")
    | Some (prec_no, block_no, name, height, _id, area_code, group_code) =>
        node ← AmedasNode.__init__ prec_no block_no name _id area_code group_code height;
        mret (<[block_no := node]> amedas_nodes)
    end.

Fixpoint load_lines (amedas_nodes : gmap (option string) AmedasNode.t) (lines : list string)
  : Result (gmap (option string) AmedasNode.t) :=
  match lines with
  | [] => mret amedas_nodes
  | line :: rest =>
      amedas_nodes ← load_line amedas_nodes line;
      load_lines amedas_nodes rest
  end.

(** [get_amedas_nodes()], on the lines of the reference table as the file
    object yields them. *)
Definition get_amedas_nodes (lines : list string) : Result (gmap (option string) AmedasNode.t) :=
  load_lines ∅ lines.

(** ** Notions used to state the properties *)

(** The local [date_to_use] of [save]. *)
Definition first_of_month (d : date) : date :=
  match date_new (year d) (month d) 1 with
  | Ok d' => d'
  | Raise _ => d
  end.

Definition date_to_use (data_type : string) (target_date : date) : date :=
  if decide (data_type = "daily") then first_of_month target_date else target_date.

(** The locals [dir_path], [file_name] and [file_path] of [save], for the
    effective date [d]. *)
Definition dir_path (self : AmedasNode.t) (data_type : string) (d : date) : Path :=
  [ "raw_html";
    data_type;
    Py.fstr (AmedasNode.block_no self) +:+ "_" +:+ Py.fstr (AmedasNode.name self);
    Py.str_N (year d) ].

Definition file_name (self : AmedasNode.t) (d : date) : string :=
  Py.fstr (AmedasNode.block_no self) +:+ "_" +:+ Py.fstr (AmedasNode.name self) +:+ "_"
  +:+ strftime_Y_m_d d +:+ ".html".

Definition file_path (self : AmedasNode.t) (data_type : string) (d : date) : Path :=
  dir_path self data_type d </> file_name self d.

(** ** Plain path segments

    [path_join] takes every joined string as one component, and
    [write_text] finds the parent of the file in place.  That is what
    [pathlib] and the file system do when the string is a plain segment: not
    empty, not [.] or [..], and free of [/] and of the NUL character.  For
    any other string [pathlib] cuts it at every [/], drops the empty pieces
    and the pieces [.], and starts again from the root at a leading [/];
    the file system reads [..] as the parent and Python refuses NUL.  The
    directories made then differ from the lists of the model, and when the
    file name holds a [/] the directory the file is to be written in was
    never made, so that [open] raises [FileNotFoundError].  For plain
    segments the components [pathlib] finds are those of the model
    ([plain_paths_file_path]). *)
Definition plain_char (c : ascii) : bool :=
  negb (Ascii.eqb c "/") && negb (Ascii.eqb c "000").

Definition plain_segment (s : string) : bool :=
  negb (String.eqb s "") && negb (String.eqb s ".") && negb (String.eqb s "..")
  && forallb plain_char (list_ascii_of_string s).

(** The components [pathlib] appends for a joined string that does not
    start with [/]. *)
Definition pathlib_parts (s : string) : list string :=
  List.filter (fun x => negb (String.eqb x "") && negb (String.eqb x "."))
              (Py.split "/" s).

(** The strings [save] joins into its paths for this station and this
    resolution are plain: the resolution, and [{block_no}_{name}], which also
    starts the file name. *)
Definition plain_paths (self : AmedasNode.t) (data_type : string) : Prop :=
  plain_segment data_type = true
  ∧ plain_segment (Py.fstr (AmedasNode.block_no self) +:+ "_"
                   +:+ Py.fstr (AmedasNode.name self)) = true.

Definition empty_world : World := mkWorld ∅ ∅ [].

(** The URL [_construct_url] returns; it does not depend on the world. *)
Definition url_for (self : AmedasNode.t) (data_type : string) (d : date) : option string :=
  match (AmedasNode._construct_url self data_type (Some d) empty_world).1 with
  | Ok url => url
  | Raise _ => None
  end.

(** The world after [mkdir] on every non-empty prefix of [p], in order. *)
Definition mkdirs (p : Path) (w : World) : World :=
  mkWorld (dirs w ∪ list_to_set (ancestors_and_self p)) (files w)
          (trace w ++ map EvMkdir (ancestors_and_self p)).

(** The text a request obtained, if any. *)
Definition body_of (o : Outcome) : option string :=
  match o with
  | Responds (Decodes text) => Some text
  | _ => None
  end.

(** What [_download_html] logs after the request, when the fetch failed. *)
Definition failure_log (o : Outcome) : list Event :=
  match o with
  | Responds (Decodes _) => []
  | Responds (Undecodable msg) | Fails msg => [EvLog ERROR ("--download error-- " +:+ msg)]
  end.

(** The effects of one call of [get_data] for the URL [url], when [reqs]
    are the URLs requested before it. *)
Definition fetch_events (net : Network) (url : option string) (reqs : list string)
  : list Event :=
  EvLog INFO ("--target url-- " +:+ Py.fstr url)
  :: match url with
     | None => [EvLog ERROR "--download error-- Invalid URL 'None': No scheme supplied."]
     | Some u => EvGet u (net reqs u) :: failure_log (net reqs u)
     end.

(** The text that call returns. *)
Definition fetched (net : Network) (url : option string) (reqs : list string)
  : option string :=
  match url with
  | None => None
  | Some u => body_of (net reqs u)
  end.

(** A response body was received from the service. *)
Definition downloaded (evs : list Event) : Prop :=
  ∃ u text, EvGet u (Responds (Decodes text)) ∈ evs.

(** [get_data] was entered: it logs the target URL first. *)
Definition fetch_attempted (evs : list Event) : Prop :=
  ∃ u, EvLog INFO ("--target url-- " +:+ u) ∈ evs.

Definition known_data_type (data_type : string) : Prop :=
  data_type ∈ ["10min"; "hourly"; "daily"; "real-time"].

(** The value of a numeral read from its most significant digit. *)
Fixpoint uint_val (acc : Z) (d : Decimal.uint) : Z :=
  match d with
  | Decimal.Nil => acc
  | Decimal.D0 d' => uint_val (10 * acc + 0) d'
  | Decimal.D1 d' => uint_val (10 * acc + 1) d'
  | Decimal.D2 d' => uint_val (10 * acc + 2) d'
  | Decimal.D3 d' => uint_val (10 * acc + 3) d'
  | Decimal.D4 d' => uint_val (10 * acc + 4) d'
  | Decimal.D5 d' => uint_val (10 * acc + 5) d'
  | Decimal.D6 d' => uint_val (10 * acc + 6) d'
  | Decimal.D7 d' => uint_val (10 * acc + 7) d'
  | Decimal.D8 d' => uint_val (10 * acc + 8) d'
  | Decimal.D9 d' => uint_val (10 * acc + 9) d'
  end%Z.

(** The fields the loader computes for a line. *)
Definition row_fields (line : string) : list (option string) :=
  map (fun x => if decide (x = "None") then None else Some x)
      (Py.split Py.tab (Py.strip line)).


(** ** A station, a date and two services used in the examples *)

Definition wakkanai : AmedasNode.t :=
  AmedasNode.mk (Some "47401") (Some "11") (Some "Wakkanai") (Some "11016")
                (Some "011000") (Some "11") (Py.FloatOf "2.8") "s".

Definition date_2016_04_12 : date := mkdate 2016 4 12 I.
Definition date_2016_05_01 : date := mkdate 2016 5 1 I.
Definition date_2016_05_17 : date := mkdate 2016 5 17 I.

Definition net_down : Network := fun _ _ => Fails "connection refused".
Definition net_up : Network := fun _ _ => Responds (Decodes "<html></html>").

Definition wakkanai_hourly_path : Path :=
  ["raw_html"; "hourly"; "47401_Wakkanai"; "2016"; "47401_Wakkanai_2016_04_12.html"].

Definition wakkanai_hourly_url : string :=
  "http://www.data.jma.go.jp/obd/stats/etrn/view/hourly_s1.php?prec_no=11&block_no=47401&year=2016&month=04&day=12&view=".

(** A line of the reference table: the fields joined by tabs, and a newline. *)
Fixpoint tsv (fields : list string) : string :=
  match fields with
  | [] => String (ascii_of_nat 10) EmptyString
  | [x] => x +:+ String (ascii_of_nat 10) EmptyString
  | x :: rest => x +:+ String Py.tab (tsv rest)
  end.

Definition wakkanai_row : string :=
  tsv ["11"; "47401"; "Wakkanai"; "WAKKANAI"; "45.415"; "141.678"; "2.8"; "11016"; "011000"; "11"].

Definition short_row : string := tsv ["99"; "47401"; "Nowhere"; "NOWHERE"; "0.0"].

(** A world whose cache already holds the hourly page of that day. *)
Definition cached_world : World :=
  mkWorld ∅ {[ wakkanai_hourly_path := "old page" ]} [].

(** ** [main]

    The driver, from the values it reads: the arguments of the command
    line, the lines of the reference table, and the start date, end date,
    resolutions and target identifiers of [target.yaml], the identifiers
    being strings.  Reading and parsing the two files is not modelled. *)

(** How a run of the driver ends when it does not return: with an exception
    of [exn], or with the [OverflowError] of date arithmetic. *)
Inductive Crash : Type :=
| Uncaught (e : exn)
| OverflowError (msg : string).

Inductive Ending (A : Type) : Type :=
| Done (a : A)
| Crashed (c : Crash).
Arguments Done {A} a.
Arguments Crashed {A} c.

(** The process: the world, and for every pause of [time.sleep] the length
    the trace had when the pause was taken. *)
Record Process : Type := mkProcess {
  world : World;
  slept_at : list nat
}.

Definition Driver (A : Type) : Type := Process -> Ending A * Process.

#[global] Instance Driver_ret : MRet Driver := fun _ a p => (Done a, p).
#[global] Instance Driver_bind : MBind Driver := fun _ _ f m p =>
  match m p with
  | (Done a, p') => f a p'
  | (Crashed c, p') => (Crashed c, p')
  end.

(** A computation on the world, run by the driver. *)
Definition in_world {A : Type} (m : M A) : Driver A :=
  fun p =>
    match m (world p) with
    | (Ok a, w') => (Done a, mkProcess w' (slept_at p))
    | (Raise e, w') => (Crashed (Uncaught e), mkProcess w' (slept_at p))
    end.

Definition ending {A : Type} (e : Ending A) : Driver A := fun p => (e, p).

Definition of_result {A : Type} (r : Result A) : Ending A :=
  match r with
  | Ok a => Done a
  | Raise e => Crashed (Uncaught e)
  end.

(** [time.sleep(0.2)] *)
Definition sleep : Driver unit :=
  fun p => (Done tt, mkProcess (world p) (slept_at p ++ [length (trace (world p))])).

(** [a <= b] on dates *)
Definition date_le (a b : date) : bool :=
  ((year a <? year b)
   || (year a =? year b)
      && ((month a <? month b) || (month a =? month b) && (day a <=? day b)))%N.

(** [d + timedelta(days=1)]: the next day, [OverflowError] after 9999-12-31. *)
Definition add_day (d : date) : Ending date :=
  let '(y, m, dd) :=
    if (day d <? days_in_month (year d) (month d))%N then (year d, month d, day d + 1)%N
    else if (month d <? 12)%N then (year d, month d + 1, 1)%N
    else (year d + 1, 1, 1)%N in
  match date_new y m dd with
  | Ok d' => Done d'
  | Raise _ => Crashed (OverflowError "date value out of range")
  end.

(** [d + relativedelta(months=1)]: the same day of the next month, or the
    last day of that month when it is shorter; [ValueError] from
    [date.replace] after December 9999. *)
Definition add_month (d : date) : Ending date :=
  let '(y, m) := if (12 <? month d + 1)%N then (year d + 1, month d + 1 - 12)%N
                 else (year d, month d + 1)%N in
  let dd := N.min (days_in_month y m) (day d) in
  match date_new y m dd with
  | Ok d' => Done d'
  | Raise _ => Crashed (Uncaught (ValueError "year 10000 is out of range"))
  end.

(** [for x in l: body x] *)
Fixpoint for_each {A : Type} (l : list A) (body : A -> Driver unit) : Driver unit :=
  match l with
  | [] => mret tt
  | x :: rest => body x;; for_each rest body
  end.

(** The step of [date_iter]: one day for "10min", "hourly" and "real-time",
    one month for anything else. *)
Definition step (resolution : string) (date_iter : date) : Ending date :=
  if decide (resolution ∈ ["10min"; "hourly"; "real-time"]) then add_day date_iter
  else add_month date_iter.

(** A number that grows with the date: strictly with every step. *)
Definition stamp (d : date) : N := ((year d * 12 + month d) * 32 + day d)%N.

(** The turns the loop over the dates can take from [date_iter] to
    [end_date] at most. *)
Definition turns (date_iter end_date : date) : nat :=
  S (N.to_nat (stamp end_date - stamp date_iter)).

(** [while date_iter <= end_date: body date_iter; date_iter += step], for
    at most [fuel] turns. *)
Fixpoint while_dates (fuel : nat) (body : date -> Driver unit) (resolution : string)
         (date_iter end_date : date) : Driver unit :=
  match fuel with
  | O => mret tt
  | S fuel' =>
      if date_le date_iter end_date then
        body date_iter;;
        date_iter' ← ending (step resolution date_iter);
        while_dates fuel' body resolution date_iter' end_date
      else mret tt
  end.

Section Main.
Variable net : Network.

(** The body of the loop over the target identifiers. *)
Definition visit (amedas_nodes : gmap (option string) AmedasNode.t) (force_download : bool)
           (resolution : string) (date_iter : date) (block_no : string) : Driver unit :=
  match amedas_nodes !! Some block_no with
  | Some node =>
      in_world (AmedasNode.save net node resolution date_iter force_download);;
      sleep
  | None => in_world (logger WARNING ("Unknown block number: " +:+ block_no))
  end.

Definition main (argv lines : list string) (start_date end_date : date)
           (resolutions target_nodes : list string) : Driver unit :=
  let force_download := bool_decide ("-f" ∈ argv) in
  amedas_nodes ← ending (of_result (get_amedas_nodes lines));
  for_each resolutions (fun resolution =>
    while_dates (turns start_date end_date)
      (fun date_iter =>
         for_each target_nodes (visit amedas_nodes force_download resolution date_iter))
      resolution start_date end_date).
End Main.

(** ** Notions used to state the further properties *)

(** The path is [raw_html] or lies below it. *)
Definition under_raw_html (p : Path) : Prop := ∃ rest, p = "raw_html" :: rest.

(** The URL belongs to one of the two endpoints of the service. *)
Definition jma_url (u : string) : Prop :=
  (∃ rest, u = "http://www.data.jma.go.jp/obd/stats/etrn/view/" +:+ rest)
  ∨ (∃ rest, u = "http://www.jma.go.jp/jp/amedas_h/today-" +:+ rest).

(** The station a row with these fields builds: the unpacking of
    [get_amedas_nodes] followed by the constructor. *)
Definition row_station (fields : list (option string)) : Result AmedasNode.t :=
  match unpack_fields fields with
  | Some (prec_no, block_no, name, height, _id, area_code, group_code) =>
      AmedasNode.__init__ prec_no block_no name _id area_code group_code height
  | None => Raise (ValueError "not enough values to unpack")
  end.

(** Every character of the string is white space for [str.strip]. *)
Fixpoint all_space (s : string) : bool :=
  match s with
  | EmptyString => true
  | String c r => Py.isspace c && all_space r
  end.

(** Reads the decimal digits a string starts with: their value, and what
    follows them. *)
Fixpoint read_digits (acc : Z) (s : string) : Z * string :=
  match s with
  | EmptyString => (acc, s)
  | String c r =>
      if Py.is_digit c then read_digits (10 * acc + Py.digit_val c)%Z r else (acc, s)
  end.

(** The string does not start with a digit. *)
Definition no_digit_ahead (s : string) : Prop :=
  match s with
  | EmptyString => True
  | String c _ => Py.is_digit c = false
  end.

(** The turns a date still needs: none once it is past the end. *)
Definition turns_needed (d end_date : date) : nat :=
  if date_le d end_date then turns d end_date else 0.

(** What one call of [save] for the effective date [d] may do. *)
Definition save_event (self : AmedasNode.t) (data_type : string) (d : date) (e : Event)
  : Prop :=
  match e with
  | EvMkdir p => p ≠ [] ∧ p `prefix_of` dir_path self data_type d
  | EvExists p _ => p = file_path self data_type d
  | EvGet u _ => url_for self data_type d = Some u
  | EvWrite p c => p = file_path self data_type d ∧ c ≠ EmptyString
  | EvLog _ _ => True
  end.

(** The dates the [while] loop of [main] can reach from [d] by the steps of
    the resolution. *)
Inductive stepped (resolution : string) : date → date → Prop :=
| stepped_here (d : date) : stepped resolution d d
| stepped_next (d d' d'' : date) :
    step resolution d = Done d' → stepped resolution d' d'' → stepped resolution d d''.

(** What a run of [main] may do: warn about an identifier, or what [save]
    may do for a station the registry binds to a configured identifier, a
    configured resolution and a date between the start and the end. *)
Definition main_event (nodes : gmap (option string) AmedasNode.t)
           (start_date end_date : date) (resolutions target_nodes : list string)
           (e : Event) : Prop :=
  (∃ block_no, block_no ∈ target_nodes ∧ nodes !! Some block_no = None
               ∧ e = EvLog WARNING ("Unknown block number: " +:+ block_no))
  ∨ ∃ block_no node resolution d,
      block_no ∈ target_nodes ∧ nodes !! Some block_no = Some node
      ∧ resolution ∈ resolutions
      ∧ stepped resolution start_date d
      ∧ date_le start_date d = true ∧ date_le d end_date = true
      ∧ save_event node resolution (date_to_use resolution d) e.

Definition is_request (e : Event) : bool :=
  match e with EvGet _ _ => true | _ => false end.

Definition is_lookup (e : Event) : bool :=
  match e with EvExists _ _ => true | _ => false end.

(** A pause is marked by the length the trace had when it was taken.  In
    the trace [t] with the pauses [ks], the event at position [i] is
    followed by a pause, and no event of the kind [P] lies between the two. *)
Definition paused_after (P : Event → bool) (t : list Event) (ks : list nat) (i : nat)
  : Prop :=
  ∃ k, k ∈ ks ∧ (i < k ≤ length t)%nat
       ∧ ∀ j e, (i < j < k)%nat → t !! j = Some e → P e = false.

(** Every station a run can visit, with every configured resolution, has
    plain path segments. *)
Definition plain_run (nodes : gmap (option string) AmedasNode.t)
           (resolutions target_nodes : list string) : Prop :=
  ∀ block_no node resolution,
    block_no ∈ target_nodes → nodes !! Some block_no = Some node →
    resolution ∈ resolutions → plain_paths node resolution.

(** The last day a [date] can hold. *)
Definition date_max : date := mkdate 9999 12 31 I.

(** No file of the world is empty. *)
Definition cache_nonempty (w : World) : Prop :=
  ∀ p c, files w !! p = Some c → c ≠ EmptyString.

(** ** Basic facts *)

Lemma valid_first y m d : Is_true (valid_ymd y m d) → Is_true (valid_ymd y m 1).
Proof.
  unfold valid_ymd. rewrite !andb_True. intros [[[[[Hy1 Hy2] Hm1] Hm2] _] _].
  repeat split; try assumption.
  apply Is_true_true, N.leb_le. unfold days_in_month.
  repeat (match goal with |- context [match ?x with _ => _ end] => destruct x end; try lia).
Qed.

Lemma date_new_first (d : date) :
  date_new (year d) (month d) 1 = Ok (first_of_month d).
Proof.
  unfold first_of_month, date_new.
  destruct (decide _) as [H|H]; [reflexivity|].
  destruct H. apply (valid_first _ _ (day d)), date_valid.
Qed.

Lemma date_eq (d1 d2 : date) :
  year d1 = year d2 → month d1 = month d2 → day d1 = day d2 → d1 = d2.
Proof.
  destruct d1 as [y1 m1 a1 H1], d2 as [y2 m2 a2 H2]; simpl.
  intros -> -> ->. f_equal. apply proof_irrel.
Qed.

Lemma first_of_month_fields (d : date) :
  year (first_of_month d) = year d ∧ month (first_of_month d) = month d
  ∧ day (first_of_month d) = 1%N.
Proof.
  pose proof (date_new_first d) as H. unfold date_new in H.
  destruct (decide _); [|discriminate]. injection H as <-. done.
Qed.

(** *** Directories *)

Lemma elem_of_ancestors_and_self (q p : Path) :
  q ∈ ancestors_and_self p ↔ q ≠ [] ∧ q `prefix_of` p.
Proof.
  revert q. induction p as [|s r IH]; intros q; simpl.
  - split; [intros H; inversion H|]. intros [Hne [k Hk]].
    symmetry in Hk. apply app_eq_nil in Hk as [-> _]. done.
  - rewrite elem_of_cons, list_elem_of_fmap. split.
    + intros [->|(q' & -> & Hq')].
      * split; [done|]. by exists r.
      * apply IH in Hq' as [_ Hpre]. split; [done|]. by apply prefix_cons.
    + intros [Hne [k Hk]]. destruct q as [|a q']; [done|].
      injection Hk as <- ->. destruct q' as [|b q''].
      * by left.
      * right. exists (b :: q''). split; [done|]. apply IH. split; [done|]. by exists k.
Qed.

Lemma ancestors_closed (p : Path) :
  list_to_set (C := gset (list string)) (flat_map ancestors_and_self (ancestors_and_self p))
  = list_to_set (ancestors_and_self p).
Proof.
  apply set_eq. intros q. rewrite !elem_of_list_to_set, list_elem_of_In, in_flat_map.
  setoid_rewrite <- list_elem_of_In. setoid_rewrite elem_of_ancestors_and_self. split.
  - intros (x & [_ Hx] & Hne & Hq). split; [done|]. by etrans.
  - intros [Hne Hq]. exists q. done.
Qed.

Lemma create_dir_from_run (cur : Path) (l : list string) (w : World) :
  create_dir_from cur l w =
  (Ok (cur ++ l),
   mkWorld
     (dirs w ∪ list_to_set (flat_map ancestors_and_self (map (app cur) (ancestors_and_self l))))
     (files w)
     (trace w ++ map EvMkdir (map (app cur) (ancestors_and_self l)))).
Proof.
  revert cur w. induction l as [|x r IH]; intros cur w; simpl.
  - destruct w as [ds fs tr]; unfold mret, M_ret; simpl.
    by rewrite !app_nil_r, union_empty_r_L.
  - unfold mbind, M_bind, mkdir at 1. rewrite IH. simpl.
    unfold path_join. rewrite <- !app_assoc, !map_map. simpl.
    rewrite list_to_set_app_L, union_assoc_L.
    rewrite (map_ext (app (cur ++ [x])) (fun q => cur ++ x :: q))
      by (intros q; by rewrite <- app_assoc).
    rewrite (map_ext (fun q => EvMkdir ((cur ++ [x]) ++ q)) (fun q => EvMkdir (cur ++ x :: q)))
      by (intros q; by rewrite <- app_assoc).
    reflexivity.
Qed.

Lemma create_dir_run (l : list string) (w : World) :
  create_dir l w = (Ok l, mkdirs l w).
Proof.
  unfold create_dir, mkdirs. rewrite create_dir_from_run. simpl.
  rewrite map_id. by rewrite ancestors_closed.
Qed.

Lemma exists_in_mkdirs (p : Path) (s : string) (w : World) :
  exists_in (mkdirs p w) (p </> s) = exists_in w (p </> s).
Proof.
  unfold exists_in, mkdirs; simpl. do 2 f_equal.
  apply bool_decide_ext. rewrite elem_of_union, elem_of_list_to_set, elem_of_ancestors_and_self.
  split; [|by left]. intros [H|[_ Hpre]]; [done|].
  apply prefix_length in Hpre. unfold path_join in Hpre. rewrite length_app in Hpre.
  simpl in Hpre. lia.
Qed.

(** *** Running the monad *)

Lemma bind_run {A B : Type} (m : M A) (f : A → M B) (w : World) :
  (m ≫= f) w = match m w with
               | (Ok a, w') => f a w'
               | (Raise e, w') => (Raise e, w')
               end.
Proof. reflexivity. Qed.

Lemma requested_app (t1 t2 : list Event) :
  requested (t1 ++ t2) = requested t1 ++ requested t2.
Proof. apply omap_app. Qed.

Lemma requested_mkdirs (l : list Path) : requested (map EvMkdir l) = [].
Proof. induction l; simpl; auto. Qed.

Lemma written_app (t1 t2 : list Event) :
  written (t1 ++ t2) = written t1 ++ written t2.
Proof. apply omap_app. Qed.

Lemma written_mkdirs (l : list Path) : written (map EvMkdir l) = [].
Proof. induction l; simpl; auto. Qed.

(** *** URL construction *)

Lemma known_data_type_cases (data_type : string) :
  known_data_type data_type ↔
  data_type ∈ ["10min"; "hourly"; "daily"] ∨ data_type = "real-time".
Proof.
  unfold known_data_type. rewrite !elem_of_cons, !elem_of_nil. tauto.
Qed.

Lemma construct_url_run (self : AmedasNode.t) (data_type : string) (d : date) (w : World) :
  AmedasNode._construct_url self data_type (Some d) w =
  (Ok (url_for self data_type d),
   if decide (known_data_type data_type) then w
   else record (EvLog WARNING ("Unknown data type: " +:+ data_type)) w).
Proof.
  unfold url_for, AmedasNode._construct_url.
  destruct (decide (data_type ∈ _)) as [H3|H3].
  - rewrite decide_True by (apply known_data_type_cases; by left). reflexivity.
  - destruct (decide (data_type = "real-time")) as [Hr|Hr].
    + rewrite decide_True by (apply known_data_type_cases; by right). reflexivity.
    + rewrite decide_False by (rewrite known_data_type_cases; tauto). reflexivity.
Qed.


(** *** Fetching *)

Lemma download_html_run (net : Network) (self : AmedasNode.t) (url : option string) (w : World) :
  AmedasNode._download_html net self url w =
  (Ok (fetched net url (requested (trace w))),
   mkWorld (dirs w) (files w)
           (trace w ++ tail (fetch_events net url (requested (trace w))))).
Proof.
  unfold AmedasNode._download_html, try_except, fetched, fetch_events.
  destruct url as [u|]; simpl; [|reflexivity].
  rewrite bind_run. unfold requests_get.
  destruct (net (requested (trace w)) u) as [[text|msg]|msg]; simpl; try reflexivity.
  all: rewrite bind_run; unfold logger, record, mret, M_ret; simpl; by rewrite <- app_assoc.
Qed.

Lemma get_data_run (net : Network) (self : AmedasNode.t) (data_type : string)
      (d : date) (w : World) :
  AmedasNode.get_data net self data_type (Some d) w =
  (Ok (fetched net (url_for self data_type d) (requested (trace w))),
   mkWorld (dirs w) (files w)
     (trace w
      ++ (if decide (known_data_type data_type) then []
          else [EvLog WARNING ("Unknown data type: " +:+ data_type)])
      ++ fetch_events net (url_for self data_type d) (requested (trace w)))).
Proof.
  unfold AmedasNode.get_data. rewrite bind_run, construct_url_run.
  rewrite bind_run. unfold logger at 1. rewrite download_html_run.
  destruct (decide (known_data_type data_type)); simpl;
    rewrite ?requested_app; simpl; rewrite ?app_nil_r, <- ?app_assoc; reflexivity.
Qed.

(** *** One call of [save] *)

#[local] Arguments mkdirs : simpl never.
#[local] Arguments path_str : simpl never.
#[local] Arguments file_path : simpl never.
#[local] Arguments dir_path : simpl never.

Lemma requested_after_dirs (p fp : Path) (b : bool) (w : World) :
  requested (trace (record (EvExists fp b) (mkdirs p w))) = requested (trace w).
Proof.
  unfold record, mkdirs; simpl.
  rewrite !requested_app, requested_mkdirs; simpl. by rewrite !app_nil_r.
Qed.

Lemma save_run (net : Network) (self : AmedasNode.t) (data_type : string)
      (target_date : date) (force : bool) (w : World) :
  let d := date_to_use data_type target_date in
  let fp := file_path self data_type d in
  let ex := exists_in w fp in
  let w1 := record (EvExists fp ex) (mkdirs (dir_path self data_type d) w) in
  let html := fetched net (url_for self data_type d) (requested (trace w)) in
  AmedasNode.save net self data_type target_date force w =
  if negb ex || force then
    (Ok true,
     mkWorld (dirs w1)
       (if Py.truthy html then <[fp := default EmptyString html]> (files w) else files w)
       (trace w1
        ++ (if decide (known_data_type data_type) then []
            else [EvLog WARNING ("Unknown data type: " +:+ data_type)])
        ++ fetch_events net (url_for self data_type d) (requested (trace w))
        ++ (if Py.truthy html
            then [EvWrite fp (default EmptyString html);
                  EvLog INFO ("Data saved to " +:+ path_str fp)]
            else [])))
  else
    (Ok false, record (EvLog INFO (path_str fp +:+ " already exists.")) w1).
Proof.
  intros d fp ex w1 html. unfold AmedasNode.save. rewrite bind_run.
  assert ((if decide (data_type = "daily")
           then lift (date_new (year target_date) (month target_date) 1)
           else mret target_date) w = (Ok d, w)) as ->.
  { subst d. unfold date_to_use. destruct (decide _); [|reflexivity].
    unfold lift. by rewrite date_new_first. }
  rewrite bind_run, create_dir_run. fold (dir_path self data_type d).
  fold (file_name self d). rewrite bind_run. unfold path_exists.
  rewrite exists_in_mkdirs. fold (file_path self data_type d). fold fp. fold ex. fold w1.
  destruct (negb ex || force); [|reflexivity].
  rewrite bind_run, get_data_run. subst w1. rewrite requested_after_dirs. fold html.
  rewrite bind_run.
  destruct (Py.truthy html).
  - rewrite !bind_run. unfold write_text, logger, record, mkdirs, mret, M_ret.
    cbn [dirs files trace]. by rewrite <- !app_assoc.
  - unfold record, mkdirs, mret, M_ret.
    cbn [dirs files trace]. by rewrite <- !app_assoc, !app_nil_r.
Qed.

Lemma requested_fetch_events (net : Network) (url : option string) (reqs : list string) :
  requested (fetch_events net url reqs) = match url with Some u => [u] | None => [] end.
Proof.
  unfold fetch_events. destruct url as [u|]; [|reflexivity]. simpl.
  destruct (net reqs u) as [[?|?]|?]; reflexivity.
Qed.

Lemma requested_warning (P : Prop) `{Decision P} (msg : string) :
  requested (if decide P then [] else [EvLog WARNING msg]) = [].
Proof. by destruct (decide P). Qed.

(** A call that finds the file and is not forced. *)
Lemma save_hit (net : Network) (self : AmedasNode.t) (data_type : string)
      (target_date : date) (w : World) :
  let d := date_to_use data_type target_date in
  let fp := file_path self data_type d in
  exists_in w fp = true →
  ∃ w', AmedasNode.save net self data_type target_date false w = (Ok false, w')
    ∧ dirs w' = dirs (mkdirs (dir_path self data_type d) w)
    ∧ files w' = files w
    ∧ trace w' = trace w ++ map EvMkdir (ancestors_and_self (dir_path self data_type d))
                 ++ [EvExists fp true; EvLog INFO (path_str fp +:+ " already exists.")].
Proof.
  intros d fp Hex. rewrite save_run. fold d fp. rewrite Hex. cbn [negb orb].
  eexists. split; [reflexivity|]. unfold record, mkdirs; cbn [dirs files trace].
  by rewrite <- !app_assoc.
Qed.

(** A call that goes to the service: the file is absent or [force] is set. *)
Lemma save_miss (net : Network) (self : AmedasNode.t) (data_type : string)
      (target_date : date) (force : bool) (w : World) :
  let d := date_to_use data_type target_date in
  let fp := file_path self data_type d in
  let url := url_for self data_type d in
  let html := fetched net url (requested (trace w)) in
  negb (exists_in w fp) || force = true →
  ∃ w', AmedasNode.save net self data_type target_date force w = (Ok true, w')
    ∧ dirs w' = dirs (mkdirs (dir_path self data_type d) w)
    ∧ files w' = (if Py.truthy html then <[fp := default EmptyString html]> (files w)
                  else files w)
    ∧ trace w' = trace w ++ map EvMkdir (ancestors_and_self (dir_path self data_type d))
                 ++ EvExists fp (exists_in w fp)
                 :: (if decide (known_data_type data_type) then []
                     else [EvLog WARNING ("Unknown data type: " +:+ data_type)])
                 ++ fetch_events net url (requested (trace w))
                 ++ (if Py.truthy html
                     then [EvWrite fp (default EmptyString html);
                           EvLog INFO ("Data saved to " +:+ path_str fp)]
                     else []).
Proof.
  intros d fp url html Hgo. rewrite save_run. fold d fp url html. rewrite Hgo.
  eexists. split; [reflexivity|]. unfold record, mkdirs; cbn [dirs files trace].
  by rewrite <- !app_assoc.
Qed.

Lemma requested_save_miss (net : Network) (url : option string) (reqs : list string)
      (P : Prop) `{Decision P} (msg : string) (l : list Path) (fp : Path) (b : bool)
      (tl : list Event) :
  requested tl = [] →
  requested (map EvMkdir l ++ EvExists fp b
             :: (if decide P then [] else [EvLog WARNING msg])
             ++ fetch_events net url reqs ++ tl)
  = match url with Some u => [u] | None => [] end.
Proof.
  intros Htl. rewrite requested_app, requested_mkdirs. cbn [app].
  change (requested (EvExists fp b :: ?t)) with (requested t).
  rewrite !requested_app, requested_warning, requested_fetch_events, Htl.
  by rewrite app_nil_r.
Qed.

(** The shape of every call: the four directories are made, then the
    cache file is looked up; whatever follows requests only the constructed
    URL and writes only the cache file. *)
Lemma save_shape (net : Network) (self : AmedasNode.t) (data_type : string)
      (target_date : date) (force : bool) (w : World) :
  let d := date_to_use data_type target_date in
  let fp := file_path self data_type d in
  ∃ b evs w',
    AmedasNode.save net self data_type target_date force w = (Ok b, w')
    ∧ trace w' = trace w ++ map EvMkdir (ancestors_and_self (dir_path self data_type d))
                 ++ EvExists fp (exists_in w fp) :: evs
    ∧ dirs w' = dirs (mkdirs (dir_path self data_type d) w)
    ∧ (∀ u o, EvGet u o ∈ evs → url_for self data_type d = Some u)
    ∧ (∀ p c, EvWrite p c ∈ evs → p = fp)
    ∧ (∀ p, EvMkdir p ∉ evs).
Proof.
  intros d fp. destruct (negb (exists_in w fp) || force) eqn:Hgo.
  - destruct (save_miss net self data_type target_date force w Hgo)
      as (w' & H1 & Hd & _ & Ht). fold d fp in Ht, Hd.
    eexists _, _, w'. split; [exact H1|]. split; [exact Ht|]. split; [exact Hd|].
    assert (Hin : ∀ e, e ∈ (if decide (known_data_type data_type) then []
                       else [EvLog WARNING ("Unknown data type: " +:+ data_type)])
                      ++ fetch_events net (url_for self data_type d) (requested (trace w))
                      ++ (if Py.truthy (fetched net (url_for self data_type d)
                                                (requested (trace w)))
                          then [EvWrite fp (default EmptyString
                                              (fetched net (url_for self data_type d)
                                                       (requested (trace w))));
                                EvLog INFO ("Data saved to " +:+ path_str fp)]
                          else [])
                 → (∃ l m, e = EvLog l m)
                   ∨ (∃ u o, e = EvGet u o ∧ url_for self data_type d = Some u)
                   ∨ (∃ c, e = EvWrite fp c)).
    { intros e. rewrite !elem_of_app. intros [He|[He|He]].
      - destruct (decide _); [by apply elem_of_nil in He|].
        apply list_elem_of_singleton in He. left. eauto.
      - unfold fetch_events in He. apply elem_of_cons in He as [->|He]; [left; eauto|].
        destruct (url_for self data_type d) as [u|].
        + apply elem_of_cons in He as [->|He]; [right; left; eauto|].
          unfold failure_log in He.
          destruct (net _ u) as [[?|?]|?];
            [by apply elem_of_nil in He|apply list_elem_of_singleton in He; left; eauto..].
        + apply list_elem_of_singleton in He. left; eauto.
      - destruct (Py.truthy _); [|by apply elem_of_nil in He].
        apply elem_of_cons in He as [->|He]; [right; right; eauto|].
        apply list_elem_of_singleton in He. left; eauto. }
    split; [|split].
    + intros u o He. apply Hin in He as [(?&?&?)|[(u'&o'&He&Hu)|(?&?)]]; try discriminate.
      by injection He as -> ->.
    + intros p c He. apply Hin in He as [(?&?&?)|[(u'&o'&He&Hu)|(?&He)]]; try discriminate.
      by injection He as -> ->.
    + intros p He. apply Hin in He as [(?&?&?)|[(u'&o'&He&Hu)|(?&?)]]; discriminate.
  - assert (exists_in w fp = true ∧ force = false) as [Hex ->]
        by (destruct (exists_in w fp), force; done).
    destruct (save_hit net self data_type target_date w Hex) as (w' & H1 & Hd & _ & Ht).
    fold d fp in Ht, Hd. rewrite Hex.
    eexists _, _, w'. split; [exact H1|]. split; [exact Ht|]. split; [exact Hd|].
    split; [|split].
    + intros u o He. apply list_elem_of_singleton in He. discriminate.
    + intros p c He. apply list_elem_of_singleton in He. discriminate.
    + intros p He. apply list_elem_of_singleton in He. discriminate.
Qed.

Lemma written_fetch_events (net : Network) (url : option string) (reqs : list string) :
  written (fetch_events net url reqs) = [].
Proof.
  unfold fetch_events. destruct url as [u|]; [|reflexivity]. simpl.
  destruct (net reqs u) as [[?|?]|?]; reflexivity.
Qed.

Lemma written_warning (P : Prop) `{Decision P} (msg : string) :
  written (if decide P then [] else [EvLog WARNING msg]) = [].
Proof. by destruct (decide P). Qed.

(** The effects of every call of [save], summed up: it returns, it goes to
    the service exactly when the file is absent or [force] is set, it then
    requests the constructed URL if there is one, and it writes the cache
    file exactly when a non-empty text came back. *)
Lemma save_effects (net : Network) (self : AmedasNode.t) (data_type : string)
      (target_date : date) (force : bool) (w : World) :
  let d := date_to_use data_type target_date in
  let fp := file_path self data_type d in
  let url := url_for self data_type d in
  let html := fetched net url (requested (trace w)) in
  ∃ b evs w',
    AmedasNode.save net self data_type target_date force w = (Ok b, w')
    ∧ b = negb (exists_in w fp) || force
    ∧ trace w' = trace w ++ evs
    ∧ requested evs = (if b then match url with Some u => [u] | None => [] end else [])
    ∧ written evs = (if b && Py.truthy html then [(fp, default EmptyString html)] else [])
    ∧ files w' = (if b && Py.truthy html then <[fp := default EmptyString html]> (files w)
                  else files w).
Proof.
  intros d fp url html. destruct (negb (exists_in w fp) || force) eqn:Hgo.
  - destruct (save_miss net self data_type target_date force w Hgo)
      as (w' & H1 & _ & Hf & Ht). fold d fp url html in Hf, Ht.
    eexists true, _, w'. split; [exact H1|]. split; [done|]. split; [exact Ht|].
    split; [|split].
    + apply requested_save_miss. by destruct (Py.truthy html).
    + rewrite written_app, written_mkdirs. cbn [app].
      change (written (EvExists ?p ?b :: ?t)) with (written t).
      rewrite !written_app, written_warning, written_fetch_events.
      by destruct (Py.truthy html).
    + exact Hf.
  - assert (exists_in w fp = true ∧ force = false) as [Hex ->]
        by (destruct (exists_in w fp), force; done).
    destruct (save_hit net self data_type target_date w Hex) as (w' & H1 & _ & Hf & Ht).
    fold d fp in Ht.
    eexists false, _, w'. split; [exact H1|]. split; [done|]. split; [exact Ht|].
    split; [|split].
    + rewrite requested_app, requested_mkdirs. reflexivity.
    + rewrite written_app, written_mkdirs. reflexivity.
    + exact Hf.
Qed.

(** The shape of every call, with what it requests. *)
Lemma save_requests (net : Network) (self : AmedasNode.t) (data_type : string)
      (target_date : date) (force : bool) (w : World) :
  let d := date_to_use data_type target_date in
  let fp := file_path self data_type d in
  ∃ b evs w',
    AmedasNode.save net self data_type target_date force w = (Ok b, w')
    ∧ b = negb (exists_in w fp) || force
    ∧ trace w' = trace w ++ map EvMkdir (ancestors_and_self (dir_path self data_type d))
                 ++ EvExists fp (exists_in w fp) :: evs
    ∧ requested evs = (if b then match url_for self data_type d with
                                 | Some u => [u]
                                 | None => []
                                 end
                       else [])
    ∧ (∀ p c, EvWrite p c ∈ evs → p = fp).
Proof.
  intros d fp.
  destruct (save_shape net self data_type target_date force w)
    as (b & evs & w' & H & Ht & _ & _ & Hw & _).
  destruct (save_effects net self data_type target_date force w)
    as (b' & evs' & w'' & H' & Hb & Ht' & Hr & _).
  rewrite H in H'. injection H' as <- <-. fold d fp in Ht, Hb, Hr, Hw.
  exists b, evs, w'. split; [exact H|]. split; [exact Hb|]. split; [exact Ht|].
  split; [|exact Hw].
  rewrite Ht in Ht'. apply app_inv_head in Ht'. subst evs'.
  rewrite requested_app, requested_mkdirs in Hr. exact Hr.
Qed.

(** On a string without [/] the cut of [pathlib] finds one piece. *)
Lemma split_plain (s : string) :
  forallb plain_char (list_ascii_of_string s) = true → Py.split "/" s = [s].
Proof.
  induction s as [|c r IH]; [reflexivity|]. cbn [list_ascii_of_string forallb Py.split].
  intros H. apply andb_true_iff in H as [Hc Hr]. rewrite (IH Hr).
  unfold plain_char in Hc. apply andb_true_iff in Hc as [Hc _].
  apply negb_true_iff in Hc. by rewrite Hc.
Qed.

(** A plain segment is one component for [pathlib], as it is for
    [path_join]. *)
Lemma pathlib_parts_plain (s : string) :
  plain_segment s = true → pathlib_parts s = [s].
Proof.
  unfold plain_segment, pathlib_parts. rewrite !andb_true_iff.
  intros [[[H1 H2] _] H4]. rewrite (split_plain s H4). cbn [List.filter].
  by rewrite H1, H2.
Qed.

Lemma wakkanai_init :
  AmedasNode.__init__ (Some "11") (Some "47401") (Some "Wakkanai") (Some "11016")
                      (Some "011000") (Some "11") (Some "2.8") = Ok wakkanai.
Proof. reflexivity. Qed.

Lemma exists_log_not_target (self : AmedasNode.t) (data_type : string) (d : date) (u : string) :
  path_str (file_path self data_type d) +:+ " already exists." ≠ "--target url-- " +:+ u.
Proof. unfold file_path, dir_path, path_join. simpl. discriminate. Qed.

Lemma not_in_mkdir_events (e : Event) (l : list Path) :
  (∀ p, e ≠ EvMkdir p) → e ∉ map EvMkdir l.
Proof.
  intros He Hin. apply list_elem_of_fmap in Hin as (p & -> & _). by apply (He p).
Qed.

(** * Properties of the fetch-and-cache method *)

(** C1, as stated, fails: with the service unreachable and nothing cached,
    [save] returns true although no response was received and no file was
    written. *)
Lemma save_true_without_download :
  let r := AmedasNode.save net_down wakkanai "hourly" date_2016_04_12 false empty_world in
  r.1 = Ok true ∧ ¬ downloaded (trace r.2) ∧ files r.2 = ∅.
Proof.
  vm_compute. split; [reflexivity|]. split; [|reflexivity].
  intros (u & text & H).
  repeat (apply elem_of_cons in H as [H|H]; [discriminate H|]).
  by apply elem_of_nil in H.
Qed.

(** C1 (amended): for a station and a resolution whose path segments are
    plain, [save] returns true exactly when a fetch was attempted, that is
    when the file did not exist or [force] was set, whether or not data was
    obtained; it returns false exactly when the file existed and [force]
    was false. *)
Theorem save_true_iff_attempted
    (net : Network) (self : AmedasNode.t) (data_type : string)
    (target_date : date) (force : bool) (w : World) :
  let fp := file_path self data_type (date_to_use data_type target_date) in
  plain_paths self data_type →
  ∃ b evs w',
    AmedasNode.save net self data_type target_date force w = (Ok b, w')
    ∧ trace w' = trace w ++ evs
    ∧ (b = true ↔ fetch_attempted evs)
    ∧ (b = true ↔ exists_in w fp = false ∨ force = true)
    ∧ (b = false ↔ exists_in w fp = true ∧ force = false).
Proof.
  intros fp _. rewrite save_run. fold fp.
  destruct (negb (exists_in w fp) || force) eqn:Hgo.
  - eexists true, _, _. split; [reflexivity|].
    unfold record, mkdirs; cbn [trace]. rewrite <- !app_assoc.
    split; [reflexivity|]. split; [|split].
    + split; [|done]. intros _. eexists.
      rewrite !elem_of_app. right. right. right. left.
      unfold fetch_events. apply elem_of_cons. by left.
    + split; [|done]. intros _.
      destruct (exists_in w fp), force; simpl in Hgo; auto; discriminate.
    + split; [discriminate|]. intros [H1 H2]. rewrite H1, H2 in Hgo. discriminate.
  - eexists false, _, _. split; [reflexivity|].
    unfold record, mkdirs; cbn [trace]. rewrite <- !app_assoc.
    split; [reflexivity|]. split; [|split].
    + split; [discriminate|]. intros (u & Hu). exfalso.
      apply elem_of_app in Hu as [Hu|Hu]; [by apply not_in_mkdir_events in Hu|].
      apply elem_of_cons in Hu as [Hu|Hu]; [discriminate|].
      apply list_elem_of_singleton in Hu.
      pose proof (exists_log_not_target self data_type
                    (date_to_use data_type target_date) u).
      unfold fp in Hu. congruence.
    + split; [discriminate|]. intros [H|H]; rewrite H in Hgo;
        [discriminate|]. by rewrite orb_true_r in Hgo.
    + split; [|done]. intros _.
      destruct (exists_in w fp), force; simpl in Hgo; auto; discriminate.
Qed.

Lemma save_true_iff_attempted_witness :
  plain_paths wakkanai "hourly"
  ∧ ∃ b evs w',
      AmedasNode.save net_down wakkanai "hourly" date_2016_04_12 false empty_world
      = (Ok b, w')
      ∧ trace w' = trace empty_world ++ evs
      ∧ (b = true ↔ fetch_attempted evs)
      ∧ (b = true ↔ exists_in empty_world wakkanai_hourly_path = false ∨ false = true)
      ∧ (b = false ↔ exists_in empty_world wakkanai_hourly_path = true ∧ false = false).
Proof.
  assert (H : plain_paths wakkanai "hourly") by (split; reflexivity).
  split; [exact H|].
  exact (save_true_iff_attempted net_down wakkanai "hourly" date_2016_04_12 false
           empty_world H).
Defined.

(** C2, as stated, fails: with the service unreachable the first call
    caches nothing, so the second identical call goes to the network again
    and is no cache hit. *)
Lemma save_twice_two_requests :
  let r1 := AmedasNode.save net_down wakkanai "hourly" date_2016_04_12 false empty_world in
  let r2 := AmedasNode.save net_down wakkanai "hourly" date_2016_04_12 false r1.2 in
  r1.1 = Ok true ∧ r2.1 = Ok true
  ∧ requested (trace r2.2) = [wakkanai_hourly_url; wakkanai_hourly_url]
  ∧ EvExists wakkanai_hourly_path false ∈ trace r2.2
  ∧ EvExists wakkanai_hourly_path true ∉ trace r2.2.
Proof.
  vm_compute. repeat split.
  - do 4 apply list_elem_of_further. apply list_elem_of_here.
  - intros H.
    repeat (apply elem_of_cons in H as [H|H]; [discriminate H|]).
    by apply elem_of_nil in H.
Qed.

(** C2 (amended): for a station and a resolution whose path segments are
    plain, when the first of two identical calls with [force=false] finds no
    cached file and its fetch obtains a non-empty body, the two calls
    perform exactly one network call; the second call finds the file
    present, performs no network access, writes nothing and returns false. *)
Theorem save_twice_one_request
    (net : Network) (self : AmedasNode.t) (data_type : string)
    (target_date : date) (w : World) (u text : string) :
  let d := date_to_use data_type target_date in
  let fp := file_path self data_type d in
  plain_paths self data_type →
  exists_in w fp = false →
  url_for self data_type d = Some u →
  net (requested (trace w)) u = Responds (Decodes text) →
  text ≠ EmptyString →
  ∃ w1 w2 evs2,
    AmedasNode.save net self data_type target_date false w = (Ok true, w1)
    ∧ AmedasNode.save net self data_type target_date false w1 = (Ok false, w2)
    ∧ requested (trace w1) = requested (trace w) ++ [u]
    ∧ requested (trace w2) = requested (trace w) ++ [u]
    ∧ files w1 !! fp = Some text
    ∧ files w2 = files w1
    ∧ trace w2 = trace w1 ++ evs2
    ∧ EvExists fp true ∈ evs2
    ∧ requested evs2 = [].
Proof.
  intros d fp _ Hex Hurl Hnet Htext.
  destruct (save_miss net self data_type target_date false w) as (w1 & H1 & _ & Hf1 & Ht1).
  { fold d fp. by rewrite Hex. }
  fold d fp in Hf1, Ht1. rewrite Hurl in Hf1, Ht1.
  unfold fetched, body_of in Hf1, Ht1. rewrite Hnet in Hf1, Ht1.
  assert (Py.truthy (Some text) = true) as Htr by (by destruct text).
  rewrite Htr in Hf1, Ht1. cbn [default] in Hf1, Ht1.
  assert (Hreq : requested (trace w1) = requested (trace w) ++ [u]).
  { rewrite Ht1, requested_app. f_equal. by apply requested_save_miss. }
  assert (Hfp : files w1 !! fp = Some text) by (rewrite Hf1; apply lookup_insert_eq).
  destruct (save_hit net self data_type target_date w1) as (w2 & H2 & _ & Hf2 & Ht2).
  { fold d fp. unfold exists_in. rewrite Hfp.
    rewrite (bool_decide_eq_true_2 (is_Some _)) by eauto. apply orb_true_r. }
  fold d fp in Ht2.
  exists w1, w2. eexists. split; [exact H1|]. split; [exact H2|].
  split; [exact Hreq|]. split.
  { rewrite Ht2, !requested_app, requested_mkdirs. simpl. by rewrite app_nil_r. }
  split; [exact Hfp|]. split; [exact Hf2|]. split; [exact Ht2|]. split.
  - apply elem_of_app. right. apply list_elem_of_here.
  - rewrite requested_app, requested_mkdirs. reflexivity.
Qed.

Lemma save_twice_one_request_witness :
  plain_paths wakkanai "hourly"
  ∧ exists_in empty_world (file_path wakkanai "hourly" (date_to_use "hourly" date_2016_04_12)) = false
  ∧ url_for wakkanai "hourly" (date_to_use "hourly" date_2016_04_12) = Some wakkanai_hourly_url
  ∧ ∃ w1 w2 evs2,
      AmedasNode.save net_up wakkanai "hourly" date_2016_04_12 false empty_world = (Ok true, w1)
      ∧ AmedasNode.save net_up wakkanai "hourly" date_2016_04_12 false w1 = (Ok false, w2)
      ∧ requested (trace w1) = requested (trace empty_world) ++ [wakkanai_hourly_url]
      ∧ requested (trace w2) = requested (trace empty_world) ++ [wakkanai_hourly_url]
      ∧ files w1 !! wakkanai_hourly_path = Some "<html></html>"
      ∧ files w2 = files w1
      ∧ trace w2 = trace w1 ++ evs2
      ∧ EvExists wakkanai_hourly_path true ∈ evs2
      ∧ requested evs2 = [].
Proof.
  split; [split; reflexivity|]. split; [reflexivity|]. split; [reflexivity|].
  apply (save_twice_one_request net_up wakkanai "hourly" date_2016_04_12 empty_world
           wakkanai_hourly_url "<html></html>");
    [split; reflexivity | reflexivity | reflexivity | reflexivity | discriminate].
Defined.

(** C3, as stated, fails: with the service unreachable a forced call on a
    cached tuple asks the network but leaves the cached file as it was. *)
Lemma forced_save_keeps_file_on_failure :
  let r := AmedasNode.save net_down wakkanai "hourly" date_2016_04_12 true cached_world in
  files cached_world !! wakkanai_hourly_path = Some "old page"
  ∧ r.1 = Ok true
  ∧ requested (trace r.2) = [wakkanai_hourly_url]
  ∧ written (trace r.2) = []
  ∧ files r.2 !! wakkanai_hourly_path = Some "old page".
Proof. vm_compute. repeat split. Qed.

(** C3 (amended): a call with [force=true] on an already-cached tuple
    attempts a fetch, which is one network call when the resolution is a
    known one, and overwrites the cached file with the response body,
    whatever its prior content, exactly when a non-empty body was obtained;
    otherwise the cached file is left as it was. *)
Theorem forced_save_overwrites_when_body
    (net : Network) (self : AmedasNode.t) (data_type : string)
    (target_date : date) (w : World) (old : string) :
  let d := date_to_use data_type target_date in
  let fp := file_path self data_type d in
  files w !! fp = Some old →
  ∃ evs w',
    AmedasNode.save net self data_type target_date true w = (Ok true, w')
    ∧ trace w' = trace w ++ evs
    ∧ fetch_attempted evs
    ∧ (∀ u, url_for self data_type d = Some u →
         requested evs = [u]
         ∧ match net (requested (trace w)) u with
           | Responds (Decodes (String c s)) => files w' = <[fp := String c s]> (files w)
           | _ => files w' = files w
           end)
    ∧ (url_for self data_type d = None → requested evs = [] ∧ files w' = files w).
Proof.
  intros d fp Hold.
  destruct (save_miss net self data_type target_date true w) as (w' & H1 & _ & Hf & Ht).
  { apply orb_true_r. }
  fold d fp in Hf, Ht. eexists _, w'. split; [exact H1|]. split; [exact Ht|].
  split; [|split].
  - eexists. apply elem_of_app. right. apply list_elem_of_further.
    apply elem_of_app. right. apply elem_of_app. left. apply list_elem_of_here.
  - intros u Hu. rewrite Hu in *. split.
    + apply requested_save_miss. by destruct (Py.truthy _).
    + unfold fetched, body_of in Hf.
      destruct (net (requested (trace w)) u) as [[[|c s]|msg]|msg]; exact Hf.
  - intros Hu. rewrite Hu in *. split; [|exact Hf].
    apply requested_save_miss. reflexivity.
Qed.

Lemma forced_save_overwrites_when_body_witness :
  files cached_world !! file_path wakkanai "hourly" (date_to_use "hourly" date_2016_04_12)
  = Some "old page"
  ∧ ∃ evs w',
      AmedasNode.save net_up wakkanai "hourly" date_2016_04_12 true cached_world = (Ok true, w')
      ∧ trace w' = trace cached_world ++ evs
      ∧ fetch_attempted evs
      ∧ (∀ u, url_for wakkanai "hourly" (date_to_use "hourly" date_2016_04_12) = Some u →
           requested evs = [u]
           ∧ match net_up (requested (trace cached_world)) u with
             | Responds (Decodes (String c s)) =>
                 files w' = <[wakkanai_hourly_path := String c s]> (files cached_world)
             | _ => files w' = files cached_world
             end)
      ∧ (url_for wakkanai "hourly" (date_to_use "hourly" date_2016_04_12) = None →
         requested evs = [] ∧ files w' = files cached_world).
Proof.
  split; [reflexivity|].
  apply (forced_save_overwrites_when_body net_up wakkanai "hourly" date_2016_04_12
           cached_world "old page"). reflexivity.
Defined.

(** *** The effective date *)

Lemma date_to_use_daily (target_date d1 : date) :
  year d1 = year target_date → month d1 = month target_date → day d1 = 1%N →
  date_to_use "daily" target_date = d1.
Proof.
  intros Hy Hm Hd. unfold date_to_use. rewrite decide_True by done.
  destruct (first_of_month_fields target_date) as (Hy' & Hm' & Hd').
  apply date_eq; congruence.
Qed.

Lemma date_to_use_other (data_type : string) (target_date : date) :
  data_type ≠ "daily" → date_to_use data_type target_date = target_date.
Proof. intros H. unfold date_to_use. by rewrite decide_False. Qed.

(** C4: for the resolution "daily" [save] works on the first day of the
    month of the requested date: the call behaves exactly as the call for
    that first day, the URL [_construct_url] builds for it carries the month
    of the date and [day=01], and, for a station with plain path segments,
    the directories the call makes, the cache file it looks up and writes
    and the one URL it requests when it goes to the service are those of the
    first day.  For every date of May 2016 the cache file is
    [..._2016_05_01.html] under [raw_html/daily/.../2016] and the URL carries
    [month=05&day=01].  For any other resolution the path and the URL are
    those of the date as given. *)
Theorem daily_uses_first_of_month :
  (∀ (net : Network) (self : AmedasNode.t) (target_date d1 : date) (force : bool) (w : World),
     year d1 = year target_date → month d1 = month target_date → day d1 = 1%N →
     let url := "http://www.data.jma.go.jp/obd/stats/etrn/view/daily_"
                +:+ AmedasNode.url_part self +:+ "1.php?prec_no="
                +:+ Py.fstr (AmedasNode.prec_no self) +:+ "&block_no="
                +:+ Py.fstr (AmedasNode.block_no self)
                +:+ "&year=" +:+ Py.str_N (year target_date)
                +:+ "&month=" +:+ Py.zfill 2 (month target_date) +:+ "&day=01&view=" in
     AmedasNode.save net self "daily" target_date force w
     = AmedasNode.save net self "daily" d1 force w
     ∧ date_to_use "daily" target_date = d1
     ∧ AmedasNode._construct_url self "daily" (Some d1) w = (Ok (Some url), w)
     ∧ (plain_paths self "daily" →
        ∃ b evs w',
          AmedasNode.save net self "daily" target_date force w = (Ok b, w')
          ∧ b = negb (exists_in w (file_path self "daily" d1)) || force
          ∧ trace w' = trace w ++ map EvMkdir (ancestors_and_self (dir_path self "daily" d1))
                       ++ EvExists (file_path self "daily" d1)
                                   (exists_in w (file_path self "daily" d1)) :: evs
          ∧ requested evs = (if b then [url] else [])
          ∧ (∀ p c, EvWrite p c ∈ evs → p = file_path self "daily" d1)))
  ∧ (∀ (net : Network) (self : AmedasNode.t) (target_date : date) (force : bool) (w : World),
       year target_date = 2016%N → month target_date = 5%N →
       let station := Py.fstr (AmedasNode.block_no self) +:+ "_"
                      +:+ Py.fstr (AmedasNode.name self) in
       let key := ["raw_html"; "daily"; station; "2016";
                   Py.fstr (AmedasNode.block_no self) +:+ "_"
                   +:+ Py.fstr (AmedasNode.name self) +:+ "_2016_05_01.html"] in
       let url := "http://www.data.jma.go.jp/obd/stats/etrn/view/daily_"
                  +:+ AmedasNode.url_part self +:+ "1.php?prec_no="
                  +:+ Py.fstr (AmedasNode.prec_no self) +:+ "&block_no="
                  +:+ Py.fstr (AmedasNode.block_no self)
                  +:+ "&year=2016&month=05&day=01&view=" in
       file_path self "daily" (date_to_use "daily" target_date) = key
       ∧ url_for self "daily" (date_to_use "daily" target_date) = Some url
       ∧ (plain_paths self "daily" →
          ∃ b evs w',
            AmedasNode.save net self "daily" target_date force w = (Ok b, w')
            ∧ b = negb (exists_in w key) || force
            ∧ trace w' = trace w
                         ++ [EvMkdir ["raw_html"]; EvMkdir ["raw_html"; "daily"];
                             EvMkdir ["raw_html"; "daily"; station];
                             EvMkdir ["raw_html"; "daily"; station; "2016"];
                             EvExists key (exists_in w key)]
                         ++ evs
            ∧ requested evs = (if b then [url] else [])
            ∧ (∀ p c, EvWrite p c ∈ evs → p = key)))
  ∧ (∀ (net : Network) (self : AmedasNode.t) (data_type : string) (target_date : date)
       (force : bool) (w : World),
       data_type ≠ "daily" →
       date_to_use data_type target_date = target_date
       ∧ (plain_paths self data_type →
          ∃ b evs w',
            AmedasNode.save net self data_type target_date force w = (Ok b, w')
            ∧ b = negb (exists_in w (file_path self data_type target_date)) || force
            ∧ trace w' = trace w
                         ++ map EvMkdir
                              (ancestors_and_self (dir_path self data_type target_date))
                         ++ EvExists (file_path self data_type target_date)
                                     (exists_in w (file_path self data_type target_date))
                            :: evs
            ∧ requested evs = (if b then match url_for self data_type target_date with
                                         | Some u => [u]
                                         | None => []
                                         end
                               else [])
            ∧ (∀ p c, EvWrite p c ∈ evs → p = file_path self data_type target_date))).
Proof.
  assert (Hurl : ∀ (self : AmedasNode.t) (td d1 : date),
             year d1 = year td → month d1 = month td → day d1 = 1%N →
             url_for self "daily" d1
             = Some ("http://www.data.jma.go.jp/obd/stats/etrn/view/daily_"
                     +:+ AmedasNode.url_part self +:+ "1.php?prec_no="
                     +:+ Py.fstr (AmedasNode.prec_no self) +:+ "&block_no="
                     +:+ Py.fstr (AmedasNode.block_no self)
                     +:+ "&year=" +:+ Py.str_N (year td)
                     +:+ "&month=" +:+ Py.zfill 2 (month td) +:+ "&day=01&view=")).
  { intros self td d1 Hy Hm Hd. unfold url_for, AmedasNode._construct_url.
    rewrite decide_True by (rewrite !elem_of_cons; auto).
    cbn [fst mret M_ret]. by rewrite Hy, Hm, Hd. }
  assert (Hsave : ∀ (net : Network) (self : AmedasNode.t) (data_type : string)
                    (td d1 : date) (force : bool) (w : World),
             date_to_use data_type td = d1 →
             ∃ b evs w',
               AmedasNode.save net self data_type td force w = (Ok b, w')
               ∧ b = negb (exists_in w (file_path self data_type d1)) || force
               ∧ trace w' = trace w
                            ++ map EvMkdir (ancestors_and_self (dir_path self data_type d1))
                            ++ EvExists (file_path self data_type d1)
                                        (exists_in w (file_path self data_type d1)) :: evs
               ∧ requested evs = (if b then match url_for self data_type d1 with
                                            | Some u => [u]
                                            | None => []
                                            end
                                  else [])
               ∧ (∀ p c, EvWrite p c ∈ evs → p = file_path self data_type d1)).
  { intros net self data_type td d1 force w Hd.
    destruct (save_requests net self data_type td force w)
      as (b & evs & w' & H & Hb & Ht & Hr & Hw).
    rewrite Hd in *. by exists b, evs, w'. }
  split; [|split].
  - intros net self td d1 force w Hy Hm Hd url.
    pose proof (date_to_use_daily td d1 Hy Hm Hd) as Htd.
    pose proof (Hurl self td d1 Hy Hm Hd) as Hu. fold url in Hu.
    split; [|split; [exact Htd|split]].
    + rewrite !save_run. rewrite Htd. by rewrite (date_to_use_daily d1 d1).
    + rewrite construct_url_run, Hu.
      rewrite decide_True by (unfold known_data_type; rewrite !elem_of_cons; auto).
      reflexivity.
    + intros _. destruct (Hsave net self "daily" td d1 force w Htd)
        as (b & evs & w' & H & Hb & Ht & Hr & Hw).
      rewrite Hu in Hr. by exists b, evs, w'.
  - intros net self td force w Hy Hm station key url.
    assert (Htd : date_to_use "daily" td = date_2016_05_01)
      by (apply date_to_use_daily; simpl; congruence).
    assert (Hu : url_for self "daily" date_2016_05_01 = Some url).
    { rewrite (Hurl self td date_2016_05_01) by (simpl; congruence).
      by rewrite Hy, Hm. }
    rewrite Htd. split; [reflexivity|]. split; [exact Hu|].
    intros _. destruct (Hsave net self "daily" td date_2016_05_01 force w Htd)
      as (b & evs & w' & H & Hb & Ht & Hr & Hw).
    rewrite Hu in Hr.
    exists b, evs, w'. split; [exact H|]. split; [exact Hb|]. split; [|split].
    + rewrite Ht. reflexivity.
    + exact Hr.
    + exact Hw.
  - intros net self data_type td force w Hne.
    pose proof (date_to_use_other data_type td Hne) as Htd.
    split; [exact Htd|]. intros _. by apply Hsave.
Qed.

Lemma daily_uses_first_of_month_witness :
  let url := "http://www.data.jma.go.jp/obd/stats/etrn/view/daily_s1.php?prec_no=11&block_no=47401&year=2016&month=05&day=01&view=" in
  let key := ["raw_html"; "daily"; "47401_Wakkanai"; "2016";
              "47401_Wakkanai_2016_05_01.html"] in
  plain_paths wakkanai "daily"
  ∧ plain_paths wakkanai "hourly"
  ∧ AmedasNode.save net_up wakkanai "daily" date_2016_05_17 false empty_world
    = AmedasNode.save net_up wakkanai "daily" date_2016_05_01 false empty_world
  ∧ AmedasNode._construct_url wakkanai "daily" (Some date_2016_05_01) empty_world
    = (Ok (Some url), empty_world)
  ∧ file_path wakkanai "daily" (date_to_use "daily" date_2016_05_17) = key
  ∧ (∃ b evs w',
       AmedasNode.save net_up wakkanai "daily" date_2016_05_17 false empty_world = (Ok b, w')
       ∧ b = negb (exists_in empty_world key) || false
       ∧ trace w' = trace empty_world
                    ++ [EvMkdir ["raw_html"]; EvMkdir ["raw_html"; "daily"];
                        EvMkdir ["raw_html"; "daily"; "47401_Wakkanai"];
                        EvMkdir ["raw_html"; "daily"; "47401_Wakkanai"; "2016"];
                        EvExists key (exists_in empty_world key)]
                    ++ evs
       ∧ requested evs = (if b then [url] else [])
       ∧ (∀ p c, EvWrite p c ∈ evs → p = key))
  ∧ (∃ b evs w',
       AmedasNode.save net_up wakkanai "hourly" date_2016_04_12 false empty_world = (Ok b, w')
       ∧ b = negb (exists_in empty_world wakkanai_hourly_path) || false
       ∧ trace w' = trace empty_world
                    ++ map EvMkdir (ancestors_and_self (dir_path wakkanai "hourly" date_2016_04_12))
                    ++ EvExists wakkanai_hourly_path (exists_in empty_world wakkanai_hourly_path)
                       :: evs
       ∧ requested evs = (if b then [wakkanai_hourly_url] else [])
       ∧ (∀ p c, EvWrite p c ∈ evs → p = wakkanai_hourly_path)).
Proof.
  intros url key.
  assert (Hd : plain_paths wakkanai "daily") by (split; reflexivity).
  assert (Hh : plain_paths wakkanai "hourly") by (split; reflexivity).
  destruct daily_uses_first_of_month as (H1 & H2 & H3).
  split; [exact Hd|]. split; [exact Hh|].
  destruct (H1 net_up wakkanai date_2016_05_17 date_2016_05_01 false empty_world)
    as (Ha & _ & Hb & _); [reflexivity..|].
  split; [exact Ha|]. split; [exact Hb|].
  destruct (H2 net_up wakkanai date_2016_05_17 false empty_world) as (Hk & _ & Hc);
    [reflexivity..|].
  split; [exact Hk|]. split; [exact (Hc Hd)|].
  destruct (H3 net_up wakkanai "hourly" date_2016_04_12 false empty_world) as (_ & He);
    [discriminate|].
  exact (He Hh).
Defined.

(** * Properties of the station record and of URL construction *)

Lemma init_inv (prec_no block_no name _id area_code group_code height : option string)
      (self : AmedasNode.t) :
  AmedasNode.__init__ prec_no block_no name _id area_code group_code height = Ok self →
  ∃ h n, Py.float height = Ok h ∧ Py.int block_no = Ok n
         ∧ self = AmedasNode.mk block_no prec_no name _id area_code group_code h
                    (if (n <? 10000)%Z then "a" else "s").
Proof.
  unfold AmedasNode.__init__. destruct (Py.float height) as [h|e]; [|discriminate].
  destruct (Py.int block_no) as [n|e]; [|discriminate].
  cbn. intros [= <-]. by exists h, n.
Qed.

(** *** Decimal numerals *)


Lemma uint_val_revapp (d a : Decimal.uint) :
  uint_val (Z.of_N (Unsigned.of_lu a)) d = Z.of_N (Unsigned.of_lu (Decimal.revapp d a)).
Proof.
  revert a. induction d; intros a; [reflexivity|..];
    cbn [uint_val Decimal.revapp]; rewrite <- IHd; f_equal;
    cbn [Unsigned.of_lu]; lia.
Qed.

Lemma uint_val_of_uint (d : Decimal.uint) : uint_val 0 d = Z.of_N (N.of_uint d).
Proof.
  change 0%Z with (Z.of_N (Unsigned.of_lu Decimal.Nil)). rewrite uint_val_revapp.
  unfold N.of_uint. by rewrite Unsigned.of_uint_alt.
Qed.






(** C6: for a station built with block code "47401", the resolution
    "hourly" and the date 2016-04-12, the constructed URL is
    [.../etrn/view/hourly_s1.php?prec_no={prec}&block_no=47401&year=2016&month=04&day=12&view=]:
    the category token is "s" and month and day are on two digits. *)
Theorem hourly_url_47401
    (prec_no name _id area_code group_code height : option string)
    (self : AmedasNode.t) (d : date) (w : World) :
  AmedasNode.__init__ prec_no (Some "47401") name _id area_code group_code height = Ok self →
  year d = 2016%N → month d = 4%N → day d = 12%N →
  AmedasNode.url_part self = "s"
  ∧ AmedasNode._construct_url self "hourly" (Some d) w
    = (Ok (Some ("http://www.data.jma.go.jp/obd/stats/etrn/view/hourly_s1.php?prec_no="
                 +:+ Py.fstr prec_no
                 +:+ "&block_no=47401&year=2016&month=04&day=12&view=")), w).
Proof.
  intros H Hy Hm Hd. apply init_inv in H as (h & n & _ & Hn & ->).
  injection Hn as <-. split; [reflexivity|].
  unfold AmedasNode._construct_url. rewrite decide_True by (rewrite !elem_of_cons; auto).
  rewrite Hy, Hm, Hd. reflexivity.
Qed.

Lemma hourly_url_47401_witness :
  AmedasNode.__init__ (Some "11") (Some "47401") (Some "Wakkanai") (Some "11016")
                      (Some "011000") (Some "11") (Some "2.8") = Ok wakkanai
  ∧ AmedasNode.url_part wakkanai = "s"
  ∧ AmedasNode._construct_url wakkanai "hourly" (Some date_2016_04_12) empty_world
    = (Ok (Some wakkanai_hourly_url), empty_world).
Proof.
  split; [reflexivity|].
  apply (hourly_url_47401 (Some "11") (Some "Wakkanai") (Some "11016") (Some "011000")
           (Some "11") (Some "2.8") wakkanai date_2016_04_12 empty_world); reflexivity.
Defined.

(** * Failure handling *)








(** * Directory creation *)

(** C10: for a station and a resolution whose path segments are plain,
    every call of [save] first makes the directories [raw_html],
    [raw_html/{resolution}], [raw_html/{resolution}/{block_no}_{name}] and
    [raw_html/{resolution}/{block_no}_{name}/{year}], in this order, and only
    then looks the cache file up; the four directories exist afterwards
    whatever the call goes on to do.  On a cache hit nothing else changes: no
    request is sent and no file is written. *)
Theorem save_makes_directories_first
    (net : Network) (self : AmedasNode.t) (data_type : string)
    (target_date : date) (force : bool) (w : World) :
  let d := date_to_use data_type target_date in
  let station := Py.fstr (AmedasNode.block_no self) +:+ "_"
                 +:+ Py.fstr (AmedasNode.name self) in
  let yyyy := Py.str_N (year d) in
  let fp := file_path self data_type d in
  plain_paths self data_type →
  ∃ b evs w',
    AmedasNode.save net self data_type target_date force w = (Ok b, w')
    ∧ trace w' = trace w
                 ++ [EvMkdir ["raw_html"];
                     EvMkdir ["raw_html"; data_type];
                     EvMkdir ["raw_html"; data_type; station];
                     EvMkdir ["raw_html"; data_type; station; yyyy];
                     EvExists fp (exists_in w fp)]
                 ++ evs
    ∧ (∀ p, EvMkdir p ∉ evs)
    ∧ dirs w' = dirs w ∪ {[ ["raw_html"]; ["raw_html"; data_type];
                            ["raw_html"; data_type; station];
                            ["raw_html"; data_type; station; yyyy] ]}
    ∧ (exists_in w fp = true → force = false →
       b = false ∧ requested evs = [] ∧ written evs = [] ∧ files w' = files w).
Proof.
  intros d station yyyy fp _.
  destruct (save_shape net self data_type target_date force w)
    as (b & evs & w' & H & Ht & Hd & _ & _ & Hmk).
  fold d fp in Ht, Hd.
  exists b, evs, w'. split; [exact H|]. split; [rewrite Ht; reflexivity|].
  split; [exact Hmk|]. split.
  - rewrite Hd. unfold mkdirs, dir_path; cbn [dirs ancestors_and_self map list_to_set].
    fold station yyyy. f_equal. by rewrite union_empty_r_L, !(assoc_L (∪)).
  - intros Hex ->.
    destruct (save_effects net self data_type target_date false w)
      as (b' & evs' & w'' & H' & Hb & Ht' & Hr & Hw & Hf).
    fold d fp in Hb, Hr, Hw, Hf. rewrite H in H'. injection H' as <- <-.
    rewrite Hex in Hb. cbn in Hb. subst b. cbn [andb] in Hr, Hw, Hf.
    rewrite Ht in Ht'. apply app_inv_head in Ht'. subst evs'.
    rewrite requested_app, requested_mkdirs in Hr.
    rewrite written_app, written_mkdirs in Hw. done.
Qed.

Lemma save_makes_directories_first_witness :
  plain_paths wakkanai "hourly"
  ∧ exists_in cached_world wakkanai_hourly_path = true
  ∧ ∃ b evs w',
      AmedasNode.save net_up wakkanai "hourly" date_2016_04_12 false cached_world = (Ok b, w')
      ∧ trace w' = trace cached_world
                   ++ [EvMkdir ["raw_html"];
                       EvMkdir ["raw_html"; "hourly"];
                       EvMkdir ["raw_html"; "hourly"; "47401_Wakkanai"];
                       EvMkdir ["raw_html"; "hourly"; "47401_Wakkanai"; "2016"];
                       EvExists wakkanai_hourly_path true]
                   ++ evs
      ∧ (∀ p, EvMkdir p ∉ evs)
      ∧ dirs w' = dirs cached_world
                  ∪ {[ ["raw_html"]; ["raw_html"; "hourly"];
                       ["raw_html"; "hourly"; "47401_Wakkanai"];
                       ["raw_html"; "hourly"; "47401_Wakkanai"; "2016"] ]}
      ∧ (exists_in cached_world wakkanai_hourly_path = true → false = false →
         b = false ∧ requested evs = [] ∧ written evs = []
         ∧ files w' = files cached_world).
Proof.
  assert (H : plain_paths wakkanai "hourly") by (split; reflexivity).
  split; [exact H|]. split; [reflexivity|].
  exact (save_makes_directories_first net_up wakkanai "hourly" date_2016_04_12 false
           cached_world H).
Defined.

(** * The station registry *)

Lemma split_length_cons (sep c : ascii) (r : string) :
  length (Py.split sep (String c r))
  = ((if Ascii.eqb c sep then 1 else 0) + length (Py.split sep r))%nat.
Proof.
  simpl. destruct (Ascii.eqb c sep); [reflexivity|].
  destruct r; simpl; [reflexivity|].
  destruct (Ascii.eqb _ sep); [reflexivity|]. by destruct (Py.split sep r).
Qed.

Lemma split_length_pos (sep : ascii) (s : string) : (1 ≤ length (Py.split sep s))%nat.
Proof.
  destruct s as [|c r]; [simpl; lia|]. rewrite split_length_cons.
  destruct r as [|c' r']; simpl.
  - destruct (Ascii.eqb c sep); simpl; lia.
  - destruct (Ascii.eqb c sep), (Ascii.eqb c' sep); simpl; try lia;
      destruct (Py.split sep r'); simpl; lia.
Qed.

Lemma lstrip_fields (f : ascii → bool) (sep : ascii) (s : string) :
  (length (Py.split sep (Py.lstrip_by f s)) ≤ length (Py.split sep s))%nat.
Proof.
  induction s as [|c r IH]; [done|].
  cbn [Py.lstrip_by]. destruct (f c); [|done].
  rewrite split_length_cons. lia.
Qed.

Lemma rstrip_fields (f : ascii → bool) (sep : ascii) (s : string) :
  (length (Py.split sep (Py.rstrip_by f s)) ≤ length (Py.split sep s))%nat.
Proof.
  induction s as [|c r IH]; [done|].
  cbn [Py.rstrip_by]. rewrite (split_length_cons sep c r).
  destruct (Py.rstrip_by f r) as [|c' r'] eqn:Hr.
  - pose proof (split_length_pos sep r).
    destruct (f c); [simpl; lia|]. rewrite split_length_cons. simpl. lia.
  - rewrite split_length_cons. lia.
Qed.

(** Stripping a line never adds a field. *)
Lemma row_fields_length (line : string) :
  (length (row_fields line) ≤ length (Py.split Py.tab line))%nat.
Proof.
  unfold row_fields, Py.strip. rewrite length_map.
  etrans; [apply rstrip_fields|]. apply lstrip_fields.
Qed.

Lemma load_line_short (acc : gmap (option string) AmedasNode.t) (line : string) :
  (length (row_fields line) < 10)%nat → load_line acc line = Ok acc.
Proof.
  intros H. unfold load_line. fold (row_fields line).
  apply Nat.ltb_lt in H. by rewrite H.
Qed.

Lemma unpack_fields_second {A : Type} (fields : list A) (p b n h i a g : A) :
  unpack_fields fields = Some (p, b, n, h, i, a, g) → fields !! 1%nat = Some b.
Proof.
  destruct fields as [|x1 [|x2 [|x3 rest]]]; try discriminate. simpl.
  destruct (rev rest) as [|y1 [|y2 [|y3 [|y4 ?]]]]; try discriminate. congruence.
Qed.

Lemma load_line_inv (acc acc' : gmap (option string) AmedasNode.t) (line : string) :
  load_line acc line = Ok acc' →
  ((length (row_fields line) < 10)%nat ∧ acc' = acc)
  ∨ ((10 ≤ length (row_fields line))%nat
     ∧ ∃ p b n h i a g node,
         unpack_fields (row_fields line) = Some (p, b, n, h, i, a, g)
         ∧ row_fields line !! 1%nat = Some b
         ∧ AmedasNode.__init__ p b n i a g h = Ok node
         ∧ acc' = <[b := node]> acc).
Proof.
  unfold load_line. fold (row_fields line).
  destruct (Nat.ltb_spec (length (row_fields line)) 10) as [Hlt|Hge].
  - intros [= <-]. by left.
  - destruct (unpack_fields (row_fields line)) as [[[[[[[p b] n] h] i] a] g]|] eqn:Hun;
      [|discriminate].
    destruct (AmedasNode.__init__ p b n i a g h) as [node|e] eqn:Hinit; [|discriminate].
    cbn. intros [= <-]. right. split; [done|].
    exists p, b, n, h, i, a, g, node. repeat split; try done.
    by eapply unpack_fields_second.
Qed.

Lemma load_lines_app (acc : gmap (option string) AmedasNode.t) (l1 l2 : list string) :
  load_lines acc (l1 ++ l2) = load_lines acc l1 ≫= λ acc', load_lines acc' l2.
Proof.
  revert acc. induction l1 as [|line l1 IH]; intros acc; [reflexivity|].
  simpl. destruct (load_line acc line) as [acc1|e]; [|reflexivity]. apply IH.
Qed.





(** * Further properties *)

(** ** [create_dir] *)

(** X1: for every list of plain segments [create_dir] returns the joined
    path and leaves exactly the directories there were plus every non-empty
    prefix of that path; it makes them from the outermost inwards, touches
    no file, and a second call changes neither directories nor files.  For
    the empty list it returns the working directory and does nothing. *)
Theorem create_dir_makes_every_prefix (path_list : list string) (w : World) :
  forallb plain_segment path_list = true →
  ∃ w',
    create_dir path_list w = (Ok path_list, w')
    ∧ files w' = files w
    ∧ (∀ q : Path, q ∈ dirs w' ↔ q ∈ dirs w ∨ (q ≠ [] ∧ q `prefix_of` path_list))
    ∧ trace w' = trace w ++ map EvMkdir (ancestors_and_self path_list)
    ∧ (path_list = [] ↔ w' = w)
    ∧ ∃ w'', create_dir path_list w' = (Ok path_list, w'')
             ∧ dirs w'' = dirs w' ∧ files w'' = files w'.
Proof.
  intros _.
  exists (mkdirs path_list w). split; [apply create_dir_run|].
  split; [reflexivity|]. split; [|split; [reflexivity|split]].
  - intros q. unfold mkdirs; cbn [dirs].
    by rewrite elem_of_union, elem_of_list_to_set, elem_of_ancestors_and_self.
  - split.
    + intros ->. destruct w as [ds fs tr]. unfold mkdirs; cbn.
      by rewrite union_empty_r_L, app_nil_r.
    + intros Hw. apply (f_equal trace) in Hw. unfold mkdirs in Hw; cbn [trace] in Hw.
      rewrite <- (app_nil_r (trace w)) in Hw at 2. apply app_inv_head in Hw.
      destruct path_list; [done|discriminate].
  - exists (mkdirs path_list (mkdirs path_list w)). split; [apply create_dir_run|].
    split; [|reflexivity]. unfold mkdirs; cbn [dirs].
    by rewrite <- union_assoc_L, union_idemp_L.
Qed.

Lemma create_dir_makes_every_prefix_witness :
  let path_list := ["raw_html"; "hourly"; "47401_Wakkanai"; "2016"] in
  forallb plain_segment path_list = true
  ∧ ∃ w',
      create_dir path_list empty_world = (Ok path_list, w')
      ∧ files w' = files empty_world
      ∧ (∀ q : Path, q ∈ dirs w' ↔ q ∈ dirs empty_world
                                   ∨ (q ≠ [] ∧ q `prefix_of` path_list))
      ∧ trace w' = trace empty_world ++ map EvMkdir (ancestors_and_self path_list)
      ∧ (path_list = [] ↔ w' = empty_world)
      ∧ ∃ w'', create_dir path_list w' = (Ok path_list, w'')
               ∧ dirs w'' = dirs w' ∧ files w'' = files w'.
Proof.
  intros path_list.
  assert (H : forallb plain_segment path_list = true) by reflexivity.
  split; [exact H|].
  exact (create_dir_makes_every_prefix path_list empty_world H).
Defined.

(** ** [save]: what it leaves alone *)

Lemma truthy_nonempty (html : option string) :
  Py.truthy html = true → ∃ c s, html = Some (String c s).
Proof. destruct html as [[|c s]|]; try discriminate. eauto. Qed.

(** X2: a call of [save] touches no file but its own cache file, removes
    no file and no directory, and its cache file afterwards either is as it
    was or holds the non-empty text the call wrote. *)
Theorem save_touches_only_its_file
    (net : Network) (self : AmedasNode.t) (data_type : string)
    (target_date : date) (force : bool) (w : World) :
  let fp := file_path self data_type (date_to_use data_type target_date) in
  let w' := (AmedasNode.save net self data_type target_date force w).2 in
  ∃ evs,
    trace w' = trace w ++ evs
    ∧ (∀ p, p ≠ fp → files w' !! p = files w !! p)
    ∧ (∀ p, is_Some (files w !! p) → is_Some (files w' !! p))
    ∧ (∀ q, q ∈ dirs w → q ∈ dirs w')
    ∧ ((files w' !! fp = files w !! fp ∧ written evs = [])
       ∨ ∃ c s, files w' !! fp = Some (String c s) ∧ written evs = [(fp, String c s)]).
Proof.
  intros fp w'.
  destruct (save_effects net self data_type target_date force w)
    as (b & evs & w1 & H & _ & Ht & _ & Hw & Hf).
  destruct (save_shape net self data_type target_date force w)
    as (b' & evs' & w'' & H' & _ & Hd & _).
  rewrite H in H'. injection H' as <- <-. fold fp in Hw, Hf.
  subst w'. rewrite H. cbn [snd].
  exists evs. split; [exact Ht|].
  destruct (b && Py.truthy _) eqn:Hb.
  - apply andb_true_iff in Hb as [_ Hb]. apply truthy_nonempty in Hb as (c & s & Hb).
    rewrite Hb in Hw, Hf. cbn [default] in Hw, Hf. rewrite Hf. repeat split.
    + intros p Hp. by rewrite lookup_insert_ne.
    + intros p Hp. rewrite lookup_insert. case_decide; [eauto|done].
    + intros q Hq. rewrite Hd. unfold mkdirs; cbn [dirs]. by apply elem_of_union_l.
    + right. exists c, s. by rewrite lookup_insert_eq.
  - rewrite Hf. repeat split; try done.
    + intros q Hq. rewrite Hd. unfold mkdirs; cbn [dirs]. by apply elem_of_union_l.
    + by left.
Qed.

Lemma save_touches_only_its_file_witness :
  let w' := (AmedasNode.save net_up wakkanai "hourly" date_2016_04_12 true
                             cached_world).2 in
  ∃ evs,
    trace w' = trace cached_world ++ evs
    ∧ (∀ p, p ≠ wakkanai_hourly_path → files w' !! p = files cached_world !! p)
    ∧ (∀ p, is_Some (files cached_world !! p) → is_Some (files w' !! p))
    ∧ (∀ q, q ∈ dirs cached_world → q ∈ dirs w')
    ∧ ((files w' !! wakkanai_hourly_path = files cached_world !! wakkanai_hourly_path
        ∧ written evs = [])
       ∨ ∃ c s, files w' !! wakkanai_hourly_path = Some (String c s)
                ∧ written evs = [(wakkanai_hourly_path, String c s)]).
Proof.
  exact (save_touches_only_its_file net_up wakkanai "hourly" date_2016_04_12 true
           cached_world).
Defined.

(** X3: [save] keeps the cache free of empty files: if no file of the
    world is empty before the call, none is empty after it, whatever the
    service answers. *)
Theorem save_keeps_cache_nonempty
    (net : Network) (self : AmedasNode.t) (data_type : string)
    (target_date : date) (force : bool) (w : World) :
  cache_nonempty w →
  cache_nonempty (AmedasNode.save net self data_type target_date force w).2.
Proof.
  intros Hinv.
  destruct (save_effects net self data_type target_date force w)
    as (b & evs & w' & H & _ & _ & _ & _ & Hf).
  rewrite H. cbn [snd]. intros p c Hp. rewrite Hf in Hp.
  destruct (b && Py.truthy _) eqn:Hb; [|by eapply Hinv].
  apply andb_true_iff in Hb as [_ Hb]. apply truthy_nonempty in Hb as (c' & s' & Hb).
  rewrite Hb in Hp. cbn [default] in Hp. rewrite lookup_insert in Hp.
  case_decide; [|by eapply Hinv]. by injection Hp as <-.
Qed.

Lemma save_keeps_cache_nonempty_witness :
  cache_nonempty cached_world
  ∧ cache_nonempty
      (AmedasNode.save (fun _ _ => Responds (Decodes EmptyString)) wakkanai "hourly"
                       date_2016_04_12 true cached_world).2.
Proof.
  assert (H : cache_nonempty cached_world).
  { intros p c Hp. unfold cached_world in Hp; cbn [files] in Hp.
    apply lookup_singleton_Some in Hp as [_ <-]. discriminate. }
  split; [exact H|].
  exact (save_keeps_cache_nonempty (fun _ _ => Responds (Decodes EmptyString)) wakkanai
           "hourly" date_2016_04_12 true cached_world H).
Defined.

(** X4: every request a call of [save] sends goes to one of the two
    endpoints of the service: each URL it requests starts with
    [http://www.data.jma.go.jp/obd/stats/etrn/view/] or with
    [http://www.jma.go.jp/jp/amedas_h/today-], whatever the station and the
    resolution.  For a station and a resolution whose path segments are
    plain, everything the call makes lies under [raw_html]: each directory
    it makes and each file it writes is [raw_html] or below it. *)
Theorem save_stays_under_raw_html
    (net : Network) (self : AmedasNode.t) (data_type : string)
    (target_date : date) (force : bool) (w : World) :
  let w' := (AmedasNode.save net self data_type target_date force w).2 in
  ∃ evs,
    trace w' = trace w ++ evs
    ∧ (∀ u o, EvGet u o ∈ evs → jma_url u)
    ∧ (plain_paths self data_type →
       (∀ p, EvMkdir p ∈ evs → under_raw_html p)
       ∧ (∀ p c, EvWrite p c ∈ evs → under_raw_html p)).
Proof.
  intros w'.
  destruct (save_shape net self data_type target_date force w)
    as (b & evs & w1 & H & Ht & _ & Hu & Hw & Hmk).
  subst w'. rewrite H. cbn [snd].
  eexists. split; [exact Ht|]. split; [|intros _; split].
  - intros u o Hp. apply elem_of_app in Hp as [Hp|Hp].
    + apply list_elem_of_fmap in Hp as (q & ? & _). discriminate.
    + apply elem_of_cons in Hp as [Hp|Hp]; [discriminate|].
      apply Hu in Hp. unfold url_for, AmedasNode._construct_url in Hp.
      destruct (decide (data_type ∈ _)); cbn in Hp.
      * injection Hp as <-. left. by eexists.
      * destruct (decide (data_type = "real-time")); cbn in Hp; [|discriminate].
        injection Hp as <-. right. by eexists.
  - intros p Hp. apply elem_of_app in Hp as [Hp|Hp].
    + apply list_elem_of_fmap in Hp as (q & [= ->] & Hq).
      apply elem_of_ancestors_and_self in Hq as [Hne [k Hk]].
      destruct q as [|x q]; [done|]. injection Hk as <- _. by exists q.
    + apply elem_of_cons in Hp as [Hp|Hp]; [discriminate|]. by apply Hmk in Hp.
  - intros p c Hp. apply elem_of_app in Hp as [Hp|Hp].
    + apply list_elem_of_fmap in Hp as (q & ? & _). discriminate.
    + apply elem_of_cons in Hp as [Hp|Hp]; [discriminate|].
      apply Hw in Hp as ->. by eexists.
Qed.

Lemma save_stays_under_raw_html_witness :
  let w' := (AmedasNode.save net_up wakkanai "hourly" date_2016_04_12 false
                             empty_world).2 in
  plain_paths wakkanai "hourly"
  ∧ ∃ evs,
      trace w' = trace empty_world ++ evs
      ∧ (∀ u o, EvGet u o ∈ evs → jma_url u)
      ∧ (∀ p, EvMkdir p ∈ evs → under_raw_html p)
      ∧ (∀ p c, EvWrite p c ∈ evs → under_raw_html p).
Proof.
  intros w'.
  assert (H : plain_paths wakkanai "hourly") by (split; reflexivity).
  split; [exact H|].
  destruct (save_stays_under_raw_html net_up wakkanai "hourly" date_2016_04_12 false
              empty_world) as (evs & Ht & Hu & Hp).
  exists evs. split; [exact Ht|]. split; [exact Hu|]. exact (Hp H).
Defined.

(** ** [get_data] and its default date *)

(** X5: [get_data] depends on a date only for the dated resolutions.  For
    "10min", "hourly" and "daily" a call without a date, as the default
    [target_date=None] gives, raises [AttributeError] out of [get_data]
    before anything is logged or requested.  For "real-time" the date is
    ignored: the call requests [today-{id}.html] whatever date it is given. *)
Theorem get_data_needs_a_date (net : Network) (self : AmedasNode.t) (w : World) :
  (∀ data_type, data_type ∈ ["10min"; "hourly"; "daily"] →
     AmedasNode.get_data net self data_type None w
     = (Raise (AttributeError "'NoneType' object has no attribute 'year'"), w))
  ∧ (∀ target_date : option date,
       let url := "http://www.jma.go.jp/jp/amedas_h/today-"
                  +:+ Py.fstr (AmedasNode.id self) +:+ ".html" in
       ∃ w', AmedasNode.get_data net self "real-time" target_date w
             = (Ok (body_of (net (requested (trace w)) url)), w')
             ∧ requested (trace w') = requested (trace w) ++ [url]
             ∧ files w' = files w).
Proof.
  split.
  - intros data_type Hin. unfold AmedasNode.get_data. rewrite bind_run.
    unfold AmedasNode._construct_url. by rewrite decide_True.
  - intros target_date url. unfold AmedasNode.get_data. rewrite bind_run.
    unfold AmedasNode._construct_url.
    rewrite decide_False by (rewrite !elem_of_cons, elem_of_nil; intros [?|[?|[?|[]]]]; discriminate).
    rewrite decide_True by done. fold url.
    unfold mret at 1, M_ret.
    rewrite bind_run. unfold logger at 1. rewrite download_html_run.
    assert (Hreq : ∀ m, requested (trace (record (EvLog INFO m) w)) = requested (trace w)).
    { intros m. unfold record; cbn [trace]. rewrite requested_app. apply app_nil_r. }
    rewrite !Hreq. unfold fetched. eexists. split; [reflexivity|]. cbn [trace files record].
    split; [|reflexivity].
    rewrite <- !app_assoc, !requested_app. cbn [fetch_events tail].
    change (requested (EvGet url ?o :: ?t)) with (url :: requested t).
    destruct (net _ url) as [[?|?]|?]; reflexivity.
Qed.

Lemma get_data_needs_a_date_witness :
  AmedasNode.get_data net_up wakkanai "10min" None empty_world
  = (Raise (AttributeError "'NoneType' object has no attribute 'year'"), empty_world).
Proof.
  apply (proj1 (get_data_needs_a_date net_up wakkanai empty_world) "10min").
  apply list_elem_of_here.
Defined.

(** ** The station registry: rows, errors and duplicates *)

Lemma unpack_fields_spec {A : Type} (fields : list A) :
  (7 ≤ length fields)%nat →
  ∃ p b n h i a g,
    unpack_fields fields = Some (p, b, n, h, i, a, g)
    ∧ fields !! 0%nat = Some p ∧ fields !! 1%nat = Some b ∧ fields !! 2%nat = Some n
    ∧ rev fields !! 3%nat = Some h ∧ rev fields !! 2%nat = Some i
    ∧ rev fields !! 1%nat = Some a ∧ rev fields !! 0%nat = Some g.
Proof.
  intros Hlen. destruct fields as [|p [|b [|n rest]]]; simpl in Hlen; try lia.
  assert (Hrest : (4 ≤ length (rev rest))%nat) by (rewrite length_rev; lia).
  cbn [unpack_fields rev]. rewrite <- !app_assoc.
  destruct (rev rest) as [|g [|a [|i [|h r]]]]; simpl in Hrest; try lia.
  exists p, b, n, h, i, a, g. repeat split.
Qed.

Lemma load_line_long (acc : gmap (option string) AmedasNode.t) (line : string) :
  (10 ≤ length (row_fields line))%nat →
  load_line acc line
  = match row_station (row_fields line) with
    | Ok node => Ok (<[AmedasNode.block_no node := node]> acc)
    | Raise e => Raise e
    end.
Proof.
  intros Hlen. unfold load_line, row_station. fold (row_fields line).
  apply Nat.ltb_ge in Hlen. rewrite Hlen.
  destruct (unpack_fields (row_fields line)) as [[[[[[[p b] n] h] i] a] g]|]; [|reflexivity].
  destruct (AmedasNode.__init__ p b n i a g h) as [node|e] eqn:Hinit; [|reflexivity].
  apply init_inv in Hinit as (? & ? & _ & _ & ->). reflexivity.
Qed.

Lemma row_station_inv (fields : list (option string)) (node : AmedasNode.t) :
  (7 ≤ length fields)%nat →
  row_station fields = Ok node →
  ∃ h f z,
    rev fields !! 3%nat = Some h ∧ Py.float h = Ok f
    ∧ Py.int (AmedasNode.block_no node) = Ok z
    ∧ node = AmedasNode.mk (default None (fields !! 1%nat)) (default None (fields !! 0%nat))
               (default None (fields !! 2%nat)) (default None (rev fields !! 2%nat))
               (default None (rev fields !! 1%nat)) (default None (rev fields !! 0%nat))
               f (if (z <? 10000)%Z then "a" else "s").
Proof.
  intros Hlen. unfold row_station.
  destruct (unpack_fields_spec fields Hlen)
    as (p & b & n & h & i & a & g & -> & -> & -> & -> & -> & -> & -> & ->).
  intros Hrow. apply init_inv in Hrow as (f & z & Hf & Hz & ->). by exists h, f, z.
Qed.

(** X6: the fields of a row are taken from both ends: a station built from
    a row has the first three fields as [prec_no], [block_no] and [name] and
    the last four as elevation, [id], [area_code] and [group_code], counted
    from the end of the row; whatever lies between is ignored, so a row
    longer than ten fields still gives its last field as [group_code]. *)
Theorem row_fields_are_taken_from_both_ends
    (fields : list (option string)) (node : AmedasNode.t) :
  (10 ≤ length fields)%nat →
  row_station fields = Ok node →
  fields !! 0%nat = Some (AmedasNode.prec_no node)
  ∧ fields !! 1%nat = Some (AmedasNode.block_no node)
  ∧ fields !! 2%nat = Some (AmedasNode.name node)
  ∧ (∃ h, rev fields !! 3%nat = Some h ∧ Py.float h = Ok (AmedasNode.height node))
  ∧ rev fields !! 2%nat = Some (AmedasNode.id node)
  ∧ rev fields !! 1%nat = Some (AmedasNode.area_code node)
  ∧ rev fields !! 0%nat = Some (AmedasNode.group_code node)
  ∧ ∀ middle : list (option string),
      row_station (take 3 fields ++ middle ++ drop (length fields - 4) fields) = Ok node.
Proof.
  intros Hlen Hrow. assert (H7 : (7 ≤ length fields)%nat) by lia.
  unfold row_station in Hrow.
  destruct (unpack_fields_spec fields H7)
    as (p & b & n & h & i & a & g & Hun & H0 & H1 & H2 & H3 & H4 & H5 & H6).
  rewrite Hun in Hrow. pose proof Hrow as Hinit.
  apply init_inv in Hrow as (f & z & Hf & Hz & ->). cbn.
  repeat split; try done; [by exists h|].
  intros middle. unfold row_station.
  destruct fields as [|p' [|b' [|n' rest]]]; simpl in Hlen; try lia.
  injection H0 as ->. injection H1 as ->. injection H2 as ->.
  cbn [rev] in H3, H4, H5, H6. rewrite <- !app_assoc in H3, H4, H5, H6.
  assert (Hrest : (4 ≤ length (rev rest))%nat) by (rewrite length_rev; lia).
  destruct (rev rest) as [|g' [|a' [|i' [|h' r]]]] eqn:Hrev; simpl in Hrest; try lia.
  injection H3 as ->. injection H4 as ->. injection H5 as ->. injection H6 as ->.
  apply (f_equal (@rev _)) in Hrev. rewrite rev_involutive in Hrev. cbn [rev] in Hrev.
  rewrite <- !app_assoc in Hrev. cbn [app] in Hrev.
  assert (Hdrop : drop (length (p :: b :: n :: rest) - 4) (p :: b :: n :: rest) = [h; i; a; g]).
  { rewrite Hrev. cbn [length]. rewrite length_app. cbn [length].
    replace (S (S (S (length (rev r) + 4))) - 4)%nat with (3 + length (rev r))%nat by lia.
    cbn [drop Nat.add]. by rewrite drop_app_length. }
  rewrite Hdrop. change (take 3 (p :: b :: n :: rest)) with [p; b; n].
  cbn [app unpack_fields]. rewrite rev_app_distr. cbn [rev app]. exact Hinit.
Qed.

Lemma row_fields_are_taken_from_both_ends_witness :
  let fields := row_fields wakkanai_row in
  fields !! 0%nat = Some (AmedasNode.prec_no wakkanai)
  ∧ fields !! 1%nat = Some (AmedasNode.block_no wakkanai)
  ∧ fields !! 2%nat = Some (AmedasNode.name wakkanai)
  ∧ (∃ h, rev fields !! 3%nat = Some h ∧ Py.float h = Ok (AmedasNode.height wakkanai))
  ∧ rev fields !! 2%nat = Some (AmedasNode.id wakkanai)
  ∧ rev fields !! 1%nat = Some (AmedasNode.area_code wakkanai)
  ∧ rev fields !! 0%nat = Some (AmedasNode.group_code wakkanai)
  ∧ ∀ middle : list (option string),
      row_station (take 3 fields ++ middle ++ drop (length fields - 4) fields) = Ok wakkanai.
Proof.
  apply (row_fields_are_taken_from_both_ends (row_fields wakkanai_row) wakkanai).
  - vm_compute. lia.
  - reflexivity.
Defined.

(** X7: a row with at least ten fields whose elevation [float()] rejects,
    or whose block code [int()] rejects, is fatal: the load raises that
    exception at this row, whatever lines follow, and no registry is
    returned.  The elevation is looked at first.  A field spelled [None]
    counts as missing and raises [TypeError]. *)
Theorem bad_row_aborts_load
    (pre post : list string) (bad : string) (acc : gmap (option string) AmedasNode.t)
    (h b : option string) :
  get_amedas_nodes pre = Ok acc →
  (10 ≤ length (row_fields bad))%nat →
  rev (row_fields bad) !! 3%nat = Some h →
  row_fields bad !! 1%nat = Some b →
  (∀ e, Py.float h = Raise e → get_amedas_nodes (pre ++ bad :: post) = Raise e)
  ∧ (∀ f e, Py.float h = Ok f → Py.int b = Raise e →
       get_amedas_nodes (pre ++ bad :: post) = Raise e)
  ∧ (h = None ∨ ((∃ f, Py.float h = Ok f) ∧ b = None) →
     ∃ msg, get_amedas_nodes (pre ++ bad :: post) = Raise (TypeError msg)).
Proof.
  intros Hpre Hlen Hh Hb. unfold get_amedas_nodes in *.
  assert (Hrun : load_lines ∅ (pre ++ bad :: post)
                 = match AmedasNode.__init__ (default None (row_fields bad !! 0%nat)) b
                           (default None (row_fields bad !! 2%nat))
                           (default None (rev (row_fields bad) !! 2%nat))
                           (default None (rev (row_fields bad) !! 1%nat))
                           (default None (rev (row_fields bad) !! 0%nat)) h with
                   | Ok node => load_lines (<[AmedasNode.block_no node := node]> acc) post
                   | Raise e => Raise e
                   end).
  { rewrite load_lines_app, Hpre. cbn. rewrite load_line_long by done.
    unfold row_station.
    destruct (unpack_fields_spec (row_fields bad))
      as (p' & b' & n' & h' & i' & a' & g' & -> & -> & Hb' & -> & Hh' & -> & -> & ->);
      [lia|].
    rewrite Hb in Hb'. injection Hb' as <-. rewrite Hh in Hh'. injection Hh' as <-.
    cbn [default]. by destruct (AmedasNode.__init__ _ _ _ _ _ _ _). }
  rewrite Hrun. unfold AmedasNode.__init__. split; [|split].
  - intros e ->. reflexivity.
  - intros f e -> ->. reflexivity.
  - intros [->|[[f ->] ->]]; cbn; by eexists.
Qed.

Lemma bad_row_aborts_load_witness :
  let bad := tsv ["11"; "47401"; "Wakkanai"; "WAKKANAI"; "45.415"; "141.678";
                  "n/a"; "11016"; "011000"; "11"] in
  get_amedas_nodes [wakkanai_row] = Ok {[ Some "47401" := wakkanai ]}
  ∧ (10 ≤ length (row_fields bad))%nat
  ∧ rev (row_fields bad) !! 3%nat = Some (Some "n/a")
  ∧ row_fields bad !! 1%nat = Some (Some "47401")
  ∧ get_amedas_nodes ([wakkanai_row] ++ bad :: [wakkanai_row])
    = Raise (ValueError "could not convert string to float: n/a").
Proof.
  intros bad.
  assert (H1 : get_amedas_nodes [wakkanai_row] = Ok {[ Some "47401" := wakkanai ]})
    by (vm_compute; reflexivity).
  assert (H2 : (10 ≤ length (row_fields bad))%nat) by (vm_compute; lia).
  assert (H3 : rev (row_fields bad) !! 3%nat = Some (Some "n/a")) by reflexivity.
  assert (H4 : row_fields bad !! 1%nat = Some (Some "47401")) by reflexivity.
  split; [exact H1|]. split; [exact H2|]. split; [exact H3|]. split; [exact H4|].
  apply (proj1 (bad_row_aborts_load [wakkanai_row] [wakkanai_row] bad _ _ _ H1 H2 H3 H4)).
  reflexivity.
Defined.


Lemma load_lines_keeps (post : list string) (acc m : gmap (option string) AmedasNode.t)
      (k : option string) (node : AmedasNode.t) :
  load_lines acc post = Ok m →
  acc !! k = Some node →
  (∀ l, l ∈ post → (10 ≤ length (row_fields l))%nat → row_fields l !! 1%nat ≠ Some k) →
  m !! k = Some node.
Proof.
  revert acc. induction post as [|line rest IH]; intros acc Hload Hk Hfresh.
  - by injection Hload as <-.
  - simpl in Hload. destruct (load_line acc line) as [acc1|e] eqn:Hline; [|discriminate].
    cbn in Hload. apply (IH acc1 Hload).
    + apply load_line_inv in Hline as [[_ ->]|[Hge Hrow]]; [done|].
      destruct Hrow as (p & b & n & h & i & a & g & node' & _ & Hb & _ & ->).
      rewrite lookup_insert_ne; [done|]. intros ->.
      by apply (Hfresh line (list_elem_of_here _ _) Hge).
    + intros l Hl. apply Hfresh. by apply list_elem_of_further.
Qed.

(** X8: in the registry the last row wins: when the table loads, a row
    with at least ten fields that no later such row repeats the block code
    of is the one its block code is bound to, so of two rows with the same
    block code the station of the later one is kept and the earlier one is
    overwritten without notice. *)
Theorem last_row_wins
    (pre post : list string) (line : string) (m : gmap (option string) AmedasNode.t) :
  get_amedas_nodes (pre ++ line :: post) = Ok m →
  (10 ≤ length (row_fields line))%nat →
  (∀ l, l ∈ post → (10 ≤ length (row_fields l))%nat →
        row_fields l !! 1%nat ≠ row_fields line !! 1%nat) →
  ∃ node, row_station (row_fields line) = Ok node
          ∧ row_fields line !! 1%nat = Some (AmedasNode.block_no node)
          ∧ m !! AmedasNode.block_no node = Some node.
Proof.
  unfold get_amedas_nodes. intros Hload Hlen Hfresh.
  rewrite load_lines_app in Hload.
  destruct (load_lines ∅ pre) as [acc|e]; [|discriminate]. cbn in Hload.
  rewrite load_line_long in Hload by done.
  destruct (row_station (row_fields line)) as [node|e] eqn:Hrow; [|discriminate].
  cbn in Hload. exists node. split; [done|].
  assert (H7 : (7 ≤ length (row_fields line))%nat) by lia.
  destruct (row_station_inv _ _ H7 Hrow) as (h & f & z & _ & _ & _ & Hnode).
  assert (Hkey : row_fields line !! 1%nat = Some (AmedasNode.block_no node)).
  { rewrite Hnode. cbn. destruct (row_fields line) as [|? [|? ?]]; simpl in Hlen; [lia..|].
    reflexivity. }
  split; [exact Hkey|].
  apply (load_lines_keeps post _ m _ node Hload); [apply lookup_insert_eq|].
  intros l Hl Hge. rewrite <- Hkey. by apply Hfresh.
Qed.

Lemma last_row_wins_witness :
  let early := tsv ["11"; "47401"; "Old name"; "OLD"; "45.415"; "141.678";
                    "9.9"; "11016"; "011000"; "11"] in
  get_amedas_nodes ([early] ++ wakkanai_row :: [short_row])
  = Ok {[ Some "47401" := wakkanai ]}
  ∧ ∃ node, row_station (row_fields wakkanai_row) = Ok node
            ∧ row_fields wakkanai_row !! 1%nat = Some (AmedasNode.block_no node)
            ∧ ({[ Some "47401" := wakkanai ]} : gmap (option string) AmedasNode.t)
              !! AmedasNode.block_no node = Some node.
Proof.
  intros early.
  assert (H1 : get_amedas_nodes ([early] ++ wakkanai_row :: [short_row])
               = Ok {[ Some "47401" := wakkanai ]}) by (vm_compute; reflexivity).
  split; [exact H1|].
  apply (last_row_wins [early] [short_row] wakkanai_row _ H1).
  - vm_compute. lia.
  - intros l Hl Hge. apply list_elem_of_singleton in Hl as ->.
    vm_compute in Hge. lia.
Defined.

Lemma load_lines_forall (P : option string → AmedasNode.t → Prop)
      (lines : list string) (acc m : gmap (option string) AmedasNode.t) :
  (∀ p b n i a g h node, AmedasNode.__init__ p b n i a g h = Ok node → P b node) →
  load_lines acc lines = Ok m →
  (∀ k node, acc !! k = Some node → P k node) →
  ∀ k node, m !! k = Some node → P k node.
Proof.
  intros HP. revert acc. induction lines as [|line rest IH]; intros acc Hload Hacc.
  - by injection Hload as <-.
  - simpl in Hload. destruct (load_line acc line) as [acc1|e] eqn:Hline; [|discriminate].
    cbn in Hload. apply (IH acc1 Hload).
    apply load_line_inv in Hline as [[_ ->]|[_ Hrow]]; [done|].
    destruct Hrow as (p & b & n & h & i & a & g & node' & _ & _ & Hinit & ->).
    intros k node. rewrite lookup_insert. case_decide as Hk; [|by apply Hacc].
    intros [= <-]. subst k. by eapply HP.
Qed.

(** X9: every entry of a loaded registry is sound: its key is never
    [None] but a string that [int()] reads, the station bound to it carries
    that string as block code, its URL category is the one that integer
    gives, and its elevation came from a string [float()] accepts. *)
Theorem registry_entries_are_sound
    (lines : list string) (m : gmap (option string) AmedasNode.t)
    (k : option string) (node : AmedasNode.t) :
  get_amedas_nodes lines = Ok m →
  m !! k = Some node →
  ∃ (s : string) (z : Z),
    k = Some s
    ∧ AmedasNode.block_no node = Some s
    ∧ Py.int_literal s = Some z
    ∧ AmedasNode.url_part node = (if (z <? 10000)%Z then "a" else "s")
    ∧ ∃ hs, Py.float_literal hs = true ∧ Py.float (Some hs) = Ok (AmedasNode.height node).
Proof.
  intros Hload Hk.
  apply (load_lines_forall
           (fun k node => ∃ (s : string) (z : Z),
                k = Some s ∧ AmedasNode.block_no node = Some s
                ∧ Py.int_literal s = Some z
                ∧ AmedasNode.url_part node = (if (z <? 10000)%Z then "a" else "s")
                ∧ ∃ hs, Py.float_literal hs = true
                        ∧ Py.float (Some hs) = Ok (AmedasNode.height node))
           lines ∅ m); try done.
  - clear. intros p b n i a g h node Hinit.
    apply init_inv in Hinit as (f & z & Hf & Hz & ->).
    destruct b as [s|]; [|discriminate]. cbn in Hz.
    destruct (Py.int_literal s) as [z'|] eqn:Hs; [|discriminate]. injection Hz as ->.
    exists s, z. repeat split; try done.
    destruct h as [hs|]; [|discriminate]. exists hs. split; [|exact Hf].
    cbn in Hf. by destruct (Py.float_literal hs).
Qed.

Lemma registry_entries_are_sound_witness :
  get_amedas_nodes [wakkanai_row; short_row] = Ok {[ Some "47401" := wakkanai ]}
  ∧ ∃ (s : string) (z : Z),
      Some "47401" = Some s
      ∧ AmedasNode.block_no wakkanai = Some s
      ∧ Py.int_literal s = Some z
      ∧ AmedasNode.url_part wakkanai = (if (z <? 10000)%Z then "a" else "s")
      ∧ ∃ hs, Py.float_literal hs = true ∧ Py.float (Some hs) = Ok (AmedasNode.height wakkanai).
Proof.
  assert (H1 : get_amedas_nodes [wakkanai_row; short_row] = Ok {[ Some "47401" := wakkanai ]})
    by (vm_compute; reflexivity).
  split; [exact H1|].
  apply (registry_entries_are_sound [wakkanai_row; short_row] _ (Some "47401") wakkanai H1).
  reflexivity.
Defined.

Lemma lstrip_all_space (s : string) :
  all_space s = true → Py.lstrip_by Py.isspace s = EmptyString.
Proof.
  induction s as [|c r IH]; [done|]. cbn. intros H.
  apply andb_true_iff in H as [-> Hr]. auto.
Qed.

Lemma rstrip_all_space (s : string) :
  all_space s = true → Py.rstrip_by Py.isspace s = EmptyString.
Proof.
  induction s as [|c r IH]; [done|]. cbn. intros H.
  apply andb_true_iff in H as [-> Hr]. by rewrite IH.
Qed.

Lemma lstrip_app (s t : string) :
  Py.lstrip_by Py.isspace (s +:+ t)
  = if all_space s then Py.lstrip_by Py.isspace t else Py.lstrip_by Py.isspace s +:+ t.
Proof.
  induction s as [|c r IH]; [done|].
  change (String c r +:+ t) with (String c (r +:+ t)).
  cbn [Py.lstrip_by all_space].
  destruct (Py.isspace c); [exact IH|done].
Qed.

Lemma rstrip_app_space (s t : string) :
  all_space t = true → Py.rstrip_by Py.isspace (s +:+ t) = Py.rstrip_by Py.isspace s.
Proof.
  intros Ht. induction s as [|c r IH]; [by apply rstrip_all_space|].
  change (String c r +:+ t) with (String c (r +:+ t)).
  cbn [Py.rstrip_by]. by rewrite IH.
Qed.

Lemma strip_app_space (s t : string) :
  all_space t = true → Py.strip (s +:+ t) = Py.strip s.
Proof.
  intros Ht. unfold Py.strip. rewrite lstrip_app.
  destruct (all_space s) eqn:Hs.
  - by rewrite !lstrip_all_space.
  - by apply rstrip_app_space.
Qed.

Lemma split_length_app (sep : ascii) (s r : string) :
  length (Py.split sep (s +:+ String sep r))
  = (length (Py.split sep s) + length (Py.split sep r))%nat.
Proof.
  induction s as [|c s' IH].
  - change (EmptyString +:+ String sep r) with (String sep r).
    rewrite split_length_cons, Ascii.eqb_refl. reflexivity.
  - change (String c s' +:+ String sep r) with (String c (s' +:+ String sep r)).
    rewrite !split_length_cons, IH. lia.
Qed.

(** X10: white space at the end of a line, tabs included, is invisible to
    the loader, so empty trailing fields are lost before the fields are
    counted: a row of ten tab-separated fields whose last field is blank is
    read as a row of nine and skipped like any short row. *)
Theorem blank_last_field_drops_the_row (pre post : list string) (s ws : string) :
  all_space ws = true →
  row_fields (s +:+ String Py.tab ws) = row_fields s
  ∧ get_amedas_nodes (pre ++ (s +:+ String Py.tab ws) :: post)
    = get_amedas_nodes (pre ++ s :: post)
  ∧ (length (Py.split Py.tab s) = 9%nat →
     length (Py.split Py.tab ws) = 1%nat →
     length (Py.split Py.tab (s +:+ String Py.tab ws)) = 10%nat
     ∧ get_amedas_nodes (pre ++ (s +:+ String Py.tab ws) :: post)
       = get_amedas_nodes (pre ++ post)).
Proof.
  intros Hws.
  assert (Hstrip : Py.strip (s +:+ String Py.tab ws) = Py.strip s).
  { apply strip_app_space. cbn. exact Hws. }
  assert (Hfields : row_fields (s +:+ String Py.tab ws) = row_fields s)
    by (unfold row_fields; by rewrite Hstrip).
  assert (Hline : ∀ acc, load_line acc (s +:+ String Py.tab ws) = load_line acc s)
    by (intros acc; unfold load_line; by rewrite Hstrip).
  assert (Hsame : get_amedas_nodes (pre ++ (s +:+ String Py.tab ws) :: post)
                  = get_amedas_nodes (pre ++ s :: post)).
  { unfold get_amedas_nodes. rewrite !load_lines_app.
    destruct (load_lines ∅ pre) as [acc|e]; [|reflexivity]. cbn. by rewrite Hline. }
  split; [exact Hfields|]. split; [exact Hsame|].
  intros H9 H1. split; [rewrite split_length_app; lia|].
  rewrite Hsame. unfold get_amedas_nodes. rewrite !load_lines_app.
  destruct (load_lines ∅ pre) as [acc|e]; [|reflexivity]. cbn.
  rewrite load_line_short; [reflexivity|].
  pose proof (row_fields_length s). lia.
Qed.

Lemma blank_last_field_drops_the_row_witness :
  let s := "11" +:+ String Py.tab "47401" +:+ String Py.tab "Wakkanai"
           +:+ String Py.tab "WAKKANAI" +:+ String Py.tab "45.415"
           +:+ String Py.tab "141.678" +:+ String Py.tab "2.8"
           +:+ String Py.tab "11016" +:+ String Py.tab "011000" in
  let ws := String (ascii_of_nat 10) EmptyString in
  length (Py.split Py.tab (s +:+ String Py.tab ws)) = 10%nat
  ∧ get_amedas_nodes ([wakkanai_row] ++ (s +:+ String Py.tab ws) :: [])
    = get_amedas_nodes ([wakkanai_row] ++ []).
Proof.
  intros s ws.
  apply (blank_last_field_drops_the_row [wakkanai_row] [] s ws); reflexivity.
Defined.

(** ** Cache keys *)

Lemma append_assoc (a b c : string) : (a +:+ b) +:+ c = a +:+ (b +:+ c).
Proof.
  induction a as [|x a IH]; [reflexivity|].
  change (String x a +:+ b) with (String x (a +:+ b)).
  change (String x (a +:+ b) +:+ c) with (String x ((a +:+ b) +:+ c)).
  by rewrite IH.
Qed.

Lemma read_digits_stop (acc : Z) (r : string) :
  no_digit_ahead r → read_digits acc r = (acc, r).
Proof. destruct r as [|c r]; [done|]. cbn. by intros ->. Qed.

Lemma read_numeral (d : Decimal.uint) (acc : Z) (r : string) :
  no_digit_ahead r →
  read_digits acc (NilEmpty.string_of_uint d +:+ r) = (uint_val acc d, r).
Proof.
  intros Hr. revert acc.
  induction d; intros acc; [by apply read_digits_stop|..];
    cbn [NilEmpty.string_of_uint];
    match goal with
    | |- context [String ?c ?s +:+ r] =>
        change (String c s +:+ r) with (String c (s +:+ r))
    end;
    cbn [read_digits]; change (Py.is_digit _) with true; cbn iota; by rewrite IHd.
Qed.

Lemma read_zeros (k : nat) (s : string) :
  read_digits 0 (Py.zeros k +:+ s) = read_digits 0 s.
Proof.
  induction k as [|k IH]; [reflexivity|]. cbn [Py.zeros].
  change (String "0" (Py.zeros k) +:+ s) with (String "0" (Py.zeros k +:+ s)).
  cbn [read_digits]. change (Py.is_digit "0") with true. cbn iota. exact IH.
Qed.

Lemma read_zfill (w : nat) (n : N) (r : string) :
  no_digit_ahead r → read_digits 0 (Py.zfill w n +:+ r) = (Z.of_N n, r).
Proof.
  intros Hr. unfold Py.zfill, Py.str_N. rewrite append_assoc, read_zeros.
  rewrite read_numeral by done.
  by rewrite uint_val_of_uint, DecimalN.Unsigned.of_to.
Qed.

Lemma underscore_inj (a b : string) : "_" +:+ a = "_" +:+ b → a = b.
Proof. intros H. by apply (inj (String.app "_")) in H. Qed.

Lemma strftime_inj (d1 d2 : date) (r1 r2 : string) :
  no_digit_ahead r1 → no_digit_ahead r2 →
  strftime_Y_m_d d1 +:+ r1 = strftime_Y_m_d d2 +:+ r2 → d1 = d2 ∧ r1 = r2.
Proof.
  intros Hr1 Hr2. unfold strftime_Y_m_d. rewrite !append_assoc. intros H.
  assert (Hsep : ∀ x, no_digit_ahead ("_" +:+ x)) by (intros x; reflexivity).
  pose proof (f_equal (read_digits 0) H) as Hy.
  rewrite !read_zfill in Hy by apply Hsep.
  pose proof (f_equal fst Hy) as Hyear. apply (f_equal snd) in Hy as Hrest.
  cbn [fst snd] in Hyear, Hrest. apply underscore_inj in Hrest.
  pose proof (f_equal (read_digits 0) Hrest) as Hm.
  rewrite !read_zfill in Hm by apply Hsep.
  pose proof (f_equal fst Hm) as Hmonth. apply (f_equal snd) in Hm as Hrest'.
  cbn [fst snd] in Hmonth, Hrest'. apply underscore_inj in Hrest'.
  pose proof (f_equal (read_digits 0) Hrest') as Hd.
  rewrite !read_zfill in Hd by done.
  pose proof (f_equal fst Hd) as Hday. apply (f_equal snd) in Hd as Hr.
  cbn [fst snd] in Hday, Hr.
  split; [|exact Hr]. apply date_eq; lia.
Qed.

Lemma file_name_inj (self : AmedasNode.t) (d1 d2 : date) :
  file_name self d1 = file_name self d2 → d1 = d2.
Proof.
  unfold file_name. intros H.
  apply (inj (String.app _)) in H. apply underscore_inj in H.
  apply (inj (String.app _)) in H. apply underscore_inj in H.
  by apply strftime_inj in H as [-> _].
Qed.

(** X11: the cache file is a faithful key of the effective date: for one
    station and one resolution two dates lead [save] to the same cache file
    exactly when their effective dates agree, that is, for "daily", when
    they lie in the same month of the same year and, for any other
    resolution, when they are the same day. *)
Theorem cache_file_identifies_the_date
    (self : AmedasNode.t) (data_type : string) (d1 d2 : date) :
  file_path self data_type (date_to_use data_type d1)
  = file_path self data_type (date_to_use data_type d2)
  ↔ if decide (data_type = "daily")
    then year d1 = year d2 ∧ month d1 = month d2
    else d1 = d2.
Proof.
  assert (Hinj : ∀ e1 e2, file_path self data_type e1 = file_path self data_type e2 → e1 = e2).
  { intros e1 e2 H. unfold file_path, path_join in H.
    apply app_inj_tail in H as [_ H]. by apply (file_name_inj self). }
  unfold date_to_use. destruct (decide (data_type = "daily")) as [->|Hne].
  - destruct (first_of_month_fields d1) as (Hy1 & Hm1 & Hd1).
    destruct (first_of_month_fields d2) as (Hy2 & Hm2 & Hd2). split.
    + intros H. apply Hinj in H. rewrite <- Hy1, <- Hy2, <- Hm1, <- Hm2. by rewrite H.
    + intros [Hy Hm]. f_equal. apply date_eq; congruence.
  - split; [apply Hinj|by intros ->].
Qed.

(** X12: a month of daily data is fetched once: for a station whose path
    segments are plain, when a call of [save] for "daily" finds no cached
    file and obtains a non-empty page, a later call for any other day of the
    same month, not forced, finds that file, sends no request and writes
    nothing. *)
Theorem daily_month_is_fetched_once
    (net : Network) (self : AmedasNode.t) (d1 d2 : date) (w : World) (u text : string) :
  plain_paths self "daily" →
  year d1 = year d2 → month d1 = month d2 →
  let fp := file_path self "daily" (date_to_use "daily" d1) in
  exists_in w fp = false →
  url_for self "daily" (date_to_use "daily" d1) = Some u →
  net (requested (trace w)) u = Responds (Decodes text) →
  text ≠ EmptyString →
  ∃ w1 w2 evs2,
    AmedasNode.save net self "daily" d1 false w = (Ok true, w1)
    ∧ files w1 !! fp = Some text
    ∧ AmedasNode.save net self "daily" d2 false w1 = (Ok false, w2)
    ∧ trace w2 = trace w1 ++ evs2
    ∧ EvExists fp true ∈ evs2
    ∧ requested evs2 = [] ∧ written evs2 = []
    ∧ files w2 = files w1
    ∧ requested (trace w2) = requested (trace w) ++ [u].
Proof.
  intros _ Hy Hm fp Hex Hurl Hnet Htext.
  assert (Hsame : date_to_use "daily" d2 = date_to_use "daily" d1).
  { apply date_to_use_daily;
      destruct (first_of_month_fields d1) as (Hy1 & Hm1 & Hd1);
      unfold date_to_use; rewrite decide_True by done; congruence. }
  destruct (save_miss net self "daily" d1 false w) as (w1 & H1 & _ & Hf1 & Ht1).
  { fold fp. by rewrite Hex. }
  fold fp in Hf1, Ht1. rewrite Hurl in Hf1, Ht1.
  unfold fetched, body_of in Hf1, Ht1. rewrite Hnet in Hf1, Ht1.
  assert (Py.truthy (Some text) = true) as Htr by (by destruct text).
  rewrite Htr in Hf1, Ht1. cbn [default] in Hf1, Ht1.
  assert (Hreq : requested (trace w1) = requested (trace w) ++ [u]).
  { rewrite Ht1, requested_app. f_equal. by apply requested_save_miss. }
  assert (Hfp : files w1 !! fp = Some text) by (rewrite Hf1; apply lookup_insert_eq).
  destruct (save_hit net self "daily" d2 w1) as (w2 & H2 & _ & Hf2 & Ht2).
  { rewrite Hsame. fold fp. unfold exists_in. rewrite Hfp.
    rewrite (bool_decide_eq_true_2 (is_Some _)) by eauto. apply orb_true_r. }
  rewrite Hsame in Ht2. fold fp in Ht2.
  exists w1, w2. eexists. split; [exact H1|]. split; [exact Hfp|]. split; [exact H2|].
  split; [exact Ht2|]. split; [apply elem_of_app; right; apply list_elem_of_here|].
  split; [rewrite requested_app, requested_mkdirs; reflexivity|].
  split; [rewrite written_app, written_mkdirs; reflexivity|].
  split; [exact Hf2|].
  rewrite Ht2, !requested_app, requested_mkdirs. simpl. by rewrite app_nil_r.
Qed.

Lemma daily_month_is_fetched_once_witness :
  let fp := ["raw_html"; "daily"; "47401_Wakkanai"; "2016"; "47401_Wakkanai_2016_05_01.html"] in
  let u := "http://www.data.jma.go.jp/obd/stats/etrn/view/daily_s1.php?prec_no=11&block_no=47401&year=2016&month=05&day=01&view=" in
  plain_paths wakkanai "daily"
  ∧ ∃ w1 w2 evs2,
    AmedasNode.save net_up wakkanai "daily" date_2016_05_17 false empty_world = (Ok true, w1)
    ∧ files w1 !! fp = Some "<html></html>"
    ∧ AmedasNode.save net_up wakkanai "daily" date_2016_05_01 false w1 = (Ok false, w2)
    ∧ trace w2 = trace w1 ++ evs2
    ∧ EvExists fp true ∈ evs2
    ∧ requested evs2 = [] ∧ written evs2 = []
    ∧ files w2 = files w1
    ∧ requested (trace w2) = requested (trace empty_world) ++ [u].
Proof.
  intros fp u.
  assert (H : plain_paths wakkanai "daily") by (split; reflexivity).
  split; [exact H|].
  apply (daily_month_is_fetched_once net_up wakkanai date_2016_05_17 date_2016_05_01
           empty_world u "<html></html>" H);
    [reflexivity | reflexivity | reflexivity | reflexivity | reflexivity | discriminate].
Defined.

(** ** [main]: stepping through the dates *)

Lemma days_in_month_bounds (y m : N) : (28 ≤ days_in_month y m ≤ 31)%N.
Proof.
  unfold days_in_month.
  repeat (match goal with |- context [match ?x with _ => _ end] => destruct x end; try lia).
Qed.

Lemma date_bounds (d : date) :
  (1 ≤ year d ≤ 9999 ∧ 1 ≤ month d ≤ 12 ∧ 1 ≤ day d ≤ days_in_month (year d) (month d))%N.
Proof.
  pose proof (date_valid d) as H. unfold valid_ymd in H. rewrite !andb_True in H.
  destruct H as [[[[[H1 H2] H3] H4] H5] H6].
  apply Is_true_true in H1, H2, H3, H4, H5, H6.
  apply N.leb_le in H1, H2, H3, H4, H5, H6. lia.
Qed.

Lemma date_new_ok (y m d : N) :
  (1 ≤ y ≤ 9999)%N → (1 ≤ m ≤ 12)%N → (1 ≤ d ≤ days_in_month y m)%N →
  ∃ d', date_new y m d = Ok d' ∧ year d' = y ∧ month d' = m ∧ day d' = d.
Proof.
  intros Hy Hm Hd. unfold date_new. destruct (decide _) as [H|H]; [by eexists|].
  destruct H. unfold valid_ymd. rewrite !andb_True.
  repeat split; apply Is_true_true, N.leb_le; lia.
Qed.

Lemma date_new_fields (y m d : N) (d' : date) :
  date_new y m d = Ok d' → year d' = y ∧ month d' = m ∧ day d' = d.
Proof. unfold date_new. destruct (decide _); [|discriminate]. by intros [= <-]. Qed.

Lemma date_le_stamp (a b : date) : date_le a b = true ↔ (stamp a ≤ stamp b)%N.
Proof.
  pose proof (date_bounds a) as Ha. pose proof (date_bounds b) as Hb.
  pose proof (days_in_month_bounds (year a) (month a)).
  pose proof (days_in_month_bounds (year b) (month b)).
  unfold date_le, stamp.
  rewrite !orb_true_iff, !andb_true_iff, !orb_true_iff, !andb_true_iff.
  rewrite !N.ltb_lt, !N.eqb_eq, N.leb_le. nia.
Qed.

Lemma add_day_grows (d d' : date) : add_day d = Done d' → (stamp d < stamp d')%N.
Proof.
  pose proof (date_bounds d) as Hd.
  pose proof (days_in_month_bounds (year d) (month d)).
  unfold add_day.
  destruct (N.ltb_spec (day d) (days_in_month (year d) (month d)));
    [|destruct (N.ltb_spec (month d) 12)];
    match goal with |- context [date_new ?y ?m ?x] =>
      destruct (date_new y m x) as [e|?] eqn:He; [|discriminate] end;
    apply date_new_fields in He as (Hy & Hm & Hdd); intros [= <-];
    unfold stamp; rewrite Hy, Hm, Hdd; lia.
Qed.

Lemma add_month_grows (d d' : date) : add_month d = Done d' → (stamp d < stamp d')%N.
Proof.
  pose proof (date_bounds d) as Hd.
  pose proof (days_in_month_bounds (year d) (month d)).
  unfold add_month.
  destruct (N.ltb_spec 12 (month d + 1));
    match goal with |- context [date_new ?y ?m ?x] =>
      pose proof (days_in_month_bounds y m);
      destruct (date_new y m x) as [e|?] eqn:He; [|discriminate] end;
    apply date_new_fields in He as (Hy & Hm & Hdd); intros [= <-];
    unfold stamp; rewrite Hy, Hm, Hdd; lia.
Qed.

Lemma step_grows (resolution : string) (d d' : date) :
  step resolution d = Done d' → (stamp d < stamp d')%N.
Proof.
  unfold step. destruct (decide _); [apply add_day_grows|apply add_month_grows].
Qed.

Lemma step_ok (resolution : string) (d : date) :
  (year d < 9999)%N → ∃ d', step resolution d = Done d'.
Proof.
  intros Hy. pose proof (date_bounds d) as Hd.
  pose proof (days_in_month_bounds (year d) (month d)).
  unfold step, add_day, add_month. destruct (decide _).
  - destruct (N.ltb_spec (day d) (days_in_month (year d) (month d)));
      [|destruct (N.ltb_spec (month d) 12)];
      match goal with |- context [date_new ?y ?m ?x] =>
        pose proof (days_in_month_bounds y m);
        destruct (date_new_ok y m x) as (dn & -> & _); [lia..|by eexists] end.
  - destruct (N.ltb_spec 12 (month d + 1));
      match goal with |- context [date_new ?y ?m ?x] =>
        pose proof (days_in_month_bounds y m);
        destruct (date_new_ok y m x) as (dn & -> & _); [lia..|by eexists] end.
Qed.

(** ** [main]: the loops *)

Lemma driver_bind_run {A B : Type} (m : Driver A) (f : A → Driver B) (p : Process) :
  (m ≫= f) p = match m p with
               | (Done a, p') => f a p'
               | (Crashed c, p') => (Crashed c, p')
               end.
Proof. reflexivity. Qed.

(** The fuel of [main] is enough: any amount that covers the turns needed
    gives the run that more fuel gives. *)
Lemma while_dates_fuel (body : date → Driver unit) (resolution : string) (end_date : date)
      (f1 f2 : nat) (d : date) (p : Process) :
  (turns_needed d end_date ≤ f1)%nat → (turns_needed d end_date ≤ f2)%nat →
  while_dates f1 body resolution d end_date p = while_dates f2 body resolution d end_date p.
Proof.
  revert f2 d p. induction f1 as [|f1 IH]; intros f2 d p H1 H2.
  - unfold turns_needed, turns in H1. destruct (date_le d end_date) eqn:Hle; [lia|].
    destruct f2; cbn [while_dates]; by rewrite ?Hle.
  - destruct f2 as [|f2].
    + unfold turns_needed, turns in H2. destruct (date_le d end_date) eqn:Hle; [lia|].
      cbn [while_dates]. by rewrite Hle.
    + cbn [while_dates]. destruct (date_le d end_date) eqn:Hle; [|reflexivity].
      rewrite !driver_bind_run. destruct (body d p) as [[[]|c] p1]; [|reflexivity].
      rewrite !driver_bind_run. unfold ending.
      destruct (step resolution d) as [d'|c] eqn:Hstep; [|reflexivity].
      apply step_grows in Hstep. apply date_le_stamp in Hle.
      unfold turns_needed, turns in H1, H2. rewrite (proj2 (date_le_stamp _ _) Hle) in H1, H2.
      apply IH; unfold turns_needed, turns; destruct (date_le d' end_date) eqn:Hle';
        try lia; apply date_le_stamp in Hle'; lia.
Qed.

Lemma for_each_inv {A : Type} (I : Process → Prop) (l : list A) (body : A → Driver unit) :
  (∀ x, x ∈ l → ∀ p, I p → I (body x p).2) →
  ∀ p, I p → I (for_each l body p).2.
Proof.
  induction l as [|x rest IH]; intros Hbody p Hp; [done|].
  cbn [for_each]. rewrite driver_bind_run.
  pose proof (Hbody x (list_elem_of_here _ _) p Hp) as Hx.
  destruct (body x p) as [[[]|c] p1]; [|exact Hx].
  apply IH; [|exact Hx]. intros y Hy. apply Hbody. by apply list_elem_of_further.
Qed.

Lemma for_each_done {A : Type} (l : list A) (body : A → Driver unit) :
  (∀ x p, x ∈ l → (body x p).1 = Done tt) →
  ∀ p, (for_each l body p).1 = Done tt.
Proof.
  induction l as [|x rest IH]; intros Hbody p; [done|].
  cbn [for_each]. rewrite driver_bind_run.
  pose proof (Hbody x p (list_elem_of_here _ _)) as Hx.
  destruct (body x p) as [[[]|c] p1]; [|discriminate].
  apply IH. intros y q Hy. apply Hbody. by apply list_elem_of_further.
Qed.

(** The rule of the loop over the dates: what every turn keeps, for a date
    the steps reach between the first one and the end, the loop keeps. *)
Lemma while_dates_inv (I : Process → Prop) (body : date → Driver unit)
      (resolution : string) (end_date : date) (fuel : nat) (d : date) :
  (∀ d', stepped resolution d d' → date_le d d' = true → date_le d' end_date = true →
         ∀ p, I p → I (body d' p).2) →
  ∀ p, I p → I (while_dates fuel body resolution d end_date p).2.
Proof.
  revert d. induction fuel as [|fuel IH]; intros d Hbody p Hp; [done|].
  cbn [while_dates]. destruct (date_le d end_date) eqn:Hle; [|done].
  rewrite driver_bind_run.
  assert (Hdd : date_le d d = true) by (apply date_le_stamp; lia).
  pose proof (Hbody d (stepped_here _ _) Hdd Hle p Hp) as Hd.
  destruct (body d p) as [[[]|c] p1]; [|exact Hd]. cbn [snd] in Hd.
  rewrite driver_bind_run. unfold ending.
  destruct (step resolution d) as [d'|c] eqn:Hstep; [|exact Hd].
  apply IH; [|exact Hd]. intros d'' Hs H1 H2. apply Hbody; [|  |exact H2].
  - by apply (stepped_next _ _ d').
  - apply step_grows in Hstep. apply date_le_stamp in H1. apply date_le_stamp. lia.
Qed.

Lemma while_dates_done (body : date → Driver unit) (resolution : string)
      (end_date : date) (fuel : nat) (d : date) :
  (year end_date < 9999)%N →
  (∀ d' p, (body d' p).1 = Done tt) →
  ∀ p, (while_dates fuel body resolution d end_date p).1 = Done tt.
Proof.
  intros Hend Hbody. revert d. induction fuel as [|fuel IH]; intros d p; [done|].
  cbn [while_dates]. destruct (date_le d end_date) eqn:Hle; [|done].
  rewrite driver_bind_run. pose proof (Hbody d p) as Hd.
  destruct (body d p) as [[[]|c] p1]; [|discriminate].
  rewrite driver_bind_run. unfold ending.
  destruct (step_ok resolution d) as [d' ->]; [|apply IH].
  apply date_le_stamp in Hle. unfold stamp in Hle.
  pose proof (date_bounds d). pose proof (date_bounds end_date).
  pose proof (days_in_month_bounds (year d) (month d)).
  pose proof (days_in_month_bounds (year end_date) (month end_date)). nia.
Qed.

(** One visit: a station of the registry is saved and a pause follows; an
    identifier the registry does not know is only logged. *)
Lemma visit_known (net : Network) (nodes : gmap (option string) AmedasNode.t)
      (force : bool) (resolution : string) (d : date) (block_no : string)
      (node : AmedasNode.t) (p : Process) :
  nodes !! Some block_no = Some node →
  ∃ b w', AmedasNode.save net node resolution d force (world p) = (Ok b, w')
          ∧ visit net nodes force resolution d block_no p
            = (Done tt, mkProcess w' (slept_at p ++ [length (trace w')])).
Proof.
  intros Hnode. unfold visit. rewrite Hnode.
  destruct (save_effects net node resolution d force (world p)) as (b & evs & w' & H & _).
  exists b, w'. split; [exact H|]. rewrite driver_bind_run. unfold in_world. by rewrite H.
Qed.

Lemma visit_unknown (net : Network) (nodes : gmap (option string) AmedasNode.t)
      (force : bool) (resolution : string) (d : date) (block_no : string) (p : Process) :
  nodes !! Some block_no = None →
  visit net nodes force resolution d block_no p
  = (Done tt, mkProcess (record (EvLog WARNING ("Unknown block number: " +:+ block_no))
                                (world p))
                        (slept_at p)).
Proof. intros Hnode. unfold visit. by rewrite Hnode. Qed.

(** The rule of [main]: what every visit keeps, for a station of the loaded
    registry, a configured resolution, a date the steps reach between the
    start and the end and a configured identifier, the whole run keeps. *)
Lemma main_inv (I : Process → Prop) (net : Network) (argv lines : list string)
      (start_date end_date : date) (resolutions target_nodes : list string) :
  (∀ nodes resolution d block_no p,
     get_amedas_nodes lines = Ok nodes →
     resolution ∈ resolutions →
     stepped resolution start_date d →
     date_le start_date d = true → date_le d end_date = true →
     block_no ∈ target_nodes →
     I p →
     I (visit net nodes (bool_decide ("-f" ∈ argv)) resolution d block_no p).2) →
  ∀ p, I p → I (main net argv lines start_date end_date resolutions target_nodes p).2.
Proof.
  intros Hvisit p Hp. unfold main. rewrite driver_bind_run. unfold ending.
  destruct (get_amedas_nodes lines) as [nodes|e] eqn:Hload; [|exact Hp]. cbn [of_result].
  apply for_each_inv; [|exact Hp]. intros resolution Hres q Hq.
  apply while_dates_inv; [|exact Hq]. intros d Hs H1 H2 q' Hq'.
  apply for_each_inv; [|exact Hq']. intros block_no Hb q'' Hq''.
  by apply Hvisit.
Qed.

(** ** [main]: how a run ends *)

Lemma visit_done (net : Network) (nodes : gmap (option string) AmedasNode.t)
      (force : bool) (resolution : string) (d : date) (block_no : string) (p : Process) :
  (visit net nodes force resolution d block_no p).1 = Done tt.
Proof.
  destruct (nodes !! Some block_no) as [node|] eqn:Hnode.
  - destruct (visit_known net nodes force resolution d block_no node p Hnode)
      as (b & w' & _ & ->). reflexivity.
  - by rewrite visit_unknown.
Qed.

(** X13: how a run of [main] ends.  If the reference table does not load,
    the run dies of the loader's exception before it does anything.  If it
    loads, the end date lies before the year 9999 and the stations and
    resolutions the run can visit have plain path segments, the run returns
    normally whatever the service answers: no visit and no step of the date
    raises.  The bound the model puts on the turns of the [while] loop never
    cuts a run short: any larger bound gives the same run. *)
Theorem main_returns
    (net : Network) (argv lines : list string) (start_date end_date : date)
    (resolutions target_nodes : list string) (p : Process) :
  (∀ e, get_amedas_nodes lines = Raise e →
        main net argv lines start_date end_date resolutions target_nodes p
        = (Crashed (Uncaught e), p))
  ∧ (∀ nodes, get_amedas_nodes lines = Ok nodes → (year end_date < 9999)%N →
       plain_run nodes resolutions target_nodes →
       (main net argv lines start_date end_date resolutions target_nodes p).1 = Done tt)
  ∧ (∀ body resolution fuel q, (turns start_date end_date ≤ fuel)%nat →
       while_dates fuel body resolution start_date end_date q
       = while_dates (turns start_date end_date) body resolution start_date end_date q).
Proof.
  split; [|split].
  - intros e He. unfold main. rewrite driver_bind_run. unfold ending. by rewrite He.
  - intros nodes Hload Hend _. unfold main. rewrite driver_bind_run. unfold ending.
    rewrite Hload. cbn [of_result].
    apply for_each_done. intros resolution q _.
    apply while_dates_done; [exact Hend|]. intros d q'.
    apply for_each_done. intros block_no q'' _. apply visit_done.
  - intros body resolution fuel q Hfuel.
    apply while_dates_fuel; unfold turns_needed; destruct (date_le _ _); lia.
Qed.

Lemma main_returns_witness :
  get_amedas_nodes [wakkanai_row] = Ok {[ Some "47401" := wakkanai ]}
  ∧ plain_run {[ Some "47401" := wakkanai ]} ["hourly"; "daily"; "weekly"]
              ["47401"; "00000"]
  ∧ (main net_down ["download.py"] [wakkanai_row] date_2016_04_12 date_2016_05_17
          ["hourly"; "daily"; "weekly"] ["47401"; "00000"]
          (mkProcess empty_world [])).1 = Done tt.
Proof.
  assert (H1 : get_amedas_nodes [wakkanai_row] = Ok {[ Some "47401" := wakkanai ]})
    by (vm_compute; reflexivity).
  assert (H2 : plain_run {[ Some "47401" := wakkanai ]} ["hourly"; "daily"; "weekly"]
                         ["47401"; "00000"]).
  { intros b node r _ Hnode Hr. apply lookup_singleton_Some in Hnode as [_ <-].
    repeat (apply elem_of_cons in Hr as [->|Hr]; [split; reflexivity|]).
    by apply elem_of_nil in Hr. }
  split; [exact H1|]. split; [exact H2|].
  apply (proj1 (proj2 (main_returns net_down ["download.py"] [wakkanai_row]
                         date_2016_04_12 date_2016_05_17 ["hourly"; "daily"; "weekly"]
                         ["47401"; "00000"] (mkProcess empty_world []))) _ H1);
    [reflexivity|exact H2].
Defined.

Lemma date_le_max (d : date) : date_le d date_max = true.
Proof.
  apply date_le_stamp. pose proof (date_bounds d).
  pose proof (days_in_month_bounds (year d) (month d)).
  unfold stamp. change (year date_max) with 9999%N. change (month date_max) with 12%N.
  change (day date_max) with 31%N. nia.
Qed.

Lemma while_dates_overflows (body : date → Driver unit) (resolution : string)
      (fuel : nat) (d : date) (p : Process) :
  (∀ d' q, (body d' q).1 = Done tt) →
  (turns_needed d date_max ≤ fuel)%nat →
  ∃ c, (while_dates fuel body resolution d date_max p).1 = Crashed c
       ∧ c = if decide (resolution ∈ ["10min"; "hourly"; "real-time"])
             then OverflowError "date value out of range"
             else Uncaught (ValueError "year 10000 is out of range").
Proof.
  intros Hbody. revert d p. induction fuel as [|fuel IH]; intros d p Hfuel.
  - unfold turns_needed, turns in Hfuel. rewrite date_le_max in Hfuel. lia.
  - cbn [while_dates]. rewrite date_le_max. rewrite driver_bind_run.
    pose proof (Hbody d p) as Hd. destruct (body d p) as [[[]|c] p1]; [|discriminate].
    rewrite driver_bind_run. unfold ending.
    destruct (step resolution d) as [d'|c] eqn:Hstep.
    + apply IH. apply step_grows in Hstep.
      pose proof (date_le_max d') as Hle'. apply date_le_stamp in Hle'.
      unfold turns_needed, turns in *. rewrite date_le_max in *. lia.
    + exists c. split; [reflexivity|]. unfold step, add_day, add_month in Hstep.
      destruct (decide _).
      * destruct (day d <? _)%N; [|destruct (month d <? 12)%N];
          match type of Hstep with context [date_new ?y ?m ?x] =>
            destruct (date_new y m x) end; congruence.
      * destruct (12 <? month d + 1)%N;
          match type of Hstep with context [date_new ?y ?m ?x] =>
            destruct (date_new y m x) end; congruence.
Qed.

(** X14: the loop over the dates cannot stop at the last day a date can
    hold: with 9999-12-31 as end date, and stations and resolutions with
    plain path segments, the step that follows the last turn leaves the
    range of [date], and the run dies after its visits, of [OverflowError]
    where the step is one day and of [ValueError] where it is one month. *)
Theorem main_dies_at_the_last_date
    (net : Network) (argv lines : list string) (start_date : date)
    (resolution : string) (resolutions target_nodes : list string) (p : Process)
    (nodes : gmap (option string) AmedasNode.t) :
  get_amedas_nodes lines = Ok nodes →
  plain_run nodes (resolution :: resolutions) target_nodes →
  (main net argv lines start_date date_max (resolution :: resolutions) target_nodes p).1
  = Crashed (if decide (resolution ∈ ["10min"; "hourly"; "real-time"])
             then OverflowError "date value out of range"
             else Uncaught (ValueError "year 10000 is out of range")).
Proof.
  intros Hload _. unfold main. rewrite driver_bind_run. unfold ending.
  rewrite Hload. cbn [of_result for_each]. rewrite driver_bind_run.
  destruct (while_dates_overflows
              (fun date_iter =>
                 for_each target_nodes
                   (visit net nodes (bool_decide ("-f" ∈ argv)) resolution date_iter))
              resolution (turns start_date date_max) start_date p) as (c & Hc & ->).
  - intros d q. apply for_each_done. intros block_no q' _. apply visit_done.
  - unfold turns_needed. destruct (date_le _ _); lia.
  - destruct (while_dates _ _ _ _ _ p) as [[[]|c'] p1]; [discriminate|].
    cbn [fst] in Hc. by injection Hc as ->.
Qed.

Lemma main_dies_at_the_last_date_witness :
  get_amedas_nodes [wakkanai_row] = Ok {[ Some "47401" := wakkanai ]}
  ∧ plain_run {[ Some "47401" := wakkanai ]} ["hourly"] ["47401"]
  ∧ (main net_up [] [wakkanai_row] (mkdate 9999 12 30 I) date_max ("hourly" :: [])
          ["47401"] (mkProcess empty_world [])).1
    = Crashed (OverflowError "date value out of range").
Proof.
  assert (H1 : get_amedas_nodes [wakkanai_row] = Ok {[ Some "47401" := wakkanai ]})
    by (vm_compute; reflexivity).
  assert (H2 : plain_run {[ Some "47401" := wakkanai ]} ["hourly"] ["47401"]).
  { intros b node r _ Hnode Hr. apply lookup_singleton_Some in Hnode as [_ <-].
    apply list_elem_of_singleton in Hr as ->. split; reflexivity. }
  split; [exact H1|]. split; [exact H2|].
  exact (main_dies_at_the_last_date net_up [] [wakkanai_row] (mkdate 9999 12 30 I)
           "hourly" [] ["47401"] (mkProcess empty_world []) _ H1 H2).
Defined.

(** ** [main]: what a run does *)

Lemma stamp_inj (a b : date) : stamp a = stamp b → a = b.
Proof.
  pose proof (date_bounds a). pose proof (date_bounds b).
  pose proof (days_in_month_bounds (year a) (month a)).
  pose proof (days_in_month_bounds (year b) (month b)).
  unfold stamp. intros Hs. apply date_eq; lia.
Qed.

Lemma stepped_le (resolution : string) (d d' : date) :
  stepped resolution d d' → date_le d d' = true.
Proof.
  induction 1 as [d|d d' d'' Hstep _ IH]; apply date_le_stamp; [lia|].
  apply step_grows in Hstep. apply date_le_stamp in IH. lia.
Qed.

Lemma wakkanai_registry :
  get_amedas_nodes [wakkanai_row] = Ok {[ Some "47401" := wakkanai ]}.
Proof. vm_compute. reflexivity. Qed.

Lemma save_events_ok (net : Network) (self : AmedasNode.t) (data_type : string)
      (target_date : date) (force : bool) (w : World) :
  ∃ b evs w',
    AmedasNode.save net self data_type target_date force w = (Ok b, w')
    ∧ trace w' = trace w ++ evs
    ∧ Forall (save_event self data_type (date_to_use data_type target_date)) evs.
Proof.
  set (d := date_to_use data_type target_date).
  set (fp := file_path self data_type d).
  assert (Hmk : Forall (save_event self data_type d)
                       (map EvMkdir (ancestors_and_self (dir_path self data_type d)))).
  { apply Forall_fmap, Forall_forall. intros q Hq.
    by apply elem_of_ancestors_and_self in Hq. }
  destruct (negb (exists_in w fp) || force) eqn:Hgo.
  - destruct (save_miss net self data_type target_date force w Hgo)
      as (w' & H1 & _ & _ & Ht). fold d fp in Ht.
    eexists _, _, w'. split; [exact H1|]. split; [exact Ht|].
    apply Forall_app. split; [exact Hmk|]. apply Forall_cons. split; [reflexivity|].
    rewrite !Forall_app. split; [|split].
    + destruct (decide _); repeat constructor.
    + unfold fetch_events. constructor; [exact I|].
      destruct (url_for self data_type d) as [u|] eqn:Hu.
      * constructor; [exact Hu|]. unfold failure_log.
        destruct (net _ u) as [[?|?]|?]; repeat constructor.
      * repeat constructor.
    + destruct (Py.truthy _) eqn:Htr; [|constructor].
      apply truthy_nonempty in Htr as (c & s & ->). repeat constructor. discriminate.
  - assert (exists_in w fp = true ∧ force = false) as [Hex ->]
        by (destruct (exists_in w fp), force; done).
    destruct (save_hit net self data_type target_date w Hex) as (w' & H1 & _ & _ & Ht).
    fold d fp in Ht.
    eexists _, _, w'. split; [exact H1|]. split; [exact Ht|].
    apply Forall_app. split; [exact Hmk|]. repeat constructor.
Qed.

(** X15: a run of [main] does nothing outside its configuration.
    Everything it adds to the trace is the warning for a configured
    identifier the registry does not know, or comes from [save] for a
    station the registry binds to a configured identifier, a configured
    resolution and a date the steps reach between the start and the end
    date: a directory on the way to that cache file, the look-up of that
    file, a request of that URL, a write of non-empty text to that file, or
    a log record. *)
Theorem main_acts_within_its_configuration
    (net : Network) (argv lines : list string) (start_date end_date : date)
    (resolutions target_nodes : list string) (nodes : gmap (option string) AmedasNode.t)
    (p : Process) :
  get_amedas_nodes lines = Ok nodes →
  ∃ evs,
    trace (world (main net argv lines start_date end_date resolutions target_nodes p).2)
    = trace (world p) ++ evs
    ∧ Forall (main_event nodes start_date end_date resolutions target_nodes) evs.
Proof.
  intros Hload.
  apply (main_inv (fun q => ∃ evs, trace (world q) = trace (world p) ++ evs
                     ∧ Forall (main_event nodes start_date end_date resolutions
                                          target_nodes) evs)).
  - intros nodes' r d b q Hload' Hr Hs H1 H2 Hb (evs & Ht & Hall).
    assert (nodes' = nodes) as -> by congruence.
    destruct (nodes !! Some b) as [node|] eqn:Hnode.
    + destruct (visit_known net nodes (bool_decide ("-f" ∈ argv)) r d b node q Hnode)
        as (bb & w' & Hsave & ->). cbn [snd world].
      destruct (save_events_ok net node r d (bool_decide ("-f" ∈ argv)) (world q))
        as (b2 & evs2 & w2 & Hs2 & Ht2 & Hall2).
      rewrite Hsave in Hs2. injection Hs2 as <- <-.
      exists (evs ++ evs2). split; [by rewrite Ht2, Ht, app_assoc|].
      apply Forall_app. split; [exact Hall|].
      eapply Forall_impl; [exact Hall2|]. intros e He. right. by exists b, node, r, d.
    + rewrite visit_unknown by exact Hnode. cbn [snd world]. unfold record. cbn [trace].
      exists (evs ++ [EvLog WARNING ("Unknown block number: " +:+ b)]).
      split; [by rewrite Ht, app_assoc|].
      apply Forall_app. split; [exact Hall|]. constructor; [|constructor].
      left. by exists b.
  - exists []. split; [by rewrite app_nil_r|constructor].
Qed.

Lemma main_acts_within_its_configuration_witness :
  get_amedas_nodes [wakkanai_row] = Ok {[ Some "47401" := wakkanai ]}
  ∧ ∃ evs,
      trace (world (main net_up [] [wakkanai_row] date_2016_04_12 date_2016_05_17
                         ["hourly"; "daily"] ["47401"; "00000"]
                         (mkProcess empty_world [])).2)
      = trace (world (mkProcess empty_world [])) ++ evs
      ∧ Forall (main_event {[ Some "47401" := wakkanai ]} date_2016_04_12 date_2016_05_17
                           ["hourly"; "daily"] ["47401"; "00000"]) evs.
Proof.
  pose proof wakkanai_registry as H1.
  split; [exact H1|].
  exact (main_acts_within_its_configuration net_up [] [wakkanai_row] date_2016_04_12
           date_2016_05_17 ["hourly"; "daily"] ["47401"; "00000"] _
           (mkProcess empty_world []) H1).
Defined.

(** ** [main]: the pauses *)

Lemma filter_none (P : Event → bool) (evs : list Event) (a : nat) (e : Event) :
  List.filter P evs = [] → evs !! a = Some e → P e = false.
Proof.
  revert a. induction evs as [|x evs IH]; intros a Hf Ha; [done|].
  cbn [List.filter] in Hf. destruct (P x) eqn:Hx; [discriminate|].
  destruct a as [|a]; [by injection Ha as <-|]. by apply (IH a).
Qed.

Lemma at_most_one (P : Event → bool) (evs : list Event) (a b : nat) (ea eb : Event) :
  (length (List.filter P evs) ≤ 1)%nat →
  evs !! a = Some ea → P ea = true → evs !! b = Some eb → P eb = true → a = b.
Proof.
  revert a b. induction evs as [|x evs IH]; intros a b Hlen Ha Hpa Hb Hpb; [done|].
  cbn [List.filter] in Hlen. destruct (P x) eqn:Hx.
  - cbn [length] in Hlen.
    assert (Hnil : List.filter P evs = []) by (destruct (List.filter P evs); [done|simpl in Hlen; lia]).
    destruct a as [|a], b as [|b]; [done|..].
    + pose proof (filter_none P evs b eb Hnil Hb). congruence.
    + pose proof (filter_none P evs a ea Hnil Ha). congruence.
    + pose proof (filter_none P evs a ea Hnil Ha). congruence.
  - destruct a as [|a]; [injection Ha as <-; congruence|].
    destruct b as [|b]; [injection Hb as <-; congruence|].
    f_equal. by apply IH.
Qed.

Lemma filter_mkdirs (P : Event → bool) (l : list Path) :
  (∀ q, P (EvMkdir q) = false) → List.filter P (map EvMkdir l) = [].
Proof. intros HP. induction l as [|q l IH]; [done|]. cbn. by rewrite HP. Qed.

(** One call of [save] sends at most one request and looks up one file. *)
Lemma save_one_each (net : Network) (self : AmedasNode.t) (data_type : string)
      (target_date : date) (force : bool) (w : World) :
  ∃ b evs w',
    AmedasNode.save net self data_type target_date force w = (Ok b, w')
    ∧ trace w' = trace w ++ evs
    ∧ (length (List.filter is_request evs) ≤ 1)%nat
    ∧ (length (List.filter is_lookup evs) ≤ 1)%nat.
Proof.
  set (d := date_to_use data_type target_date).
  set (fp := file_path self data_type d).
  destruct (negb (exists_in w fp) || force) eqn:Hgo.
  - destruct (save_miss net self data_type target_date force w Hgo)
      as (w' & H1 & _ & _ & Ht). fold d fp in Ht.
    eexists _, _, w'. split; [exact H1|]. split; [exact Ht|].
    split.
    + rewrite List.filter_app, filter_mkdirs by done. cbn [app List.filter is_request].
      rewrite !List.filter_app, !length_app.
      assert (H2 : ∀ l : list Event, (∀ e, e ∈ l → is_request e = false) → List.filter is_request l = []).
      { intros l. induction l as [|x l IH]; intros Hl; [done|]. cbn.
        rewrite (Hl x) by apply list_elem_of_here. apply IH.
        intros e He. apply Hl. by apply list_elem_of_further. }
      rewrite (H2 (if decide _ then _ else _)), (H2 (if Py.truthy _ then _ else _)).
      * unfold fetch_events. cbn. destruct (url_for self data_type d); [|cbn; lia].
        cbn. rewrite H2; [cbn; lia|]. intros e He. unfold failure_log in He.
        destruct (net _ _) as [[?|?]|?]; [by apply elem_of_nil in He|..];
          by apply list_elem_of_singleton in He as ->.
      * intros e He. destruct (Py.truthy _); [|by apply elem_of_nil in He].
        apply elem_of_cons in He as [->|He]; [done|].
        by apply list_elem_of_singleton in He as ->.
      * intros e He. destruct (decide _); [by apply elem_of_nil in He|].
        by apply list_elem_of_singleton in He as ->.
    + rewrite List.filter_app, filter_mkdirs by done. cbn [app List.filter is_lookup length].
      assert (H2 : ∀ l : list Event, (∀ e, e ∈ l → is_lookup e = false) → List.filter is_lookup l = []).
      { intros l. induction l as [|x l IH]; intros Hl; [done|]. cbn.
        rewrite (Hl x) by apply list_elem_of_here. apply IH.
        intros e He. apply Hl. by apply list_elem_of_further. }
      rewrite H2; [cbn; lia|]. intros e. rewrite !elem_of_app. intros [He|[He|He]].
      * destruct (decide _); [by apply elem_of_nil in He|].
        by apply list_elem_of_singleton in He as ->.
      * unfold fetch_events in He. apply elem_of_cons in He as [->|He]; [done|].
        destruct (url_for self data_type d).
        -- apply elem_of_cons in He as [->|He]; [done|]. unfold failure_log in He.
           destruct (net _ _) as [[?|?]|?]; [by apply elem_of_nil in He|..];
             by apply list_elem_of_singleton in He as ->.
        -- by apply list_elem_of_singleton in He as ->.
      * destruct (Py.truthy _); [|by apply elem_of_nil in He].
        apply elem_of_cons in He as [->|He]; [done|].
        by apply list_elem_of_singleton in He as ->.
  - assert (exists_in w fp = true ∧ force = false) as [Hex ->]
        by (destruct (exists_in w fp), force; done).
    destruct (save_hit net self data_type target_date w Hex) as (w' & H1 & _ & _ & Ht).
    fold d fp in Ht.
    eexists _, _, w'. split; [exact H1|]. split; [exact Ht|].
    rewrite !List.filter_app, !filter_mkdirs by done. cbn. lia.
Qed.

Lemma paused_after_grows (P : Event → bool) (t evs : list Event) (ks ks' : list nat)
      (i : nat) :
  paused_after P t ks i → paused_after P (t ++ evs) (ks ++ ks') i.
Proof.
  intros (k & Hk & Hik & Hno). exists k. split; [apply elem_of_app; by left|].
  split; [rewrite length_app; lia|]. intros j e Hj He.
  apply (Hno j e Hj). rewrite lookup_app_l in He by lia. exact He.
Qed.

(** After every event of a kind of which a call of [save] makes at most
    one and a warning is none, the run pauses before the next such event. *)
Lemma main_pauses (P : Event → bool) (net : Network) (argv lines : list string)
      (start_date end_date : date) (resolutions target_nodes : list string) (p : Process) :
  (∀ l m, P (EvLog l m) = false) →
  (∀ self data_type target_date force w, ∃ b evs w',
     AmedasNode.save net self data_type target_date force w = (Ok b, w')
     ∧ trace w' = trace w ++ evs ∧ (length (List.filter P evs) ≤ 1)%nat) →
  let p' := (main net argv lines start_date end_date resolutions target_nodes p).2 in
  ∃ ks, slept_at p' = slept_at p ++ ks
        ∧ ∀ i e, (length (trace (world p)) ≤ i)%nat → trace (world p') !! i = Some e →
                 P e = true → paused_after P (trace (world p')) ks i.
Proof.
  intros Hlog Hsave.
  apply (main_inv (fun q => ∃ ks, slept_at q = slept_at p ++ ks
                     ∧ ∀ i e, (length (trace (world p)) ≤ i)%nat →
                              trace (world q) !! i = Some e →
                              P e = true → paused_after P (trace (world q)) ks i)).
  - intros nodes r d b q _ _ _ _ _ _ (ks & Hks & Hall).
    destruct (nodes !! Some b) as [node|] eqn:Hnode.
    + destruct (visit_known net nodes (bool_decide ("-f" ∈ argv)) r d b node q Hnode)
        as (bb & w' & Hs & ->). cbn [snd world slept_at].
      destruct (Hsave node r d (bool_decide ("-f" ∈ argv)) (world q))
        as (b2 & evs & w2 & Hs2 & Ht & Hone).
      rewrite Hs in Hs2. injection Hs2 as <- <-.
      exists (ks ++ [length (trace w')]). split; [by rewrite Hks, app_assoc|].
      intros i e Hi He HP. rewrite Ht in He |- *.
      destruct (decide (i < length (trace (world q)))%nat) as [Hlt|Hge].
      * rewrite lookup_app_l in He by exact Hlt.
        apply paused_after_grows. by apply (Hall i e).
      * rewrite lookup_app_r in He by lia.
        exists (length (trace (world q) ++ evs)). split; [|split].
        -- apply elem_of_app. right. rewrite <- Ht. apply list_elem_of_here.
        -- apply lookup_lt_Some in He. rewrite length_app. lia.
        -- intros j e' Hj He'. rewrite lookup_app_r in He' by lia.
           destruct (P e') eqn:HP'; [|reflexivity].
           pose proof (at_most_one P evs _ _ _ _ Hone He HP He' HP'). lia.
    + rewrite visit_unknown by exact Hnode. cbn [snd world slept_at]. unfold record.
      cbn [trace]. exists ks. split; [exact Hks|]. intros i e Hi He HP.
      destruct (decide (i < length (trace (world q)))%nat) as [Hlt|Hge].
      * rewrite lookup_app_l in He by exact Hlt.
        rewrite <- (app_nil_r ks). apply paused_after_grows. by apply (Hall i e).
      * rewrite lookup_app_r in He by lia.
        destruct (i - length (trace (world q)))%nat; [|done].
        injection He as <-. by rewrite Hlog in HP.
  - exists []. split; [by rewrite app_nil_r|]. intros i e Hi He.
    apply lookup_lt_Some in He. lia.
Qed.

(** X16: [main] pauses between the calls of [save], whether a call went to
    the service or found the file: in what a run adds to the trace, a pause
    lies between any two requests and between any two look-ups of a cache
    file.  When the stations and resolutions the run can visit have plain
    path segments, every request and every look-up is followed by a pause,
    the last ones too. *)
Theorem main_pauses_after_every_save
    (net : Network) (argv lines : list string) (start_date end_date : date)
    (resolutions target_nodes : list string) (p : Process) :
  let p' := (main net argv lines start_date end_date resolutions target_nodes p).2 in
  ∃ ks, slept_at p' = slept_at p ++ ks
        ∧ (∀ i j url o url' o', (length (trace (world p)) ≤ i < j)%nat →
             trace (world p') !! i = Some (EvGet url o) →
             trace (world p') !! j = Some (EvGet url' o') →
             ∃ k, k ∈ ks ∧ (i < k ≤ j)%nat)
        ∧ (∀ i j path b path' b', (length (trace (world p)) ≤ i < j)%nat →
             trace (world p') !! i = Some (EvExists path b) →
             trace (world p') !! j = Some (EvExists path' b') →
             ∃ k, k ∈ ks ∧ (i < k ≤ j)%nat)
        ∧ ((∀ nodes, get_amedas_nodes lines = Ok nodes →
                     plain_run nodes resolutions target_nodes) →
           (∀ i url o, (length (trace (world p)) ≤ i)%nat →
              trace (world p') !! i = Some (EvGet url o) →
              paused_after is_request (trace (world p')) ks i)
           ∧ (∀ i path b, (length (trace (world p)) ≤ i)%nat →
                trace (world p') !! i = Some (EvExists path b) →
                paused_after is_lookup (trace (world p')) ks i)).
Proof.
  intros p'.
  destruct (main_pauses is_request net argv lines start_date end_date resolutions
              target_nodes p) as (ks & Hks & Hreq); [done| |].
  { intros self data_type target_date force w.
    destruct (save_one_each net self data_type target_date force w)
      as (b & evs & w' & H & Ht & H1 & _). by exists b, evs, w'. }
  destruct (main_pauses is_lookup net argv lines start_date end_date resolutions
              target_nodes p) as (ks' & Hks' & Hlook); [done| |].
  { intros self data_type target_date force w.
    destruct (save_one_each net self data_type target_date force w)
      as (b & evs & w' & H & Ht & _ & H1). by exists b, evs, w'. }
  fold p' in Hks, Hks', Hreq, Hlook.
  assert (ks' = ks) as -> by (rewrite Hks in Hks'; by apply app_inv_head in Hks').
  assert (Hbetween : ∀ (P : Event → bool) (i j : nat) (e' : Event),
             (i < j)%nat → trace (world p') !! j = Some e' → P e' = true →
             paused_after P (trace (world p')) ks i → ∃ k, k ∈ ks ∧ (i < k ≤ j)%nat).
  { intros P i j e' Hij Hj HP (k & Hk & Hik & Hno). exists k. split; [exact Hk|].
    destruct (decide (j < k)%nat) as [Hjk|Hjk]; [|lia].
    rewrite (Hno j e') in HP; [discriminate|lia|exact Hj]. }
  exists ks. split; [exact Hks|]. split; [|split; [|intros _; split]].
  - intros i j url o url' o' [Hi Hij] Hei Hej.
    apply (Hbetween is_request i j (EvGet url' o') Hij Hej); [done|].
    by apply (Hreq i _ Hi Hei).
  - intros i j path b path' b' [Hi Hij] Hei Hej.
    apply (Hbetween is_lookup i j (EvExists path' b') Hij Hej); [done|].
    by apply (Hlook i _ Hi Hei).
  - intros i url o Hi He. by apply (Hreq i _ Hi He).
  - intros i path b Hi He. by apply (Hlook i _ Hi He).
Qed.

Lemma main_pauses_after_every_save_witness :
  let p := mkProcess empty_world [] in
  let p' := (main net_up ["download.py"; "-f"] [wakkanai_row] date_2016_04_12
                  date_2016_05_17 ["hourly"] ["47401"] p).2 in
  (∀ nodes, get_amedas_nodes [wakkanai_row] = Ok nodes →
            plain_run nodes ["hourly"] ["47401"])
  ∧ ∃ ks, slept_at p' = slept_at p ++ ks
        ∧ (∀ i j url o url' o', (length (trace (world p)) ≤ i < j)%nat →
             trace (world p') !! i = Some (EvGet url o) →
             trace (world p') !! j = Some (EvGet url' o') →
             ∃ k, k ∈ ks ∧ (i < k ≤ j)%nat)
        ∧ (∀ i j path b path' b', (length (trace (world p)) ≤ i < j)%nat →
             trace (world p') !! i = Some (EvExists path b) →
             trace (world p') !! j = Some (EvExists path' b') →
             ∃ k, k ∈ ks ∧ (i < k ≤ j)%nat)
        ∧ (∀ i url o, (length (trace (world p)) ≤ i)%nat →
             trace (world p') !! i = Some (EvGet url o) →
             paused_after is_request (trace (world p')) ks i)
        ∧ (∀ i path b, (length (trace (world p)) ≤ i)%nat →
             trace (world p') !! i = Some (EvExists path b) →
             paused_after is_lookup (trace (world p')) ks i).
Proof.
  intros p p'.
  assert (H : ∀ nodes, get_amedas_nodes [wakkanai_row] = Ok nodes →
                       plain_run nodes ["hourly"] ["47401"]).
  { intros nodes Hload. rewrite wakkanai_registry in Hload. injection Hload as <-.
    intros b node r _ Hnode Hr. apply lookup_singleton_Some in Hnode as [_ <-].
    apply list_elem_of_singleton in Hr as ->. split; reflexivity. }
  split; [exact H|].
  destruct (main_pauses_after_every_save net_up ["download.py"; "-f"] [wakkanai_row]
              date_2016_04_12 date_2016_05_17 ["hourly"] ["47401"] p)
    as (ks & Hks & H1 & H2 & H3).
  exists ks. split; [exact Hks|]. split; [exact H1|]. split; [exact H2|]. exact (H3 H).
Defined.

(** ** [main]: runs that send nothing *)

Lemma exists_in_mono (w w' : World) (path : Path) :
  files w' = files w → dirs w ⊆ dirs w' →
  exists_in w path = true → exists_in w' path = true.
Proof.
  intros Hf Hd. unfold exists_in. rewrite Hf, !orb_true_iff, !bool_decide_eq_true.
  intros [[H|H]|H]; auto.
Qed.

(** X17: a rerun over a complete cache stays off the network.  Without
    [-f] on the command line, if the cache file of every configured station,
    resolution and date the loop reaches exists, the run sends no request,
    writes no file and leaves the files as they are. *)
Theorem complete_cache_needs_no_request
    (net : Network) (argv lines : list string) (start_date end_date : date)
    (resolutions target_nodes : list string) (nodes : gmap (option string) AmedasNode.t)
    (p : Process) :
  get_amedas_nodes lines = Ok nodes →
  "-f" ∉ argv →
  (∀ block_no node resolution d,
     block_no ∈ target_nodes → nodes !! Some block_no = Some node →
     resolution ∈ resolutions → stepped resolution start_date d →
     date_le d end_date = true →
     exists_in (world p) (file_path node resolution (date_to_use resolution d)) = true) →
  let p' := (main net argv lines start_date end_date resolutions target_nodes p).2 in
  requested (trace (world p')) = requested (trace (world p))
  ∧ written (trace (world p')) = written (trace (world p))
  ∧ files (world p') = files (world p).
Proof.
  intros Hload Hf Hcache p'.
  assert (H : (requested (trace (world p')) = requested (trace (world p))
               ∧ written (trace (world p')) = written (trace (world p))
               ∧ files (world p') = files (world p))
              ∧ dirs (world p) ⊆ dirs (world p')); [|exact (proj1 H)].
  apply (main_inv (fun q => (requested (trace (world q)) = requested (trace (world p))
                     ∧ written (trace (world q)) = written (trace (world p))
                     ∧ files (world q) = files (world p))
                     ∧ dirs (world p) ⊆ dirs (world q))); [|done].
  intros nodes' r d b q Hload' Hr Hs H1 H2 Hb [(Hreq & Hwr & Hfiles) Hdirs].
  assert (nodes' = nodes) as -> by congruence.
  rewrite (bool_decide_eq_false_2 _ Hf).
  destruct (nodes !! Some b) as [node|] eqn:Hnode.
  - destruct (visit_known net nodes false r d b node q Hnode) as (bb & w' & Hsave & ->).
    cbn [snd world].
    pose proof (Hcache b node r d Hb Hnode Hr Hs H2) as Hex.
    apply (exists_in_mono _ (world q)) in Hex; [|exact Hfiles|exact Hdirs].
    destruct (save_hit net node r d (world q) Hex) as (w2 & Hs2 & Hd2 & Hf2 & Ht2).
    rewrite Hsave in Hs2. injection Hs2 as -> <-.
    rewrite Ht2, Hf2, Hd2. rewrite requested_app, written_app, requested_app, written_app.
    rewrite requested_mkdirs, written_mkdirs. cbn [requested written omap app].
    rewrite !app_nil_r. repeat split; try done.
    unfold mkdirs. cbn [dirs]. etrans; [exact Hdirs|]. apply union_subseteq_l.
  - rewrite visit_unknown by exact Hnode. cbn [snd world]. unfold record.
    cbn [trace files dirs]. rewrite requested_app, written_app. cbn.
    by rewrite !app_nil_r.
Qed.

Lemma complete_cache_needs_no_request_witness :
  let p := mkProcess cached_world [] in
  let p' := (main net_up ["download.py"] [wakkanai_row] date_2016_04_12 date_2016_04_12
                  ["hourly"] ["47401"] p).2 in
  get_amedas_nodes [wakkanai_row] = Ok {[ Some "47401" := wakkanai ]}
  ∧ ("-f" ∉ ["download.py"])
  ∧ requested (trace (world p')) = requested (trace (world p))
  ∧ written (trace (world p')) = written (trace (world p))
  ∧ files (world p') = files (world p).
Proof.
  intros p p'.
  pose proof wakkanai_registry as H1.
  assert (H2 : "-f" ∉ ["download.py"]).
  { intros H. apply list_elem_of_singleton in H. discriminate. }
  split; [exact H1|]. split; [exact H2|].
  apply (complete_cache_needs_no_request net_up ["download.py"] [wakkanai_row]
           date_2016_04_12 date_2016_04_12 ["hourly"] ["47401"] _ p H1 H2).
  intros b node r d Hb Hnode Hr Hs Hle.
  apply list_elem_of_singleton in Hb as ->. apply list_elem_of_singleton in Hr as ->.
  rewrite lookup_singleton_eq in Hnode. injection Hnode as <-.
  apply stepped_le, date_le_stamp in Hs. apply date_le_stamp in Hle.
  assert (d = date_2016_04_12) as -> by (apply stamp_inj; lia).
  vm_compute. reflexivity.
Defined.

(** X18: identifiers the registry does not know cost nothing but
    warnings.  If none of the configured identifiers is in the registry, a
    run makes no directory, touches no file, never pauses, and adds to the
    trace only the warnings [Unknown block number: ...] for configured
    identifiers. *)
Theorem unknown_identifiers_only_warn
    (net : Network) (argv lines : list string) (start_date end_date : date)
    (resolutions target_nodes : list string) (nodes : gmap (option string) AmedasNode.t)
    (p : Process) :
  get_amedas_nodes lines = Ok nodes →
  (∀ block_no, block_no ∈ target_nodes → nodes !! Some block_no = None) →
  let p' := (main net argv lines start_date end_date resolutions target_nodes p).2 in
  dirs (world p') = dirs (world p)
  ∧ files (world p') = files (world p)
  ∧ slept_at p' = slept_at p
  ∧ ∃ evs, trace (world p') = trace (world p) ++ evs
           ∧ Forall (fun e => ∃ block_no, block_no ∈ target_nodes
                        ∧ e = EvLog WARNING ("Unknown block number: " +:+ block_no)) evs.
Proof.
  intros Hload Hnone p'.
  apply (main_inv (fun q => dirs (world q) = dirs (world p)
                     ∧ files (world q) = files (world p)
                     ∧ slept_at q = slept_at p
                     ∧ ∃ evs, trace (world q) = trace (world p) ++ evs
                         ∧ Forall (fun e => ∃ block_no, block_no ∈ target_nodes
                             ∧ e = EvLog WARNING ("Unknown block number: " +:+ block_no))
                                  evs)).
  - intros nodes' r d b q Hload' Hr Hs H1 H2 Hb (Hd & Hfi & Hsl & evs & Ht & Hall).
    assert (nodes' = nodes) as -> by congruence.
    rewrite visit_unknown by by apply Hnone. cbn [snd world slept_at]. unfold record.
    cbn [dirs files trace]. repeat split; try done.
    exists (evs ++ [EvLog WARNING ("Unknown block number: " +:+ b)]).
    split; [by rewrite Ht, app_assoc|]. apply Forall_app. split; [exact Hall|].
    constructor; [by exists b|constructor].
  - repeat split. exists []. split; [by rewrite app_nil_r|constructor].
Qed.

Lemma unknown_identifiers_only_warn_witness :
  let p := mkProcess empty_world [] in
  let p' := (main net_up [] [wakkanai_row] date_2016_04_12 date_2016_05_17
                  ["hourly"; "daily"] ["47402"; "1"] p).2 in
  get_amedas_nodes [wakkanai_row] = Ok {[ Some "47401" := wakkanai ]}
  ∧ dirs (world p') = dirs (world p)
  ∧ files (world p') = files (world p)
  ∧ slept_at p' = slept_at p
  ∧ ∃ evs, trace (world p') = trace (world p) ++ evs
           ∧ Forall (fun e => ∃ block_no, block_no ∈ ["47402"; "1"]
                        ∧ e = EvLog WARNING ("Unknown block number: " +:+ block_no)) evs.
Proof.
  intros p p'.
  pose proof wakkanai_registry as H1.
  split; [exact H1|].
  apply (unknown_identifiers_only_warn net_up [] [wakkanai_row] date_2016_04_12
           date_2016_05_17 ["hourly"; "daily"] ["47402"; "1"] _ p H1).
  intros b Hb. apply lookup_singleton_ne.
  apply elem_of_cons in Hb as [->|Hb]; [discriminate|].
  apply list_elem_of_singleton in Hb as ->. discriminate.
Defined.

(** ** [main]: the dates a run visits *)

Lemma file_path_inj (n1 n2 : AmedasNode.t) (r1 r2 : string) (d1 d2 : date) :
  file_path n1 r1 d1 = file_path n2 r2 d2 → r1 = r2 ∧ d1 = d2.
Proof.
  unfold file_path, dir_path, path_join, file_name. cbn [app].
  intros H.
  pose proof (f_equal (fun l => l !! 1%nat) H) as Hr.
  pose proof (f_equal (fun l => l !! 2%nat) H) as Hs.
  pose proof (f_equal (fun l => l !! 4%nat) H) as Hn.
  cbn [lookup list_lookup] in Hr, Hs, Hn.
  injection Hr as Hr. injection Hs as Hs. injection Hn as Hn.
  split; [exact Hr|].
  rewrite <- !(append_assoc (Py.fstr _) "_" (Py.fstr _ +:+ _)) in Hn.
  rewrite <- !(append_assoc (Py.fstr _ +:+ "_") (Py.fstr _)) in Hn.
  rewrite !(append_assoc (Py.fstr _) "_" (Py.fstr _)) in Hn.
  rewrite Hs in Hn. apply (inj (String.app _)) in Hn. apply underscore_inj in Hn.
  by apply strftime_inj in Hn as [-> _].
Qed.

Lemma add_month_fields (d d' : date) :
  add_month d = Done d' →
  (year d' * 12 + month d' = year d * 12 + month d + 1)%N
  ∧ day d' = N.min (days_in_month (year d') (month d')) (day d).
Proof.
  pose proof (date_bounds d) as Hd. unfold add_month.
  destruct (N.ltb_spec 12 (month d + 1));
    match goal with |- context [date_new ?y ?m ?x] =>
      destruct (date_new y m x) as [e|?] eqn:He; [|discriminate] end;
    apply date_new_fields in He as (Hy & Hm & Hdd); intros [= <-];
    rewrite Hy, Hm, Hdd; (split; [lia|reflexivity]).
Qed.

(** A step of one month keeps the day of the month, as long as every month
    has that day. *)
Lemma stepped_keeps_day (resolution : string) (d d' : date) :
  resolution ∉ ["10min"; "hourly"; "real-time"] → (day d ≤ 28)%N →
  stepped resolution d d' → day d' = day d.
Proof.
  intros Hr Hd Hs. induction Hs as [d|d d' d'' Hstep _ IH]; [reflexivity|].
  unfold step in Hstep. rewrite decide_False in Hstep by exact Hr.
  apply add_month_fields in Hstep as [_ Hday].
  pose proof (days_in_month_bounds (year d') (month d')).
  rewrite IH; lia.
Qed.

(** X19: the month of the end date is not always visited.  The step of one
    month keeps the day of the month of the start date (when it is at most
    28) and the loop stops once the date has passed the end date; so when
    the end date's day of the month is earlier than the start date's, no run
    looks up or writes the "daily" cache file of the end date's month, for
    any station. *)
Theorem monthly_run_can_miss_the_end_month
    (net : Network) (argv lines : list string) (start_date end_date : date)
    (resolutions target_nodes : list string) (p : Process) :
  (day start_date ≤ 28)%N → (day end_date < day start_date)%N →
  ∃ evs,
    trace (world (main net argv lines start_date end_date resolutions target_nodes p).2)
    = trace (world p) ++ evs
    ∧ ∀ node path,
        path = file_path node "daily" (first_of_month end_date) →
        (∀ b, EvExists path b ∉ evs) ∧ (∀ c, EvWrite path c ∉ evs).
Proof.
  intros Hstart Hend.
  set (Q := fun e : Event =>
              ∀ node, match e with
                      | EvExists path _ | EvWrite path _ =>
                          path ≠ file_path node "daily" (first_of_month end_date)
                      | _ => True
                      end).
  assert (H : ∃ evs,
    trace (world (main net argv lines start_date end_date resolutions target_nodes p).2)
    = trace (world p) ++ evs ∧ Forall Q evs).
  { apply (main_inv (fun q => ∃ evs, trace (world q) = trace (world p) ++ evs
                       ∧ Forall Q evs)).
    - intros nodes r d b q _ _ Hs H1 H2 _ (evs & Ht & Hall).
      destruct (nodes !! Some b) as [node|] eqn:Hnode.
      + destruct (visit_known net nodes (bool_decide ("-f" ∈ argv)) r d b node q Hnode)
          as (bb & w' & Hsave & ->). cbn [snd world].
        destruct (save_events_ok net node r d (bool_decide ("-f" ∈ argv)) (world q))
          as (b2 & evs2 & w2 & Hs2 & Ht2 & Hall2).
        rewrite Hsave in Hs2. injection Hs2 as <- <-.
        exists (evs ++ evs2). split; [by rewrite Ht2, Ht, app_assoc|].
        apply Forall_app. split; [exact Hall|].
        assert (Hne : ∀ node', file_path node r (date_to_use r d)
                               ≠ file_path node' "daily" (first_of_month end_date)).
        { intros node' Heq. apply file_path_inj in Heq as [-> Heq].
          unfold date_to_use in Heq. rewrite decide_True in Heq by reflexivity.
          assert (Hday : day d = day start_date).
          { apply (stepped_keeps_day "daily"); [|exact Hstart|exact Hs].
            intros Hin. repeat (apply elem_of_cons in Hin as [Hin|Hin]; [discriminate|]).
            by apply elem_of_nil in Hin. }
          destruct (first_of_month_fields d) as (Hy & Hm & _).
          destruct (first_of_month_fields end_date) as (Hy' & Hm' & _).
          rewrite Heq in Hy, Hm. apply date_le_stamp in H2. unfold stamp in H2. lia. }
        eapply Forall_impl; [exact Hall2|]. intros e He node'.
        destruct e as [q0|path ex|u o|path c|l m]; try exact I.
        * cbn in He. rewrite He. apply Hne.
        * cbn in He. destruct He as [-> _]. apply Hne.
      + rewrite visit_unknown by exact Hnode. cbn [snd world]. unfold record. cbn [trace].
        exists (evs ++ [EvLog WARNING ("Unknown block number: " +:+ b)]).
        split; [by rewrite Ht, app_assoc|].
        apply Forall_app. split; [exact Hall|]. by repeat constructor.
    - exists []. split; [by rewrite app_nil_r|constructor]. }
  destruct H as (evs & Ht & Hall). exists evs. split; [exact Ht|].
  intros node path ->. rewrite Forall_forall in Hall.
  split; intros x Hin; by apply (Hall _ Hin node).
Qed.

Lemma monthly_run_can_miss_the_end_month_witness :
  ∃ evs,
    trace (world (main net_up [] [wakkanai_row] (mkdate 2016 1 20 I) (mkdate 2016 3 10 I)
                       ["daily"] ["47401"] (mkProcess empty_world [])).2)
    = trace (world (mkProcess empty_world [])) ++ evs
    ∧ ∀ node path,
        path = file_path node "daily" (first_of_month (mkdate 2016 3 10 I)) →
        (∀ b, EvExists path b ∉ evs) ∧ (∀ c, EvWrite path c ∉ evs).
Proof.
  apply (monthly_run_can_miss_the_end_month net_up [] [wakkanai_row] (mkdate 2016 1 20 I)
           (mkdate 2016 3 10 I) ["daily"] ["47401"] (mkProcess empty_world []));
    cbn [day]; lia.
Defined.

(** The day after [d] is the next date: no date lies between the two, and
    there is one as soon as any date is later than [d]. *)
Lemma add_day_next (d x : date) :
  (stamp d < stamp x)%N → ∃ d', add_day d = Done d' ∧ (stamp d' ≤ stamp x)%N.
Proof.
  intros Hlt. pose proof (date_bounds d) as Hd. pose proof (date_bounds x) as Hx.
  pose proof (days_in_month_bounds (year d) (month d)).
  pose proof (days_in_month_bounds (year x) (month x)).
  unfold stamp in Hlt.
  assert (Hlast : (days_in_month (year d) (month d) ≤ day d)%N →
                  (year d * 12 + month d + 1 ≤ year x * 12 + month x)%N).
  { intros Hlast. destruct (decide (year x = year d ∧ month x = month d)) as [[Hy Hm]|Hne].
    - rewrite Hy, Hm in Hx. lia.
    - lia. }
  unfold add_day.
  destruct (N.ltb_spec (day d) (days_in_month (year d) (month d)));
    [|destruct (N.ltb_spec (month d) 12)];
    match goal with |- context [date_new ?y ?m ?dd] =>
      pose proof (days_in_month_bounds y m);
      destruct (date_new_ok y m dd) as (dn & -> & Hy & Hm & Hdd); [lia..|] end;
    (exists dn; split; [reflexivity|]; unfold stamp; rewrite Hy, Hm, Hdd; lia).
Qed.

(** By steps of one day every later date is reached. *)
Lemma stepped_days (resolution : string) (d d' : date) :
  resolution ∈ ["10min"; "hourly"; "real-time"] → date_le d d' = true →
  stepped resolution d d'.
Proof.
  intros Hr Hle. apply date_le_stamp in Hle.
  remember (N.to_nat (stamp d' - stamp d)) as n eqn:Hn.
  revert d Hle Hn. induction (lt_wf n) as [n _ IH]. intros d Hle Hn.
  destruct (decide (stamp d = stamp d')) as [Heq|Hne].
  - apply stamp_inj in Heq as ->. constructor.
  - destruct (add_day_next d d') as (e & He & Hle'); [lia|].
    pose proof (add_day_grows _ _ He).
    apply (stepped_next _ _ e).
    + unfold step. by rewrite decide_True.
    + apply (IH (N.to_nat (stamp d' - stamp e))); [lia|exact Hle'|reflexivity].
Qed.

Lemma for_each_reaches {A : Type} (I Q : Process → Prop) (l : list A)
      (body : A → Driver unit) (x : A) :
  x ∈ l →
  (∀ y q, (body y q).1 = Done tt) →
  (∀ y q, I q → I (body y q).2) →
  (∀ q, I q → Q (body x q).2) →
  (∀ y q, Q q → Q (body y q).2) →
  ∀ p, I p → Q (for_each l body p).2.
Proof.
  intros Hx Hdone HI HQ Hkeep. induction l as [|y rest IH]; intros p Hp.
  - by apply elem_of_nil in Hx.
  - cbn [for_each]. rewrite driver_bind_run.
    pose proof (Hdone y p) as Hy. pose proof (HI y p Hp) as HIy.
    apply elem_of_cons in Hx as [->|Hx].
    + pose proof (HQ p Hp) as HQy.
      destruct (body y p) as [[[]|c] p1]; [|discriminate].
      apply for_each_inv; [|exact HQy]. intros z _ q. apply Hkeep.
    + destruct (body y p) as [[[]|c] p1]; [|discriminate].
      by apply IH.
Qed.

Lemma while_dates_reaches (I Q : Process → Prop) (body : date → Driver unit)
      (resolution : string) (end_date : date) (d d' : date) :
  stepped resolution d d' → date_le d' end_date = true →
  (∀ x q, (body x q).1 = Done tt) →
  (∀ x q, I q → I (body x q).2) →
  (∀ q, I q → Q (body d' q).2) →
  (∀ x q, Q q → Q (body x q).2) →
  ∀ fuel p, (turns_needed d end_date ≤ fuel)%nat → I p →
            Q (while_dates fuel body resolution d end_date p).2.
Proof.
  intros Hs Hle Hdone HI HQ Hkeep.
  induction Hs as [d|d e d' Hstep Hs IH]; intros fuel p Hfuel Hp.
  - unfold turns_needed, turns in Hfuel. rewrite Hle in Hfuel.
    destruct fuel as [|fuel]; [lia|]. cbn [while_dates]. rewrite Hle, driver_bind_run.
    pose proof (Hdone d p) as Hd. pose proof (HQ p Hp) as HQd.
    destruct (body d p) as [[[]|c] p1]; [|discriminate]. cbn [snd] in HQd.
    rewrite driver_bind_run. unfold ending.
    destruct (step resolution d) as [e|c]; [|exact HQd].
    apply while_dates_inv; [|exact HQd]. intros x _ _ _ q. apply Hkeep.
  - specialize (IH Hle HQ).
    pose proof (step_grows _ _ _ Hstep) as Hgrow.
    pose proof (stepped_le _ _ _ Hs) as Hle'. apply date_le_stamp in Hle'.
    pose proof Hle as Hle2. apply date_le_stamp in Hle2.
    assert (Hde : date_le d end_date = true) by (apply date_le_stamp; lia).
    assert (Hee : date_le e end_date = true) by (apply date_le_stamp; lia).
    unfold turns_needed, turns in Hfuel. rewrite Hde in Hfuel.
    destruct fuel as [|fuel]; [lia|]. cbn [while_dates]. rewrite Hde, driver_bind_run.
    pose proof (Hdone d p) as Hd. pose proof (HI d p Hp) as HId.
    destruct (body d p) as [[[]|c] p1]; [|discriminate]. cbn [snd] in HId.
    rewrite driver_bind_run. unfold ending. rewrite Hstep.
    apply IH; [|exact HId]. unfold turns_needed, turns. rewrite Hee. lia.
Qed.

(** X20: [main] leaves out no date on its way.  When the reference table
    loads, the end date lies before the year 9999 and the stations and
    resolutions the run can visit have plain path segments, then for every
    configured resolution, every configured identifier the registry knows
    and every date up to the end date (any date from the start date on when
    the step is one day, a date the monthly steps reach otherwise) the run
    looks up the cache file of that station, resolution and date. *)
Theorem main_looks_up_every_date
    (net : Network) (argv lines : list string) (start_date end_date : date)
    (resolutions target_nodes : list string) (nodes : gmap (option string) AmedasNode.t)
    (p : Process) (resolution : string) (d : date) (block_no : string)
    (node : AmedasNode.t) :
  get_amedas_nodes lines = Ok nodes →
  (year end_date < 9999)%N →
  plain_run nodes resolutions target_nodes →
  resolution ∈ resolutions →
  block_no ∈ target_nodes →
  nodes !! Some block_no = Some node →
  date_le d end_date = true →
  (resolution ∈ ["10min"; "hourly"; "real-time"] ∧ date_le start_date d = true)
  ∨ stepped resolution start_date d →
  ∃ evs b,
    trace (world (main net argv lines start_date end_date resolutions target_nodes p).2)
    = trace (world p) ++ evs
    ∧ EvExists (file_path node resolution (date_to_use resolution d)) b ∈ evs.
Proof.
  intros Hload Hend _ Hr Hb Hnode Hle Hd.
  assert (Hs : stepped resolution start_date d).
  { destruct Hd as [[Hday Hle']|Hs]; [by apply stepped_days|exact Hs]. }
  set (fp := file_path node resolution (date_to_use resolution d)).
  set (J := fun q : Process => ∃ evs, trace (world q) = trace (world p) ++ evs).
  set (Q := fun q : Process =>
              ∃ evs b, trace (world q) = trace (world p) ++ evs ∧ EvExists fp b ∈ evs).
  set (force := bool_decide ("-f" ∈ argv)).
  assert (Hgrow : ∀ r x y q, ∃ evs,
             trace (world (visit net nodes force r x y q).2) = trace (world q) ++ evs).
  { intros r x y q. destruct (nodes !! Some y) as [n|] eqn:Hn.
    - destruct (visit_known net nodes force r x y n q Hn) as (bb & w' & Hsave & ->).
      destruct (save_events_ok net n r x force (world q)) as (b2 & evs & w2 & H2 & Ht & _).
      rewrite Hsave in H2. injection H2 as <- <-. by exists evs.
    - rewrite visit_unknown by exact Hn. by eexists. }
  assert (HI : ∀ r x y q, J q → J (visit net nodes force r x y q).2).
  { intros r x y q [evs Ht]. destruct (Hgrow r x y q) as [evs' Ht'].
    exists (evs ++ evs'). by rewrite Ht', Ht, app_assoc. }
  assert (HQ : ∀ r x y q, Q q → Q (visit net nodes force r x y q).2).
  { intros r x y q (evs & b & Ht & Hin). destruct (Hgrow r x y q) as [evs' Ht'].
    exists (evs ++ evs'), b. split; [by rewrite Ht', Ht, app_assoc|].
    apply elem_of_app. by left. }
  assert (Hdone : ∀ r x q,
             (for_each target_nodes (visit net nodes force r x) q).1 = Done tt).
  { intros r x q. apply for_each_done. intros y q' _. apply visit_done. }
  unfold main. fold force. rewrite driver_bind_run. unfold ending. rewrite Hload.
  cbn [of_result]. fold (Q (for_each resolutions
    (fun r => while_dates (turns start_date end_date)
       (fun date_iter => for_each target_nodes (visit net nodes force r date_iter))
       r start_date end_date) p).2).
  apply (for_each_reaches J Q resolutions _ resolution Hr).
  - intros r q. by apply while_dates_done.
  - intros r q Hq. apply while_dates_inv; [|exact Hq]. intros x _ _ _ q' Hq'.
    apply for_each_inv; [|exact Hq']. intros y _ q''. apply HI.
  - intros q Hq. apply (while_dates_reaches J Q _ resolution end_date start_date d Hs Hle).
    + apply Hdone.
    + intros x q' Hq'. apply for_each_inv; [|exact Hq']. intros y _ q''. apply HI.
    + intros q' Hq'. apply (for_each_reaches J Q target_nodes _ block_no Hb).
      * intros y q''. apply visit_done.
      * intros y q''. apply HI.
      * intros q'' [evs Ht].
        destruct (visit_known net nodes force resolution d block_no node q'' Hnode)
          as (bb & w' & Hsave & ->). unfold Q. cbn [snd world].
        destruct (save_shape net node resolution d force (world q''))
          as (b2 & evs2 & w2 & H2 & Ht2 & _).
        rewrite Hsave in H2. injection H2 as <- <-.
        exists (evs ++ map EvMkdir
                         (ancestors_and_self
                            (dir_path node resolution (date_to_use resolution d)))
                    ++ EvExists fp (exists_in (world q'') fp) :: evs2),
               (exists_in (world q'') fp).
        split; [by rewrite Ht2, Ht, <- app_assoc|].
        apply elem_of_app. right. apply elem_of_app. right. apply list_elem_of_here.
      * intros y q''. apply HQ.
      * exact Hq'.
    + intros x q' Hq'. apply for_each_inv; [|exact Hq']. intros y _ q''. apply HQ.
    + unfold turns_needed. destruct (date_le start_date end_date); [apply Nat.le_refl|apply Nat.le_0_l].
    + exact Hq.
  - intros r q Hq. apply while_dates_inv; [|exact Hq]. intros x _ _ _ q' Hq'.
    apply for_each_inv; [|exact Hq']. intros y _ q''. apply HQ.
  - exists []. by rewrite app_nil_r.
Qed.

Lemma main_looks_up_every_date_witness :
  get_amedas_nodes [wakkanai_row] = Ok {[ Some "47401" := wakkanai ]}
  ∧ plain_run {[ Some "47401" := wakkanai ]} ["daily"; "hourly"] ["00000"; "47401"]
  ∧ ∃ evs b,
      trace (world (main net_down [] [wakkanai_row] date_2016_04_12 date_2016_05_17
                         ["daily"; "hourly"] ["00000"; "47401"]
                         (mkProcess empty_world [])).2)
      = trace (world (mkProcess empty_world [])) ++ evs
      ∧ EvExists (file_path wakkanai "hourly" (date_to_use "hourly" date_2016_05_01)) b
        ∈ evs.
Proof.
  pose proof wakkanai_registry as H1.
  assert (H2 : plain_run {[ Some "47401" := wakkanai ]} ["daily"; "hourly"]
                         ["00000"; "47401"]).
  { intros b node r _ Hnode Hr. apply lookup_singleton_Some in Hnode as [_ <-].
    repeat (apply elem_of_cons in Hr as [->|Hr]; [split; reflexivity|]).
    by apply elem_of_nil in Hr. }
  split; [exact H1|]. split; [exact H2|].
  apply (main_looks_up_every_date net_down [] [wakkanai_row] date_2016_04_12
           date_2016_05_17 ["daily"; "hourly"] ["00000"; "47401"] _
           (mkProcess empty_world []) "hourly" date_2016_05_01 "47401" wakkanai H1).
  - reflexivity.
  - exact H2.
  - apply list_elem_of_further, list_elem_of_here.
  - apply list_elem_of_further, list_elem_of_here.
  - apply lookup_singleton_eq.
  - reflexivity.
  - left. split; [|reflexivity]. apply list_elem_of_further, list_elem_of_here.
Defined.

(** * The paths of the model and those of [pathlib] *)

Lemma chars_app (a b : string) :
  list_ascii_of_string (a +:+ b) = list_ascii_of_string a ++ list_ascii_of_string b.
Proof.
  induction a as [|c a IH]; [reflexivity|].
  change (String c a +:+ b) with (String c (a +:+ b)).
  cbn [list_ascii_of_string]. by rewrite IH.
Qed.

(** A string of plain characters one of which is not a dot is a plain
    segment. *)
Lemma plain_segment_intro (s : string) (c : ascii) :
  forallb plain_char (list_ascii_of_string s) = true →
  c ∈ list_ascii_of_string s → c ≠ "."%char →
  plain_segment s = true.
Proof.
  intros Hall Hc Hdot. unfold plain_segment. rewrite Hall, andb_true_r.
  destruct s as [|a [|b [|x r]]]; try reflexivity.
  - by apply elem_of_nil in Hc.
  - apply list_elem_of_singleton in Hc as <-. cbn.
    destruct (Ascii.eqb_spec c "."); [done|reflexivity].
  - cbn. apply elem_of_cons in Hc as [<-|Hc].
    + destruct (Ascii.eqb_spec c "."); [done|reflexivity].
    + apply list_elem_of_singleton in Hc as <-.
      destruct (Ascii.eqb_spec a "."); [|reflexivity].
      destruct (Ascii.eqb_spec c "."); [done|reflexivity].
  - cbn. destruct (Ascii.eqb a "."); [|reflexivity].
    destruct (Ascii.eqb b "."); reflexivity.
Qed.

Lemma plain_segment_chars (s : string) :
  plain_segment s = true → forallb plain_char (list_ascii_of_string s) = true.
Proof. unfold plain_segment. rewrite !andb_true_iff. tauto. Qed.

Lemma digits_plain (u : Decimal.uint) :
  forallb (fun c => plain_char c && negb (Ascii.eqb c "."))
          (list_ascii_of_string (NilEmpty.string_of_uint u)) = true.
Proof. induction u; cbn; auto. Qed.

Lemma str_N_chars (n : N) :
  forallb (fun c => plain_char c && negb (Ascii.eqb c "."))
          (list_ascii_of_string (Py.str_N n)) = true.
Proof. apply digits_plain. Qed.

Lemma zeros_chars (k : nat) :
  forallb plain_char (list_ascii_of_string (Py.zeros k)) = true.
Proof. induction k; cbn; auto. Qed.

Lemma forallb_weaken {A : Type} (f g : A → bool) (l : list A) :
  (∀ x, f x = true → g x = true) → forallb f l = true → forallb g l = true.
Proof.
  intros H. induction l as [|x l IH]; [done|]. cbn. rewrite !andb_true_iff.
  intros [Hx Hl]. auto.
Qed.

Lemma zfill_chars (w : nat) (n : N) :
  forallb plain_char (list_ascii_of_string (Py.zfill w n)) = true.
Proof.
  unfold Py.zfill. rewrite chars_app, forallb_app, zeros_chars.
  apply (forallb_weaken _ _ _ (fun c H => proj1 (andb_prop _ _ H)) (str_N_chars n)).
Qed.

Lemma str_N_plain (n : N) : plain_segment (Py.str_N n) = true.
Proof.
  pose proof (str_N_chars n) as H.
  assert (Hne : Py.str_N n ≠ EmptyString).
  { unfold Py.str_N. destruct n as [|p]; [discriminate|]. cbn.
    pose proof (Unsigned.to_uint_nonnil p) as Hp.
    destruct (Pos.to_uint p); [done|discriminate..]. }
  destruct (Py.str_N n) as [|c r] eqn:Hs; [done|].
  cbn [list_ascii_of_string forallb] in H. apply andb_true_iff in H as [Hc Hr].
  apply andb_true_iff in Hc as [Hc Hdot].
  apply (plain_segment_intro _ c).
  - cbn [list_ascii_of_string forallb]. rewrite Hc. cbn.
    apply (forallb_weaken _ _ _ (fun c H => proj1 (andb_prop _ _ H)) Hr).
  - apply list_elem_of_here.
  - intros ->. discriminate.
Qed.

(** With plain segments the path [pathlib] builds from the strings [save]
    joins is the path of the model, component by component. *)
Lemma plain_paths_file_path (self : AmedasNode.t) (data_type : string) (d : date) :
  plain_paths self data_type →
  forallb plain_segment (file_path self data_type d) = true
  ∧ concat (map pathlib_parts (file_path self data_type d)) = file_path self data_type d.
Proof.
  intros [Hdt Hst].
  assert (Hall : forallb plain_segment (file_path self data_type d) = true).
  { unfold file_path, dir_path, path_join. cbn [app forallb].
    rewrite Hdt, Hst, str_N_plain. cbn [andb]. rewrite andb_true_r.
    apply (plain_segment_intro _ "_").
    - unfold file_name.
      rewrite <- (append_assoc (Py.fstr _) "_" (Py.fstr _ +:+ _)).
      rewrite <- (append_assoc (Py.fstr _ +:+ "_") (Py.fstr _)).
      rewrite (append_assoc (Py.fstr _) "_" (Py.fstr _)).
      rewrite chars_app, forallb_app, (plain_segment_chars _ Hst). cbn [andb].
      unfold strftime_Y_m_d.
      rewrite !chars_app, !forallb_app, !zfill_chars. reflexivity.
    - unfold file_name. rewrite chars_app. apply elem_of_app. right.
      apply list_elem_of_here.
    - discriminate. }
  split; [exact Hall|].
  induction (file_path self data_type d) as [|x l IH]; [reflexivity|].
  cbn [forallb] in Hall. apply andb_true_iff in Hall as [Hx Hl].
  cbn [map concat]. by rewrite (pathlib_parts_plain x Hx), (IH Hl).
Qed.
